(** * CampusTalentInsight: the enrichment, aggregation and report pipeline

    A shallow embedding of [src/core/data_processor.py] (class
    [DataProcessor]) and of [src/utils/report_generator.py] (class
    [ReportGenerator]), with the Python and pandas operations they call,
    followed by the properties of the pipeline.

    Python values are modelled as the interpreter holds them: a [str] is a
    sequence of Unicode code points, an [int] is an unbounded integer, a
    [float] is an IEEE 754 binary64 number, an exception is a value of
    [exn] that propagates until a handler catches it. *)

From Stdlib Require Import ZArith NArith List String Ascii Floats Uint63.
From Stdlib Require Import DecimalString Sorted.
From stdpp Require Import base option list gmap.
Import ListNotations.

Set Default Proof Using "Type".
Local Open Scope Z_scope.

(* ===================================================================== *)
(** * Python: strings, exceptions, built-ins *)
(* ===================================================================== *)

Module Py.

(** A code point, and a Python [str]. *)
Abbreviation char := N (only parsing).
Abbreviation str := (list N) (only parsing).

(** Source literals are written in UTF-8; [utf8_decode] turns the bytes of a
    literal into the code points Python sees. *)
Fixpoint utf8_decode (bs : list N) : str :=
  match bs with
  | [] => []
  | b :: r =>
    if (b <? 128)%N then b :: utf8_decode r
    else if (b <? 224)%N then
      match r with
      | c1 :: r' =>
        N.lor (N.shiftl (N.land b 31) 6) (N.land c1 63) :: utf8_decode r'
      | _ => []
      end
    else if (b <? 240)%N then
      match r with
      | c1 :: c2 :: r' =>
        N.lor (N.shiftl (N.land b 15) 12)
          (N.lor (N.shiftl (N.land c1 63) 6) (N.land c2 63)) :: utf8_decode r'
      | _ => []
      end
    else
      match r with
      | c1 :: c2 :: c3 :: r' =>
        N.lor (N.shiftl (N.land b 7) 18)
          (N.lor (N.shiftl (N.land c1 63) 12)
             (N.lor (N.shiftl (N.land c2 63) 6) (N.land c3 63))) :: utf8_decode r'
      | _ => []
      end
  end.

(** [py "..."] is the Python string written by that literal. *)
Definition py (s : string) : str :=
  utf8_decode (map N_of_ascii (list_ascii_of_string s)).

(** The one code point of a one-character literal. *)
Definition chr (s : string) : char := hd 0%N (py s).

(** ** Exceptions *)

Inductive exn : Set :=
  | ValueError | IndexError | KeyError | ZeroDivisionError
  | TypeError | AttributeError | SystemError.

Inductive result (A : Type) : Type :=
  | Ok (a : A)
  | Raise (e : exn).
Arguments Ok {A} a.
Arguments Raise {A} e.

#[global] Instance exn_eq_dec : EqDecision exn.
Proof. solve_decision. Defined.
#[global] Instance result_eq_dec {A} `{EqDecision A} : EqDecision (result A).
Proof. solve_decision. Defined.

#[global] Instance result_ret : MRet result := @Ok.
#[global] Instance result_bind : MBind result := λ A B f m,
  match m with Ok a => f a | Raise e => Raise e end.
#[global] Instance result_fmap : FMap result := λ A B f m,
  match m with Ok a => Ok (f a) | Raise e => Raise e end.

(** [try: body except (e1, e2, ...): handler]; [caught] lists the exception
    classes of the [except] clause. *)
Definition try_except {A} (body : result A) (caught : list exn)
    (handler : result A) : result A :=
  match body with
  | Ok a => Ok a
  | Raise e =>
    if existsb (λ c, match c, e with
                     | ValueError, ValueError | IndexError, IndexError
                     | KeyError, KeyError | ZeroDivisionError, ZeroDivisionError
                     | TypeError, TypeError | AttributeError, AttributeError
                     | SystemError, SystemError => true
                     | _, _ => false
                     end) caught
    then handler else Raise e
  end.

(** ** [str] operations *)

Definition str_eqb (a b : str) : bool := bool_decide (a = b).

(** [s.startswith(p)] *)
Fixpoint startswith (p s : str) : bool :=
  match p, s with
  | [], _ => true
  | _ :: _, [] => false
  | a :: p', b :: s' => (a =? b)%N && startswith p' s'
  end.

(** [sub in s] *)
Fixpoint contains (sub s : str) : bool :=
  startswith sub s ||
  match s with
  | [] => false
  | _ :: s' => contains sub s'
  end.

(** [s.endswith(p)] *)
Definition endswith (p s : str) : bool := startswith (rev p) (rev s).

(** [s[:n]] for [n >= 0] *)
Definition slice_to (n : nat) (s : str) : str := take n s.

(** [s[:-1]] *)
Definition drop_last (s : str) : str := take (length s - 1)%nat s.

(** [s.split(sep)] for a separator of one character, which is how both call
    sites use it; the result is never empty. *)
Fixpoint split (sep : char) (s : str) : list str :=
  match s with
  | [] => [[]]
  | c :: s' =>
    if (c =? sep)%N then [] :: split sep s'
    else match split sep s' with
         | h :: t => (c :: h) :: t
         | [] => [[c]]
         end
  end.

(** [l[i]] for [i >= 0] *)
Definition getitem {A} (l : list A) (i : nat) : result A :=
  match l !! i with
  | Some a => Ok a
  | None => Raise IndexError
  end.

(** [sep.join(l)] *)
Fixpoint join (sep : str) (l : list str) : str :=
  match l with
  | [] => []
  | [a] => a
  | a :: r => a ++ sep ++ join sep r
  end.

(** A [dict] with [str] keys, in insertion order; keys are not repeated.
    [dict_get] is both [k in d] and [d[k]]. *)
Fixpoint dict_get {V} (d : list (str * V)) (k : str) : option V :=
  match d with
  | [] => None
  | (k', v) :: r => if str_eqb k' k then Some v else dict_get r k
  end.

(** A [for] loop that threads an accumulator and stops at an exception. *)
Fixpoint for_each {A B} (l : list A) (acc : B) (body : B → A → result B)
    : result B :=
  match l with
  | [] => Ok acc
  | a :: r => acc' ← body acc a; for_each r acc' body
  end.

(** ** [int(s)] for a [str] argument

    CPython first maps the string to ASCII
    ([_PyUnicode_TransformDecimalAndSpaceToASCII]), then parses it in base
    10 ([PyLong_FromString]): optional white space, an optional sign, digits
    with single underscores between them, optional white space. *)

(** [Py_ISSPACE]: the C-locale white space of the parser. *)
Definition Py_ISSPACE (c : char) : bool :=
  ((9 <=? c) && (c <=? 13) || (c =? 32))%N.

(** [Py_UNICODE_ISSPACE] *)
Definition Py_UNICODE_ISSPACE (c : char) : bool :=
  ((9 <=? c) && (c <=? 13) || (28 <=? c) && (c <=? 32)
   || (c =? 0x85) || (c =? 0xA0) || (c =? 0x1680)
   || (0x2000 <=? c) && (c <=? 0x200A)
   || (c =? 0x2028) || (c =? 0x2029) || (c =? 0x202F)
   || (c =? 0x205F) || (c =? 0x3000))%N.

(** The code points of the digit zero of every decimal-digit block of the
    Unicode character database (version 14.0, the one of CPython 3.11);
    each block is ten consecutive code points. *)
Definition decimal_zeros : list N :=
  [0x30; 0x660; 0x6f0; 0x7c0; 0x966; 0x9e6; 0xa66; 0xae6; 0xb66; 0xbe6;
   0xc66; 0xce6; 0xd66; 0xde6; 0xe50; 0xed0; 0xf20; 0x1040; 0x1090;
   0x17e0; 0x1810; 0x1946; 0x19d0; 0x1a80; 0x1a90; 0x1b50; 0x1bb0;
   0x1c40; 0x1c50; 0xa620; 0xa8d0; 0xa900; 0xa9d0; 0xa9f0; 0xaa50;
   0xabf0; 0xff10; 0x104a0; 0x10d30; 0x11066; 0x110f0; 0x11136; 0x111d0;
   0x112f0; 0x11450; 0x114d0; 0x11650; 0x116c0; 0x11730; 0x118e0;
   0x11950; 0x11c50; 0x11d50; 0x11da0; 0x16a60; 0x16ac0; 0x16b50;
   0x1d7ce; 0x1d7d8; 0x1d7e2; 0x1d7ec; 0x1d7f6; 0x1e140; 0x1e2f0;
   0x1e950; 0x1fbf0]%N.

(** [Py_UNICODE_TODECIMAL] *)
Definition Py_UNICODE_TODECIMAL (c : char) : option N :=
  match List.find (λ z, (z <=? c) && (c <? z + 10))%N decimal_zeros with
  | Some z => Some (c - z)%N
  | None => None
  end.

Fixpoint transform_chars (s : str) : str :=
  match s with
  | [] => []
  | c :: r =>
    if (c <? 127)%N then c :: transform_chars r
    else if Py_UNICODE_ISSPACE c then 32%N :: transform_chars r
    else match Py_UNICODE_TODECIMAL c with
         | Some d => (48 + d)%N :: transform_chars r
         | None => [63%N]
         end
  end.

Definition transform_decimal_and_space (s : str) : str :=
  if forallb (λ c, c <? 128)%N s then s else transform_chars s.

Fixpoint skip_space (s : str) : str :=
  match s with
  | c :: r => if Py_ISSPACE c then skip_space r else s
  | [] => []
  end.

Definition is_digit (c : char) : bool := ((48 <=? c) && (c <=? 57))%N.

(** The digit loop of [long_from_string_base]: [prev] is the character read
    before, [acc] the value so far, [digits] the number of digits read. It
    yields the value, the digit count and the unread rest, or nothing when
    underscores are doubled or trail. *)
Fixpoint scan_digits (s : str) (prev : char) (acc : Z) (digits : nat)
    : option (Z * nat * str) :=
  match s with
  | c :: r =>
    if is_digit c then scan_digits r c (acc * 10 + Z.of_N (c - 48)) (S digits)
    else if (c =? 95)%N then
      if (prev =? 95)%N then None else scan_digits r c acc digits
    else if (prev =? 95)%N then None else Some (acc, digits, s)
  | [] => if (prev =? 95)%N then None else Some (acc, digits, [])
  end.

(** [sys.get_int_max_str_digits()], at its default; the limit is only
    consulted above [_PY_LONG_MAX_STR_DIGITS_THRESHOLD] digits. *)
Definition int_max_str_digits : nat := 4300.
Definition MAX_STR_DIGITS_THRESHOLD : nat := 640.

Definition long_from_string (s : str) : result Z :=
  let s1 := skip_space s in
  let '(negative, s2) :=
    match s1 with
    | c :: r => if (c =? 43)%N then (false, r)
                else if (c =? 45)%N then (true, r) else (false, s1)
    | [] => (false, s1)
    end in
  match s2 with
  | c :: _ => if (c =? 95)%N then Raise ValueError else
    match scan_digits s2 0%N 0 0 with
    | None => Raise ValueError
    | Some (v, digits, rest) =>
      if (digits =? 0)%nat then Raise ValueError
      else match skip_space rest with
           | _ :: _ => Raise ValueError
           | [] =>
             if (MAX_STR_DIGITS_THRESHOLD <? digits)%nat
                && (0 <? int_max_str_digits)%nat
                && (int_max_str_digits <? digits)%nat
             then Raise ValueError
             else Ok (if negative then - v else v)
           end
    end
  | [] => Raise ValueError
  end.

Definition int (s : str) : result Z :=
  long_from_string (transform_decimal_and_space s).

(** [str(n)] for an [int] *)
Definition str_of_int (n : Z) : str :=
  map N_of_ascii (list_ascii_of_string (NilZero.string_of_int (Z.to_int n))).

(** ** [int] and [float] arithmetic *)

(** The [float] nearest to an integer. *)
Definition float_of_int (n : Z) : float :=
  SF2Prim (binary_normalize prec emax n 0 false).

(** An integer as an exact, not yet rounded, binary number; [neg] is the
    sign taken when it is zero. *)
Definition exact_int (n : Z) (neg : bool) : spec_float :=
  match n with
  | Z0 => S754_zero neg
  | Zpos p => S754_finite false p 0
  | Zneg p => S754_finite true p 0
  end.

(** The [float] nearest to the quotient of two integers, the second one not
    zero. *)
Definition quotient (a b : Z) : float :=
  SF2Prim (SFdiv prec emax (exact_int a false) (exact_int b false)).

(** [a / b] for two [int]s: the correctly rounded quotient, or
    [ZeroDivisionError]. *)
Definition truediv (a b : Z) : result float :=
  if b =? 0 then Raise ZeroDivisionError else Ok (quotient a b).

Definition round_half_even (num den : Z) : Z :=
  let q := num / den in
  let r := num mod den in
  match 2 * r ?= den with
  | Lt => q
  | Gt => q + 1
  | Eq => if Z.even q then q else q + 1
  end.

(** [round(x, 1)] for a [float]: the exact value of [x] is rounded to one
    decimal, halves to even, and the [float] nearest to that decimal is
    returned; infinities and NaN are returned as they are. *)
Definition round1 (x : float) : float :=
  match Prim2SF x with
  | S754_finite s m e =>
    let n := if 0 <=? e then 10 * Z.pos m * 2 ^ e
             else round_half_even (10 * Z.pos m) (2 ^ (- e)) in
    SF2Prim (SFdiv prec emax (exact_int (if s then - n else n) s)
                             (exact_int 10 false))
  | _ => x
  end.

End Py.

(* ===================================================================== *)
(** * pandas: cells, frames, and the operations the pipeline calls *)
(* ===================================================================== *)

Module Pandas.
Import Py.

(** A cell of a frame: a Python [str], an [int], the float [nan] that pandas
    puts in a blank cell, or [None]. Columns are held as pandas holds
    [object] columns (and [int64] columns of integers); a non-empty column of
    blank cells only, which [read_excel] stores as [float64], and cells of
    other types (floats, timestamps) are not represented. *)
Inductive value : Type :=
  | VStr (s : str)
  | VInt (n : Z)
  | VNaN
  | VNone.

#[global] Instance value_eq_dec : EqDecision value.
Proof. solve_decision. Defined.

(** [pd.isna(v)] *)
Definition isna (v : value) : bool :=
  match v with
  | VNaN | VNone => true
  | _ => false
  end.

(** [str(v)] *)
Definition to_str (v : value) : str :=
  match v with
  | VStr s => s
  | VInt n => str_of_int n
  | VNaN => py "nan"
  | VNone => py "None"
  end.

(** [a == b]; [nan] equals nothing, itself included. *)
Definition eqb (a b : value) : bool :=
  match a, b with
  | VStr s, VStr t => str_eqb s t
  | VInt m, VInt n => m =? n
  | VNone, VNone => true
  | _, _ => false
  end.

(** A [Series] is the list of its cells in index order. *)
Abbreviation Series := (list value) (only parsing).

(** A row handed to a function by [DataFrame.apply(f, axis=1)]: the labels of
    the columns with the cells of that row. *)
Abbreviation Row := (list (list N * value)) (only parsing).

(** [row.get(key, default)] *)
Fixpoint row_get (row : Row) (key : str) (default : value) : value :=
  match row with
  | [] => default
  | (k, v) :: r => if str_eqb k key then v else row_get r key default
  end.

(** A [DataFrame]: the length of its index and its columns, in order, each a
    label with the cells of that column. *)
Record DataFrame : Type := {
  index_len : nat;
  columns : list (str * Series)
}.

(** Every column is as long as the index, and labels are not repeated. *)
Definition wf (df : DataFrame) : Prop :=
  NoDup (columns df).*1 ∧
  Forall (λ c, length c.2 = index_len df) (columns df).

Fixpoint lookup_column (cols : list (str * Series)) (c : str) : option Series :=
  match cols with
  | [] => None
  | (k, vs) :: r => if str_eqb k c then Some vs else lookup_column r c
  end.

(** [df[c]] *)
Definition df_getitem (df : DataFrame) (c : str) : result Series :=
  match lookup_column (columns df) c with
  | Some vs => Ok vs
  | None => Raise KeyError
  end.

Fixpoint set_column (cols : list (str * Series)) (c : str) (vs : Series)
    : list (str * Series) :=
  match cols with
  | [] => [(c, vs)]
  | (k, ws) :: r =>
    if str_eqb k c then (k, vs) :: r else (k, ws) :: set_column r c vs
  end.

(** [df[c] = vs]: replaces the column labelled [c] where it stands, or
    appends a new last column; pandas refuses values of another length. *)
Definition df_setitem (df : DataFrame) (c : str) (vs : Series)
    : result DataFrame :=
  if (length vs =? index_len df)%nat
  then Ok {| index_len := index_len df;
             columns := set_column (columns df) c vs |}
  else Raise ValueError.

(** [len(df)] *)
Definition df_len (df : DataFrame) : Z := Z.of_nat (index_len df).

(** The rows of a frame, as [apply(axis=1)] hands them over. *)
Definition row_at (df : DataFrame) (i : nat) : Row :=
  omap (λ c, (λ v, (c.1, v)) <$> c.2 !! i) (columns df).

Definition rows (df : DataFrame) : list Row :=
  (row_at df) <$> seq 0 (index_len df).

(** [series.apply(f)] and [df.apply(f, axis=1)], for an [f] that may raise. *)
Definition series_apply (f : value → result value) (s : Series)
    : result Series := mapM f s.

Definition df_apply_rows (f : Row → result value) (df : DataFrame)
    : result Series := mapM f (rows df).

(** [series == scalar] *)
Definition series_eq (s : Series) (x : value) : list bool :=
  (λ v, eqb v x) <$> s.

(** The check of the [.str] accessor, on the type pandas infers for the
    cells that are not missing: a column of integers only is refused. *)
Definition is_int (v : value) : bool :=
  match v with VInt _ => true | _ => false end.

Definition str_accessor (s : Series) : result unit :=
  match filter (λ v, isna v = false) s with
  | VInt _ :: r => if forallb is_int r then Raise AttributeError else Ok ()
  | _ => Ok ()
  end.

(** [series.str.contains(pat, na=False)] for a pattern without regular
    expression operators, which is then a plain substring; a cell that is
    not a [str] gives a missing answer, that [na=False] turns into [False]. *)
Definition str_contains (pat : str) (s : Series) : result (list bool) :=
  _ ← str_accessor s;
  Ok ((λ v, match v with VStr t => contains pat t | _ => false end) <$> s).

(** [df[mask]] for a boolean mask over the rows. *)
Fixpoint select {A} (mask : list bool) (l : list A) : list A :=
  match mask, l with
  | b :: m, x :: r => if b then x :: select m r else select m r
  | _, _ => []
  end.

Definition df_mask (df : DataFrame) (mask : list bool) : DataFrame :=
  {| index_len := length (select mask (seq 0 (index_len df)));
     columns := (λ c, (c.1, select mask c.2)) <$> columns df |}.

(** [series.value_counts()]: missing cells are dropped, the distinct values
    are counted in the order they first appear, and then sorted by count,
    largest first. The sort is stable here; pandas leaves the order of
    values with equal counts to the sorting routine. *)
Fixpoint count_value (v : value) (acc : list (value * Z)) : list (value * Z) :=
  match acc with
  | [] => [(v, 1)]
  | (k, n) :: r =>
    if bool_decide (k = v) then (k, n + 1) :: r else (k, n) :: count_value v r
  end.

Definition tally (s : Series) : list (value * Z) :=
  foldl (λ acc v, if isna v then acc else count_value v acc) [] s.

Fixpoint insert_desc (x : value * Z) (l : list (value * Z)) : list (value * Z) :=
  match l with
  | [] => [x]
  | y :: r => if x.2 <? y.2 then y :: insert_desc x r else x :: y :: r
  end.

Definition sort_desc (l : list (value * Z)) : list (value * Z) :=
  foldr insert_desc [] l.

Definition value_counts (s : Series) : list (value * Z) :=
  sort_desc (tally s).

(** [c in df.columns] *)
Definition has_label (df : DataFrame) (c : str) : bool :=
  bool_decide (c ∈ (columns df).*1).

(** [df.empty]: one of the two axes has length zero. *)
Definition df_empty (df : DataFrame) : bool :=
  (index_len df =? 0)%nat || (length (columns df) =? 0)%nat.

(** [counts.head(n)] *)
Definition head {A} (n : nat) (l : list A) : list A := take n l.

(** [int(v)] for a cell: [nan] cannot be converted, [None] is no number. *)
Definition int_of (v : value) : result Z :=
  match v with
  | VInt n => Ok n
  | VStr s => int s
  | VNaN => Raise ValueError
  | VNone => Raise TypeError
  end.

(** ** The store of frames

    A frame is a mutable object reached through a reference; [df.copy()]
    allocates a new one and [df[c] = vs] updates the one referred to. *)
Abbreviation ref := nat (only parsing).
Abbreviation heap := (list DataFrame) (only parsing).

Definition prog (A : Type) : Type := heap → result A * heap.

#[global] Instance prog_ret : MRet prog := λ A a h, (Ok a, h).
#[global] Instance prog_bind : MBind prog := λ A B f m h,
  match m h with
  | (Ok a, h') => f a h'
  | (Raise e, h') => (Raise e, h')
  end.

Definition lift {A} (r : result A) : prog A := λ h, (r, h).

Definition deref (l : ref) : prog DataFrame := λ h,
  match h !! l with
  | Some df => (Ok df, h)
  | None => (Raise SystemError, h)
  end.

(** [df.copy()] *)
Definition copy (l : ref) : prog ref := λ h,
  match h !! l with
  | Some df => (Ok (length h), h ++ [df])
  | None => (Raise SystemError, h)
  end.

(** [df[c]] and [df[c] = vs] through a reference *)
Definition getitem_at (l : ref) (c : str) : prog Series :=
  df ← deref l; lift (df_getitem df c).

Definition setitem_at (l : ref) (c : str) (vs : Series) : prog unit := λ h,
  match h !! l with
  | Some df =>
    match df_setitem df c vs with
    | Ok df' => (Ok (), <[l := df']> h)
    | Raise e => (Raise e, h)
    end
  | None => (Raise SystemError, h)
  end.

End Pandas.

(* ===================================================================== *)
(** * [DataProcessor] *)
(* ===================================================================== *)

Module DataProcessor.
Import Py Pandas.

(** The domestic categories of [classify_institution], in priority order. *)
Definition categories : list str :=
  [py "C9联盟"; py "985"; py "211"; py "轨道交通合作院校"; py "优势学科院校";
   py "湖南省知名高校"; py "创新型大学"; py "其他签字增补院校"].

(** [classify_tag] is the body of [classify_institution] once the tag string
    has been read from the row. *)
Definition classify_tag (institution_category : str) : str :=
  if contains (py "海外院校") institution_category then
    if contains (py "QS1-50") institution_category then py "QS1-50"
    else if contains (py "QS100") institution_category then py "QS100"
    else py "其他海外院校"
  else
    match List.find (λ category, contains category institution_category)
                    categories with
    | Some category => category
    | None => py "其他"
    end.

Definition classify_institution (row : Row) : str :=
  classify_tag (to_str (row_get row (py "最高学历毕业院校类别") (VStr []))).

(** [calculate_generation]: [None] is returned as [VNone]. *)
Definition calculate_generation (birth_date : value) : result value :=
  try_except
    (if isna birth_date || eqb birth_date (VStr []) then Ok VNone
     else
       let birth_str := to_str birth_date in
       year ←
         (if contains (py "-") birth_str then
            part ← getitem (split (chr "-") birth_str) 0; int part
          else if contains (py "/") birth_str then
            part ← getitem (split (chr "/") birth_str) 0; int part
          else int (slice_to 4 birth_str));
       if 2005 <=? year then Ok (VStr (py "05后"))
       else if 2000 <=? year then Ok (VStr (py "00后"))
       else if 1995 <=? year then Ok (VStr (py "95后"))
       else if 1990 <=? year then Ok (VStr (py "90后"))
       else Ok VNone)
    [ValueError; IndexError]
    (Ok VNone).

Definition province_map : list (str * str) :=
  [(py "湖南长沙", py "湖南"); (py "湖南", py "湖南"); (py "北京", py "北京");
   (py "上海", py "上海"); (py "广东", py "广东"); (py "江苏", py "江苏");
   (py "浙江", py "浙江"); (py "山东", py "山东"); (py "河南", py "河南");
   (py "四川", py "四川"); (py "湖北", py "湖北"); (py "河北", py "河北");
   (py "安徽", py "安徽"); (py "福建", py "福建"); (py "江西", py "江西");
   (py "辽宁", py "辽宁"); (py "陕西", py "陕西"); (py "山西", py "山西");
   (py "重庆", py "重庆"); (py "天津", py "天津"); (py "云南", py "云南");
   (py "贵州", py "贵州"); (py "广西", py "广西"); (py "海南", py "海南");
   (py "甘肃", py "甘肃"); (py "青海", py "青海"); (py "宁夏", py "宁夏");
   (py "新疆", py "新疆"); (py "西藏", py "西藏"); (py "内蒙古", py "内蒙古");
   (py "黑龙江", py "黑龙江"); (py "吉林", py "吉林");
   (py "未知地区", py "其他")].

Definition extract_province (location : value) : result str :=
  if isna location || eqb location (VStr []) then Ok (py "未知")
  else
    let location_str := to_str location in
    match dict_get province_map location_str with
    | Some province => Ok province
    | None =>
      if contains (py "-") location_str then
        province_part ← getitem (split (chr "-") location_str) 0;
        Ok (default province_part (dict_get province_map province_part))
      else
        match List.find (λ kv, contains kv.1 location_str) province_map with
        | Some (full_name, province) => Ok province
        | None => Ok location_str
        end
    end.

(** [enhance_data]: [df] refers to the frame of the caller; the result refers
    to the enriched copy. *)
Definition enhance_data (df : ref) : prog ref :=
  df_enhanced ← copy df;
  tags ← getitem_at df_enhanced (py "最高学历毕业院校类别");
  _ ← setitem_at df_enhanced (py "是否为海外院校")
        ((λ x, VStr (if contains (py "海外院校") (to_str x)
                     then py "是" else py "否")) <$> tags);
  frame ← deref df_enhanced;
  tiers ← lift (df_apply_rows (λ row, Ok (VStr (classify_institution row)))
                              frame);
  _ ← setitem_at df_enhanced (py "最高学历毕业院校类别-分类1") tiers;
  origins ← getitem_at df_enhanced (py "籍贯");
  provinces ← lift (series_apply (λ v, VStr <$> extract_province v) origins);
  _ ← setitem_at df_enhanced (py "籍贯-省份") provinces;
  births ← getitem_at df_enhanced (py "出生日期");
  cohorts ← lift (series_apply calculate_generation births);
  _ ← setitem_at df_enhanced (py "出生年代") cohorts;
  mret df_enhanced.

(** One entry of a distribution: [{"name": k, "count": v, "percentage": p}]. *)
Record entry : Type := {
  name : value;
  count : Z;
  percentage : float
}.

(** The values held by the statistics dictionary. *)
Inductive stat : Type :=
  | SInt (n : Z)
  | SDist (entries : list entry)
  | STally (t : gmap str Z).

Definition special_schools : list (str * str) :=
  [(py "清华大学", py "清华大学"); (py "北京大学", py "北京大学");
   (py "同济大学", py "同济大学"); (py "中南大学", py "中南大学");
   (py "北京交通大学", py "北京交通大学"); (py "西南交通大学", py "西南交通大学");
   (py "兰州交通大学", py "兰州交通大学"); (py "大连交通大学", py "大连交通大学");
   (py "华东交通大学", py "华东交通大学")].

(** [d[k]] on the tally being built. *)
Definition tally_getitem (d : gmap str Z) (k : str) : result Z :=
  match d !! k with
  | Some n => Ok n
  | None => Raise KeyError
  end.

Definition _calculate_special_institutions (df : DataFrame)
    : result (gmap str Z) :=
  result ← for_each special_schools (∅ : gmap str Z)
    (λ result '(display_name, school_name),
       schools ← df_getitem df (py "最高学历毕业院校");
       Ok (<[display_name :=
               df_len (df_mask df (series_eq schools (VStr school_name)))]>
             result));
  tiers ← df_getitem df (py "最高学历毕业院校类别-分类1");
  let c9_total := df_len (df_mask df (series_eq tiers (VStr (py "C9联盟")))) in
  tsinghua ← tally_getitem result (py "清华大学");
  peking ← tally_getitem result (py "北京大学");
  Ok (<[py "C9联盟" := c9_total - tsinghua - peking]> result).

Definition dimensions : list (str * str) :=
  [(py "political_status", py "政治面貌");
   (py "gender", py "性别");
   (py "age_distribution", py "出生年代");
   (py "education", py "最高学历");
   (py "institution_category", py "最高学历毕业院校类别-分类1");
   (py "major_type", py "专业类型");
   (py "province_distribution", py "籍贯-省份")].

(** The list comprehension of [generate_statistics] over the counts of one
    column. *)
Definition distribution (counts : list (value * Z)) (total_count : Z)
    : result (list entry) :=
  mapM (λ kv, ratio ← truediv kv.2 total_count;
              Ok {| name := kv.1; count := kv.2;
                    percentage := round1 (ratio * 100)%float |})
       (filter (λ kv, kv.1 ≠ VNone) counts).

Definition generate_statistics (df : DataFrame) : result (gmap str stat) :=
  let stats : gmap str stat := ∅ in
  let total_count := df_len df in
  let stats := <[py "total_count" := SInt total_count]> stats in
  status ← df_getitem df (py "应聘状态");
  bilateral ← str_contains (py "两方") status;
  let stats := <[py "bilateral_count" := SInt (df_len (df_mask df bilateral))]>
                 stats in
  status ← df_getitem df (py "应聘状态");
  trilateral ← str_contains (py "三方") status;
  let stats := <[py "trilateral_count" :=
                   SInt (df_len (df_mask df trilateral))]> stats in
  stats ← for_each dimensions stats
    (λ stats '(stat_key, column_name),
       column ← df_getitem df column_name;
       entries ← distribution (value_counts column) total_count;
       Ok (<[stat_key := SDist entries]> stats));
  special ← _calculate_special_institutions df;
  Ok (<[py "special_institutions" := STally special]> stats).

(** [REQUIRED_COLUMNS] *)
Definition REQUIRED_COLUMNS : list str :=
  [py "序号"; py "姓名"; py "性别"; py "年龄"; py "出生日期"; py "政治面貌";
   py "籍贯"; py "应聘状态"; py "应聘职位"; py "最高学历"; py "最高学历专业";
   py "专业类型"; py "最高学历毕业院校"; py "最高学历毕业院校类别"].

(** [[col for col in cls.REQUIRED_COLUMNS if col not in df.columns]], the
    comprehension of both validators. *)
Definition missing_columns (df : DataFrame) : list str :=
  filter (λ col, has_label df col = false) REQUIRED_COLUMNS.

Definition validate_excel_format (df : DataFrame) : list str :=
  let errors : list str := [] in
  let missing_columns := missing_columns df in
  let errors :=
    match missing_columns with
    | [] => errors
    | _ :: _ => errors ++ [py "缺少必需字段: " ++ join (py ", ") missing_columns]
    end in
  let errors :=
    if df_empty df then errors ++ [py "Excel文件中没有数据"] else errors in
  errors.

Definition validate_data (df : DataFrame) : bool * str :=
  if df_empty df then (false, py "数据为空，请检查Excel文件")
  else
    let missing_columns := missing_columns df in
    match missing_columns with
    | _ :: _ => (false, py "缺少必需列: " ++ join (py ", ") missing_columns)
    | [] => (true, py "数据验证通过")
    end.

(** The values held by the dictionary of [calculate_statistics]: a count, or
    a list of [{"name": ..., "value": ...}]. *)
Inductive summary : Type :=
  | MInt (n : Z)
  | MList (items : list (str * Z)).

Definition summary_dimensions : list (str * str) :=
  [(py "political_status", py "政治面貌");
   (py "gender", py "性别");
   (py "age_distribution", py "年龄段");
   (py "education", py "最高学历");
   (py "institution_category", py "院校分类");
   (py "major_type", py "专业类型");
   (py "province_distribution", py "籍贯省份")].

(** [[{"name": str(name), "value": int(count)} for name, count in ...]] *)
Definition name_values (counts : list (value * Z)) : list (str * Z) :=
  (λ kv, (to_str kv.1, kv.2)) <$> counts.

Definition calculate_statistics (df : DataFrame) : result (gmap str summary) :=
  let total_count := df_len df in
  status ← df_getitem df (py "应聘状态");
  signed ← str_contains (py "已签约") status;
  let stats : gmap str summary :=
    <[py "trilateral_count" := MInt 0]>
      (<[py "bilateral_count" := MInt (df_len (df_mask df signed))]>
         (<[py "total_count" := MInt total_count]> ∅)) in
  stats ← for_each summary_dimensions stats
    (λ stats '(stat_key, column_name),
       if has_label df column_name then
         column ← df_getitem df column_name;
         Ok (<[stat_key := MList (name_values (value_counts column))]> stats)
       else Ok (<[stat_key := MList []]> stats));
  if has_label df (py "最高学历毕业院校") then
    schools ← df_getitem df (py "最高学历毕业院校");
    Ok (<[py "special_institutions" :=
            MList (name_values (head 10 (value_counts schools)))]> stats)
  else Ok (<[py "special_institutions" := MList []]> stats).

Definition calculate_birth_decade (birth_date : value) : result str :=
  try_except
    (if isna birth_date || eqb birth_date (VStr []) then Ok (py "其他")
     else
       let birth_str := to_str birth_date in
       year ←
         (if contains (py "-") birth_str then
            part ← getitem (split (chr "-") birth_str) 0; int part
          else if contains (py "/") birth_str then
            part ← getitem (split (chr "/") birth_str) 0; int part
          else int (slice_to 4 birth_str));
       if 2000 <=? year then Ok (py "00后")
       else if 1995 <=? year then Ok (py "95后")
       else if 1990 <=? year then Ok (py "90后")
       else Ok (py "其他"))
    [ValueError; IndexError]
    (Ok (py "其他")).

Definition calculate_age_group (age : value) : result str :=
  try_except
    (age_int ← int_of age;
     if age_int <=? 24 then Ok (py "00后")
     else if age_int <=? 27 then Ok (py "95后")
     else if age_int <=? 32 then Ok (py "90后")
     else Ok (py "其他"))
    [ValueError; TypeError]
    (Ok (py "其他")).

Definition is_party_member (political_status : value) : bool :=
  if isna political_status then false
  else
    let status_str := to_str political_status in
    contains (py "中共党员") status_str
    || contains (py "中共预备党员") status_str.

End DataProcessor.

(* ===================================================================== *)
(** * [ReportGenerator] *)
(* ===================================================================== *)

Module ReportGenerator.
Import Py Pandas DataProcessor.

Section Report.

(** What an f-string writes for a [float], and the two readings of the clock
    ([datetime.now().strftime] with the day and the full time formats). *)
Variable repr_float : float → str.
Variable current_day : str.
Variable current_time : str.

Definition nl : str := [10%N].
Definition quote : str := [34%N].

Definition process_chart_image (image_data : str) : str :=
  if negb (startswith (py "data:image/png;base64,") image_data)
  then py "data:image/png;base64," ++ image_data
  else image_data.

(** [statistics[key]] read as a number, and as a list of entries. A value of
    another shape is not a statistics snapshot; the model answers
    [TypeError] for it. *)
Definition stat_int (statistics : gmap str stat) (key : str) : result Z :=
  match statistics !! key with
  | Some (SInt n) => Ok n
  | Some _ => Raise TypeError
  | None => Raise KeyError
  end.

Definition stat_dist (statistics : gmap str stat) (key : str)
    : result (list entry) :=
  match statistics !! key with
  | Some (SDist l) => Ok l
  | Some _ => Raise TypeError
  | None => Raise KeyError
  end.

(** [{e['count']}], [{e['percentage']}] and [{e['name']}] in an f-string *)
Definition fcount (e : entry) : str := str_of_int (count e).
Definition fpct (e : entry) : str := repr_float (percentage e).
Definition fname (e : entry) : str := to_str (name e).

(** [if key in processed_images: report += f"![alt]({...})\n\n"] *)
Definition with_image (processed_images : gmap str str) (key alt : str)
    (report : str) : str :=
  match processed_images !! key with
  | Some image => report ++ py "![" ++ alt ++ py "](" ++ image ++ py ")"
                         ++ nl ++ nl
  | None => report
  end.

(** A sentence of three clauses over the first three entries, indexed
    without a check of the length. *)
Definition three_clauses (data : list entry) (l0 l1 l2 : str) : result str :=
  e0 ← getitem data 0;
  e1 ← getitem data 1;
  e2 ← getitem data 2;
  Ok (py "2025届校园招聘引进人员中，" ++ l0 ++ fcount e0 ++ py "人，"
      ++ py "占比" ++ fpct e0 ++ py "%；" ++ l1 ++ fcount e1 ++ py "人，"
      ++ py "占比" ++ fpct e1 ++ py "%；" ++ l2 ++ fcount e2 ++ py "人，"
      ++ py "占比" ++ fpct e2 ++ py "%。" ++ nl ++ nl).

(** The sentence of the major-type and province sections, which look at the
    length first. *)
Definition named_clause (e : entry) : str :=
  fname e ++ fcount e ++ py "人，占比" ++ fpct e ++ py "%".

Definition guarded_clauses (data : list entry) (placeholder : str)
    : result str :=
  if (3 <=? length data)%nat then
    e0 ← getitem data 0; e1 ← getitem data 1; e2 ← getitem data 2;
    Ok (py "2025届校园招聘引进人员中，" ++ named_clause e0 ++ py "；"
        ++ named_clause e1 ++ py "；" ++ named_clause e2 ++ py "。" ++ nl ++ nl)
  else if (2 <=? length data)%nat then
    e0 ← getitem data 0; e1 ← getitem data 1;
    Ok (py "2025届校园招聘引进人员中，" ++ named_clause e0 ++ py "；"
        ++ named_clause e1 ++ py "。" ++ nl ++ nl)
  else if (1 <=? length data)%nat then
    e0 ← getitem data 0;
    Ok (py "2025届校园招聘引进人员中，" ++ named_clause e0 ++ py "。" ++ nl ++ nl)
  else Ok (placeholder ++ nl ++ nl).

(** [if special_data.get(school, 0) > 0: report += f"{school}{n}人、"] *)
Definition add_school (special_data : gmap str Z) (key label : str)
    (report : str) : str :=
  if 0 <? default 0 (special_data !! key)
  then report ++ label ++ str_of_int (default 0 (special_data !! key))
              ++ py "人、"
  else report.

Definition other_schools : list str :=
  [py "同济大学"; py "中南大学"; py "北京交通大学"; py "西南交通大学";
   py "兰州交通大学"; py "大连交通大学"; py "华东交通大学"].

Definition special_section (statistics : gmap str stat) (report : str)
    : result str :=
  match statistics !! py "special_institutions" with
  | None => Ok report
  | Some (STally special_data) =>
    let report := report ++ py "#### 重点院校统计" ++ nl ++ nl in
    let report := report ++ py "引进重点院校人员情况如下：" in
    let report := add_school special_data (py "清华大学") (py "清华大学") report in
    let report := add_school special_data (py "北京大学") (py "北京大学") report in
    let report := add_school special_data (py "C9联盟")
                    (py "C9联盟（除清华北大外）") report in
    let report := foldl (λ report school,
                           add_school special_data school school report)
                        report other_schools in
    if endswith (py "、") report
    then Ok (drop_last report ++ py "。" ++ nl ++ nl)
    else Ok (report ++ nl ++ nl)
  | Some _ => Raise TypeError
  end.

Definition generate_markdown_report (statistics : gmap str stat)
    (chart_images : gmap str str) : result str :=
  let processed_images := process_chart_image <$> chart_images in
  let report := py "# 2025届校园招聘情况说明" ++ nl ++ nl in
  let report := report ++ py "## 一、2025届校园招聘整体情况" ++ nl ++ nl in
  total_count ← stat_int statistics (py "total_count");
  bilateral_count ← stat_int statistics (py "bilateral_count");
  trilateral_count ← stat_int statistics (py "trilateral_count");
  let report := report
    ++ py "为深入贯彻人才工作会议精神，推进集团及公司" ++ quote ++ py "十四五"
    ++ quote ++ py "人力资源战略规划实施，"
    ++ py "持续提升公司能主动牵引业务，满足公司高质量度的人才储备需求，"
    ++ py "人力资源部根据公司生产经营和人力资源规划要求，制定2025年招聘计划，"
    ++ py "并根据计划在国内98所目标院校及海外专场招聘会中全力推进人才引进工作。"
    ++ py "本届校园招聘，截止" ++ current_day ++ py "公司累计签约"
    ++ str_of_int total_count ++ py "人，其中，"
    ++ py "两方协议" ++ str_of_int bilateral_count ++ py "人，三方协议"
    ++ str_of_int trilateral_count ++ py "人。" ++ nl ++ nl in
  let report := report ++ py "## 二、2025届校园招聘引进人员情况" ++ nl ++ nl in
  (* 1 *)
  let report := report ++ py "### 1. 政治面貌分布" ++ nl ++ nl in
  political_data ← stat_dist statistics (py "political_status");
  political_text ← three_clauses political_data
                     (py "共青团员") (py "中国共产党员") (py "群众");
  let report := report ++ political_text in
  let report := with_image processed_images (py "political_status")
                  (py "政治面貌分布图") report in
  (* 2 *)
  let report := report ++ py "### 2. 性别分布" ++ nl ++ nl in
  gender_data ← stat_dist statistics (py "gender");
  g0 ← getitem gender_data 0;
  g1 ← getitem gender_data 1;
  let gender_text :=
    py "2025届校园招聘引进人员中，男" ++ fcount g0 ++ py "人，"
    ++ py "占比" ++ fpct g0 ++ py "%；女" ++ fcount g1 ++ py "人，"
    ++ py "占比" ++ fpct g1 ++ py "%。" ++ nl ++ nl in
  let report := report ++ gender_text in
  let report := with_image processed_images (py "gender") (py "性别分布图")
                  report in
  (* 3 *)
  let report := report ++ py "### 3. 年龄分布" ++ nl ++ nl in
  age_data ← stat_dist statistics (py "age_distribution");
  age_text ← three_clauses age_data (py "00后") (py "95后") (py "90后");
  let report := report ++ age_text in
  let report := with_image processed_images (py "age_distribution")
                  (py "年龄分布图") report in
  (* 4 *)
  let report := report ++ py "### 4. 学历分布" ++ nl ++ nl in
  education_data ← stat_dist statistics (py "education");
  education_text ← three_clauses education_data
                     (py "硕士研究生") (py "本科") (py "博士研究生");
  let report := report ++ education_text in
  let report := with_image processed_images (py "education")
                  (py "学历分布图") report in
  (* 5 *)
  let report := report ++ py "### 5. 院校类别分布" ++ nl ++ nl in
  institution_data ← stat_dist statistics (py "institution_category");
  institution_text ← three_clauses institution_data
                       (py "211高校") (py "985高校") (py "本分类院校");
  let report := report ++ institution_text in
  let report := with_image processed_images (py "institution_category")
                  (py "院校类别分布图") report in
  report ← special_section statistics report;
  (* 6 *)
  let report := report ++ py "### 6. 专业类型分布" ++ nl ++ nl in
  major_data ← stat_dist statistics (py "major_type");
  major_text ← guarded_clauses major_data (py "暂无专业类型数据。");
  let report := report ++ major_text in
  let report := with_image processed_images (py "major_type")
                  (py "专业类型分布图") report in
  (* 7 *)
  let report := report ++ py "### 7. 籍贯分布" ++ nl ++ nl in
  province_data ← stat_dist statistics (py "province_distribution");
  province_text ← guarded_clauses province_data (py "暂无籍贯分布数据。");
  let report := report ++ province_text in
  let report := with_image processed_images (py "province_distribution")
                  (py "籍贯分布图") report in
  let report := report ++ py "---" ++ nl in
  let report := report ++ py "*报告生成时间：" ++ current_time ++ py "*" in
  Ok report.

End Report.

End ReportGenerator.

(* ===================================================================== *)
(** * Specification vocabulary *)
(* ===================================================================== *)

Module Spec.
Import Py Pandas DataProcessor.

(** [sub] occurs in [s] as a substring. *)
Definition substring (sub s : str) : Prop :=
  ∃ pre post, s = pre ++ sub ++ post.

(** [seg] is the segment of [s] before the first occurrence of [sep]. *)
Definition segment_before_first (sep : char) (s seg : str) : Prop :=
  (sep ∉ seg) ∧ ∃ rest, s = seg ++ sep :: rest.

(** The text from which the birth year is read: the segment before the first
    hyphen when there is a hyphen, else the segment before the first slash
    when there is a slash, else the first four characters. *)
Definition leading_year_text (s seg : str) : Prop :=
  ((chr "-" ∈ s) ∧ segment_before_first (chr "-") s seg)
  ∨ ((chr "-" ∉ s) ∧ (chr "/" ∈ s) ∧ segment_before_first (chr "/") s seg)
  ∨ ((chr "-" ∉ s) ∧ (chr "/" ∉ s) ∧ seg = take 4 s).

(** The cohort of a birth year, by descending thresholds. *)
Definition cohort (year : Z) : value :=
  if decide (2005 ≤ year) then VStr (py "05后")
  else if decide (2000 ≤ year) then VStr (py "00后")
  else if decide (1995 ≤ year) then VStr (py "95后")
  else if decide (1990 ≤ year) then VStr (py "90后")
  else VNone.

(** The value is missing: a blank cell, [None], or the empty string. *)
Definition missing (v : value) : Prop :=
  v = VNaN ∨ v = VNone ∨ v = VStr [].

(** [x] is the first element of [l] that satisfies [P]. *)
Definition first_such {A} (P : A → Prop) (l : list A) (x : A) : Prop :=
  ∃ i, l !! i = Some x ∧ P x ∧ ∀ j y, (j < i)%nat → l !! j = Some y → ¬ P y.

(** The column labelled [c], empty when the frame has no such column. *)
Definition column_of (df : DataFrame) (c : str) : Series :=
  default [] (lookup_column (columns df) c).

(** The number of cells of a column that satisfy [P]. *)
Definition count_where (P : value → bool) (s : Series) : Z :=
  Z.of_nat (length (filter (λ v, P v = true) s)).

(** The cell is a string in which [marker] occurs. *)
Definition has_marker (marker : str) (v : value) : bool :=
  match v with
  | VStr t => contains marker t
  | _ => false
  end.

(** The sum of the [count] fields of a distribution. *)
Definition count_sum (entries : list entry) : Z :=
  foldr (λ e acc, count e + acc) 0 entries.

(** The sum of the counts of [value_counts]. *)
Definition counted (l : list (value * Z)) : Z :=
  foldr (λ kv acc, kv.2 + acc) 0 l.

(** [round(n / total * 100, 1)] *)
Definition percentage_of (n total : Z) : float :=
  round1 (quotient n total * 100)%float.

Definition entries_of (counts : list (value * Z)) (total : Z) : list entry :=
  (λ kv, {| name := kv.1; count := kv.2;
            percentage := percentage_of kv.2 total |}) <$> counts.

(** The columns [generate_statistics] reads. *)
Definition statistics_columns : list str :=
  [py "应聘状态"; py "政治面貌"; py "性别"; py "出生年代"; py "最高学历";
   py "最高学历毕业院校类别-分类1"; py "专业类型"; py "籍贯-省份";
   py "最高学历毕业院校"].

(** An enriched dataset: a well-formed frame that has the columns the
    aggregator reads, the hire-agreement column being one the [.str]
    accessor takes. *)
Definition has_columns (df : DataFrame) (cs : list str) : Prop :=
  Forall (λ c, is_Some (lookup_column (columns df) c)) cs.

Definition enriched (df : DataFrame) : Prop :=
  wf df ∧ has_columns df statistics_columns
  ∧ str_accessor (column_of df (py "应聘状态")) = Ok ().

(** The distribution that [generate_statistics] builds for one column. *)
Definition dist_of (df : DataFrame) (c : str) : list entry :=
  entries_of (value_counts (column_of df c)) (df_len df).

(** The number of cells equal to the string [s]. *)
Definition count_eq (s : str) (col : Series) : Z :=
  count_where (λ v, eqb v (VStr s)) col.

(** The columns [enhance_data] reads, and the columns it derives. *)
Definition source_columns : list str :=
  [py "最高学历毕业院校类别"; py "籍贯"; py "出生日期"].

Definition derived_columns : list str :=
  [py "是否为海外院校"; py "最高学历毕业院校类别-分类1"; py "籍贯-省份";
   py "出生年代"].

(** The overseas flag and the tier derived from a category-tag cell. *)
Definition overseas_flag (x : value) : value :=
  VStr (if contains (py "海外院校") (to_str x) then py "是" else py "否").

Definition tier_of (x : value) : value := VStr (classify_tag (to_str x)).

(** The contract of the enrichment stage for the frame that [df] refers to
    in the store [h]: [enhance_data] returns a reference to a new frame; no
    frame of [h], the input among them, is changed; the new frame has as
    many records; every column of the input is in it with the same cells in
    the same order; its labels are those of the input followed by the four
    derived labels; and each derived column holds, record by record, what
    the classifier returns for that record, missing values included. *)
Definition enrichment_contract (h : heap) (df : ref) : Prop :=
  ∃ input enhanced out h',
    h !! df = Some input
    ∧ enhance_data df h = (Ok out, h')
    ∧ out ≠ df
    ∧ h' !! out = Some enhanced
    ∧ (∀ r, (r < length h)%nat → h' !! r = h !! r)
    ∧ index_len enhanced = index_len input
    ∧ (∀ c s, lookup_column (columns input) c = Some s →
              lookup_column (columns enhanced) c = Some s)
    ∧ (columns enhanced).*1 = (columns input).*1 ++ derived_columns
    ∧ column_of enhanced (py "是否为海外院校")
      = overseas_flag <$> column_of input (py "最高学历毕业院校类别")
    ∧ column_of enhanced (py "最高学历毕业院校类别-分类1")
      = tier_of <$> column_of input (py "最高学历毕业院校类别")
    ∧ Forall2 (λ v d, VStr <$> extract_province v = Ok d)
        (column_of input (py "籍贯")) (column_of enhanced (py "籍贯-省份"))
    ∧ Forall2 (λ v d, calculate_generation v = Ok d)
        (column_of input (py "出生日期")) (column_of enhanced (py "出生年代")).

(** The province and the cohort derived from a cell, as cells. *)
Definition province_cell (v : value) : value :=
  match extract_province v with
  | Ok p => VStr p
  | Raise _ => VNone
  end.

Definition cohort_cell (v : value) : value :=
  match calculate_generation v with
  | Ok g => g
  | Raise _ => VNone
  end.

(** The frame [df] after [df[c] = vs]. *)
Definition with_column (df : DataFrame) (c : str) (vs : Series) : DataFrame :=
  {| index_len := index_len df; columns := set_column (columns df) c vs |}.

(** The frame that [enhance_data] builds from [input]: the four assignments
    in the order of the source. *)
Definition enhanced_frame (input : DataFrame) : DataFrame :=
  let tags := column_of input (py "最高学历毕业院校类别") in
  let df1 := with_column input (py "是否为海外院校") (overseas_flag <$> tags) in
  let df2 := with_column df1 (py "最高学历毕业院校类别-分类1")
                         (tier_of <$> tags) in
  let df3 := with_column df2 (py "籍贯-省份")
                         (province_cell <$> column_of input (py "籍贯")) in
  with_column df3 (py "出生年代")
              (cohort_cell <$> column_of input (py "出生日期")).

(** Every column is as long as the index. *)
Definition aligned (df : DataFrame) : Prop :=
  Forall (λ col, length col.2 = index_len df) (columns df).

(** What a caller reads in the result of [generate_statistics]: a count, a
    distribution, an entry of the special-institution tally. *)
Definition read_int (r : result (gmap str stat)) (key : str) : option Z :=
  match r with
  | Ok stats => match stats !! key with Some (SInt n) => Some n | _ => None end
  | Raise _ => None
  end.

Definition read_dist (r : result (gmap str stat)) (key : str)
    : option (list entry) :=
  match r with
  | Ok stats => match stats !! key with Some (SDist l) => Some l | _ => None end
  | Raise _ => None
  end.

Definition read_tally (r : result (gmap str stat)) (key : str) : option Z :=
  match r with
  | Ok stats =>
    match stats !! py "special_institutions" with
    | Some (STally t) => t !! key
    | _ => None
    end
  | Raise _ => None
  end.

(** The tiers of an overseas institution, and all the tiers. *)
Definition overseas_tiers : list str :=
  [py "QS1-50"; py "QS100"; py "其他海外院校"].

Definition domestic_tiers : list str := categories ++ [py "其他"].

Definition cohorts : list value :=
  [VNone; VStr (py "05后"); VStr (py "00后"); VStr (py "95后");
   VStr (py "90后")].

(** The decade label that goes with a cohort: the 05后 cohort is folded
    into 00后, and no cohort becomes 其他. *)
Definition decade_of (generation : value) : str :=
  match generation with
  | VStr g => if decide (g = py "05后") then py "00后" else g
  | _ => py "其他"
  end.

(** The age group of an age in years. *)
Definition age_band (age : Z) : str :=
  if decide (age ≤ 24) then py "00后"
  else if decide (age ≤ 27) then py "95后"
  else if decide (age ≤ 32) then py "90后"
  else py "其他".

(** The number of cells of a column that are the value [v]. *)
Definition occurrences (v : value) (s : Series) : Z :=
  Z.of_nat (length (filter (λ x, x = v) s)).

(** The count that an association list of counts holds for [v]. *)
Fixpoint held (v : value) (acc : list (value * Z)) : Z :=
  match acc with
  | [] => 0
  | (k, n) :: r => if bool_decide (k = v) then n else held v r
  end.

(** The number of distinct values of a column, missing cells apart. *)
Definition distinct_values (s : Series) : nat :=
  length (remove_dups (filter (λ v, isna v = false) s)).

(** The dataset has the variety that the five fixed sentences of the report
    read: three political statuses, two genders, three cohorts, three
    education levels and three tiers. *)
Definition varied (df : DataFrame) : Prop :=
  (3 ≤ distinct_values (column_of df (py "政治面貌")))%nat
  ∧ (2 ≤ distinct_values (column_of df (py "性别")))%nat
  ∧ (3 ≤ distinct_values (column_of df (py "出生年代")))%nat
  ∧ (3 ≤ distinct_values (column_of df (py "最高学历")))%nat
  ∧ (3 ≤ distinct_values (column_of df (py "最高学历毕业院校类别-分类1")))%nat.

(** An entry under another name, and the keys of the five sections of the
    report whose sentences have fixed labels. *)
Definition renamed (f : value → value) (e : entry) : entry :=
  {| name := f (name e); count := count e; percentage := percentage e |}.

Definition fixed_sections : list str :=
  [py "political_status"; py "gender"; py "age_distribution";
   py "education"; py "institution_category"].

(** The schools that the report lists, with the label each is printed
    under, in the order of the report; and the clause of a school, which is
    there when its count is positive. *)
Definition listed_schools : list (str * str) :=
  [(py "清华大学", py "清华大学"); (py "北京大学", py "北京大学");
   (py "C9联盟", py "C9联盟（除清华北大外）")]
  ++ ((λ school, (school, school)) <$> ReportGenerator.other_schools).

Definition school_clause (special : gmap str Z) (kl : str * str)
    : option str :=
  let n := default 0 (special !! kl.1) in
  if decide (0 < n) then Some (kl.2 ++ str_of_int n ++ py "人") else None.

Definition school_clauses (special : gmap str Z) : list str :=
  omap (school_clause special) listed_schools.

(** The tally of the named schools, before the C9 entry is added. *)
Definition school_counts (schools : Series) : gmap str Z :=
  foldl (λ m ds, <[ds.1 := count_eq ds.2 schools]> m) ∅ special_schools.

End Spec.

(* ===================================================================== *)
(** * Sample datasets *)
(* ===================================================================== *)

Module Examples.
Import Py Pandas DataProcessor.

Definition S (s : string) : value := VStr (py s).

(** An enriched roster of three signees. *)
Definition roster3 : DataFrame :=
  {| index_len := 3;
     columns :=
       [(py "序号", [VInt 1; VInt 2; VInt 3]);
        (py "姓名", [S "张三"; S "李四"; S "王五"]);
        (py "性别", [S "男"; S "女"; S "男"]);
        (py "出生日期", [S "1998-01-01"; S "2000-05-15"; S "1996-12-20"]);
        (py "政治面貌", [S "中共党员"; S "共青团员"; S "群众"]);
        (py "籍贯", [S "湖南长沙"; S "北京朝阳"; S "广东深圳"]);
        (py "应聘状态", [S "已签约(两方)"; S "已签约(两方)"; S "已签约(三方)"]);
        (py "最高学历", [S "本科"; S "硕士"; S "本科"]);
        (py "专业类型", [S "工科"; S "管理"; S "理科"]);
        (py "最高学历毕业院校", [S "清华大学"; S "北京大学"; S "中南大学"]);
        (py "最高学历毕业院校类别", [S "C9联盟"; S "C9联盟"; S "211"]);
        (py "是否为海外院校", [S "否"; S "否"; S "否"]);
        (py "最高学历毕业院校类别-分类1", [S "C9联盟"; S "C9联盟"; S "211"]);
        (py "籍贯-省份", [S "湖南"; S "北京"; S "广东"]);
        (py "出生年代", [S "95后"; S "00后"; S "95后"])] |}.

(** A roster with no record and every column of an enriched dataset. *)
Definition empty_roster : DataFrame :=
  {| index_len := 0;
     columns := (λ c, (c.1, [])) <$> columns roster3 |}.

(** A raw roster of one signee from 清华大学 whose category tag carries the
    overseas marker. *)
Definition flagship_abroad : DataFrame :=
  {| index_len := 1;
     columns :=
       [(py "序号", [VInt 1]);
        (py "姓名", [S "赵六"]);
        (py "性别", [S "女"]);
        (py "出生日期", [S "1999/03/09"]);
        (py "政治面貌", [S "群众"]);
        (py "籍贯", [S "四川-成都"]);
        (py "应聘状态", [S "已签约(三方)"]);
        (py "最高学历", [S "博士"]);
        (py "专业类型", [S "工科"]);
        (py "最高学历毕业院校", [S "清华大学"]);
        (py "最高学历毕业院校类别", [S "海外院校,QS1-50"])] |}.

(** What [enhance_data] makes of [flagship_abroad]. *)
Definition flagship_abroad_enhanced : DataFrame :=
  {| index_len := 1;
     columns :=
       columns flagship_abroad
       ++ [(py "是否为海外院校", [S "是"]);
           (py "最高学历毕业院校类别-分类1", [S "QS1-50"]);
           (py "籍贯-省份", [S "四川"]);
           (py "出生年代", [S "95后"])] |}.

(** A raw roster of one signee with each of the fourteen required columns. *)
Definition full_upload : DataFrame :=
  {| index_len := 1;
     columns :=
       columns flagship_abroad
       ++ [(py "年龄", [VInt 25]);
           (py "应聘职位", [S "研发工程师"]);
           (py "最高学历专业", [S "车辆工程"])] |}.

(** Statistics with three entries in every distribution but that of the
    genders, which has two. *)
Definition trio (a b c : string) : list entry :=
  [ {| name := S a; count := 4; percentage := 50 |};
    {| name := S b; count := 3; percentage := 37.5 |};
    {| name := S c; count := 1; percentage := 12.5 |} ].

Definition sample_statistics : gmap str stat :=
  <[py "total_count" := SInt 8]>
  (<[py "bilateral_count" := SInt 5]>
  (<[py "trilateral_count" := SInt 3]>
  (<[py "political_status" := SDist (trio "共青团员" "中共党员" "群众")]>
  (<[py "gender" :=
       SDist [ {| name := S "女"; count := 5; percentage := 62.5 |};
               {| name := S "男"; count := 3; percentage := 37.5 |} ]]>
  (<[py "age_distribution" := SDist (trio "00后" "95后" "90后")]>
  (<[py "education" := SDist (trio "硕士" "本科" "博士")]>
  (<[py "institution_category" := SDist (trio "211" "985" "其他")]>
  (<[py "major_type" := SDist (trio "工科" "理科" "管理")]>
  (<[py "province_distribution" := SDist (trio "湖南" "湖北" "广东")]>
   ∅))))))))).

(** A tally with two schools and a negative C9 entry. *)
Definition sample_tally : gmap str Z :=
  <[py "清华大学" := 2]> (<[py "C9联盟" := -1]> (<[py "中南大学" := 5]> ∅)).

(** An enriched roster of three signees: the agreements of the first two name
    both kinds, that of the third names none. *)
Definition mixed_agreements : DataFrame :=
  {| index_len := 3;
     columns :=
       [(py "性别", [S "男"; S "女"; S "女"]);
        (py "政治面貌", [S "群众"; S "群众"; S "共青团员"]);
        (py "应聘状态", [S "两方转三方"; S "三方(原两方)"; S "洽谈中"]);
        (py "最高学历", [S "本科"; S "本科"; S "硕士"]);
        (py "专业类型", [S "工科"; S "工科"; S "理科"]);
        (py "最高学历毕业院校", [S "中南大学"; S "中南大学"; S "同济大学"]);
        (py "最高学历毕业院校类别-分类1", [S "211"; S "211"; S "985"]);
        (py "籍贯-省份", [S "湖南"; S "湖南"; S "上海"]);
        (py "出生年代", [S "00后"; VNone; S "95后"])] |}.

(** A raw roster that already has a column labelled 出生年代. *)
Definition cohort_present : DataFrame :=
  {| index_len := 1;
     columns :=
       [(py "出生日期", [S "2001-07-15"]);
        (py "出生年代", [S "待定"]);
        (py "籍贯", [S "湖南长沙"]);
        (py "最高学历毕业院校类别", [S "985"])] |}.

(** A raw roster of three signees, all of them men. *)
Definition men_only : DataFrame :=
  {| index_len := 3;
     columns :=
       [(py "性别", [S "男"; S "男"; S "男"]);
        (py "出生日期", [S "1992-01-01"; S "1996-05-15"; S "2001-12-20"]);
        (py "政治面貌", [S "中共党员"; S "共青团员"; S "群众"]);
        (py "籍贯", [S "湖南长沙"; S "北京朝阳"; S "广东深圳"]);
        (py "应聘状态", [S "已签约(两方)"; S "已签约(两方)"; S "已签约(三方)"]);
        (py "最高学历", [S "本科"; S "硕士"; S "博士"]);
        (py "专业类型", [S "工科"; S "管理"; S "理科"]);
        (py "最高学历毕业院校", [S "同济大学"; S "北京大学"; S "中南大学"]);
        (py "最高学历毕业院校类别", [S "985"; S "C9联盟"; S "211"])] |}.

(** What [enhance_data] makes of [men_only]. *)
Definition men_only_enhanced : DataFrame :=
  {| index_len := 3;
     columns :=
       columns men_only
       ++ [(py "是否为海外院校", [S "否"; S "否"; S "否"]);
           (py "最高学历毕业院校类别-分类1", [S "985"; S "C9联盟"; S "211"]);
           (py "籍贯-省份", [S "湖南"; S "北京"; S "广东"]);
           (py "出生年代", [S "90后"; S "95后"; S "00后"])] |}.

End Examples.

(* ===================================================================== *)
(** * Properties *)
(* ===================================================================== *)

Import Py Pandas DataProcessor Spec.

(** A closed decidable proposition, settled by evaluation. *)
Ltac by_compute := apply (bool_decide_unpack _); vm_compute; reflexivity.

(** Two string literals differ. *)
Ltac key_neq :=
  let H := fresh in intros H; vm_compute in H; discriminate H.

(** ** Strings *)

Lemma startswith_spec (p s : str) :
  startswith p s = true ↔ ∃ post, s = p ++ post.
Proof.
  revert s. induction p as [|a p IH]; intros s; simpl.
  - split; [intros _; by exists s | done].
  - destruct s as [|b s].
    + split; [done | intros [post H]; discriminate].
    + rewrite andb_true_iff, N.eqb_eq, IH. split.
      * intros [-> [post ->]]. by exists post.
      * intros [post H]. injection H as -> ->. eauto.
Qed.

Lemma contains_spec (sub s : str) :
  contains sub s = true ↔ substring sub s.
Proof.
  unfold substring. induction s as [|c s IH].
  - cbn [contains]. rewrite orb_false_r, startswith_spec. split.
    + intros [post H]. exists [], post. done.
    + intros (pre & post & H). symmetry in H.
      apply app_eq_nil in H as [-> H]. apply app_eq_nil in H as [-> ->].
      by exists [].
  - cbn [contains]. rewrite orb_true_iff, startswith_spec, IH. split.
    + intros [[post ->] | (pre & post & ->)].
      * by exists [], post.
      * by exists (c :: pre), post.
    + intros (pre & post & H). destruct pre as [|c' pre].
      * left. by exists post.
      * right. injection H as -> ->. by exists pre, post.
Qed.

Lemma contains_false (sub s : str) :
  contains sub s = false ↔ ¬ substring sub s.
Proof. rewrite <- contains_spec. by destruct (contains sub s). Qed.

Lemma contains_char (c : char) (s : str) :
  contains [c] s = true ↔ c ∈ s.
Proof.
  rewrite contains_spec. split.
  - intros (pre & post & ->). set_solver.
  - intros (pre & post & ->)%list_elem_of_split. by exists pre, post.
Qed.

Lemma str_eqb_eq (a b : str) : str_eqb a b = true ↔ a = b.
Proof. unfold str_eqb. apply bool_decide_eq_true. Qed.

Lemma split_segment (sep : char) (s : str) :
  ∃ seg rest, split sep s = seg :: rest ∧ (sep ∉ seg)
              ∧ (sep ∈ s → ∃ tail, s = seg ++ sep :: tail).
Proof.
  induction s as [|c s (seg & rest & Hs & Hn & Ht)]; cbn [split].
  - exists [], []. split_and!; [done | set_solver | set_solver].
  - destruct (c =? sep)%N eqn:Hc.
    + apply N.eqb_eq in Hc as ->. exists [], (split sep s).
      split_and!; [done | set_solver | intros _; by exists s].
    + apply N.eqb_neq in Hc. rewrite Hs. exists (c :: seg), rest.
      split_and!; [done | set_solver |].
      intros [?|Hin]%elem_of_cons; [congruence|].
      destruct (Ht Hin) as [tail ->]. by exists tail.
Qed.

Lemma segment_before_first_unique (sep : char) (s seg seg' : str) :
  segment_before_first sep s seg → segment_before_first sep s seg' →
  seg = seg'.
Proof.
  intros [Hn [rest ->]] [Hn' [rest' H]]. revert seg' Hn' H.
  induction seg as [|a seg IH]; intros [|b seg'] Hn' H; simpl in H.
  - done.
  - injection H as -> _. set_solver.
  - injection H as -> _. set_solver.
  - injection H as -> H. f_equal. apply IH; [set_solver | set_solver | done].
Qed.

Lemma split_first (sep : char) (s seg : str) :
  segment_before_first sep s seg →
  getitem (split sep s) 0 = Ok seg.
Proof.
  intros Hseg. destruct (split_segment sep s) as (seg' & rest & -> & Hn & Ht).
  unfold getitem. simpl. f_equal.
  apply (segment_before_first_unique sep s); [|done].
  split; [done|]. apply Ht. destruct Hseg as [_ [tail ->]]. set_solver.
Qed.

(** ** First match in a list *)

Lemma find_first_such {A} (f : A → bool) (P : A → Prop) (l : list A) (x : A) :
  (∀ y, f y = true ↔ P y) → first_such P l x → List.find f l = Some x.
Proof.
  intros Hf (i & Hi & Hx & Hbefore). revert i Hi Hbefore.
  induction l as [|y l IH]; intros i Hi Hbefore; [done|].
  destruct i as [|i]; simpl in *.
  - injection Hi as ->. apply Hf in Hx. by rewrite Hx.
  - destruct (f y) eqn:Hy.
    + apply Hf in Hy. destruct (Hbefore 0%nat y); [lia | done | done].
    + apply (IH i); [done|]. intros j z Hj Hz. apply (Hbefore (S j)); [lia|done].
Qed.

Lemma find_no_such {A} (f : A → bool) (P : A → Prop) (l : list A) :
  (∀ y, f y = true ↔ P y) → (∀ y, y ∈ l → ¬ P y) → List.find f l = None.
Proof.
  intros Hf Hnone. induction l as [|y l IH]; [done|]. simpl.
  destruct (f y) eqn:Hy.
  - apply Hf in Hy. destruct (Hnone y); [left | done].
  - apply IH. intros z Hz. apply Hnone. by right.
Qed.

(** ** Institution tier *)

Lemma contains_iff_substring (tag : str) :
  ∀ c, contains c tag = true ↔ substring c tag.
Proof. intros c. apply contains_spec. Qed.

(** C1. [classify_institution] classifies by strict first-match priority.
    When the tag contains the overseas marker 海外院校 the result is QS1-50 if
    that occurs in the tag, else QS100 if that occurs, else 其他海外院校,
    whatever domestic marker the tag also contains, so never C9联盟.
    Otherwise the result is the first element of the ordered domestic list
    C9联盟, 985, 211, 轨道交通合作院校, 优势学科院校, 湖南省知名高校, 创新型大学,
    其他签字增补院校 that occurs in the tag, and 其他 when none occurs. *)
Theorem classify_institution_priority (row : Row) (tag : str) :
  row_get row (py "最高学历毕业院校类别") (VStr []) = VStr tag →
  (substring (py "海外院校") tag →
     (substring (py "QS1-50") tag → classify_institution row = py "QS1-50")
     ∧ (¬ substring (py "QS1-50") tag → substring (py "QS100") tag →
        classify_institution row = py "QS100")
     ∧ (¬ substring (py "QS1-50") tag → ¬ substring (py "QS100") tag →
        classify_institution row = py "其他海外院校")
     ∧ classify_institution row
         ∈ [py "QS1-50"; py "QS100"; py "其他海外院校"]
     ∧ classify_institution row ≠ py "C9联盟")
  ∧ (¬ substring (py "海外院校") tag →
     (∀ c, first_such (λ c, substring c tag)
             [py "C9联盟"; py "985"; py "211"; py "轨道交通合作院校";
              py "优势学科院校"; py "湖南省知名高校"; py "创新型大学";
              py "其他签字增补院校"] c →
           classify_institution row = c)
     ∧ ((∀ c, c ∈ [py "C9联盟"; py "985"; py "211"; py "轨道交通合作院校";
                   py "优势学科院校"; py "湖南省知名高校"; py "创新型大学";
                   py "其他签字增补院校"] → ¬ substring c tag) →
        classify_institution row = py "其他")).
Proof.
  intros Hrow. unfold classify_institution. rewrite Hrow. cbn [to_str].
  unfold classify_tag, categories. split.
  - intros Ho%contains_spec. rewrite Ho.
    destruct (contains (py "QS1-50") tag) eqn:H1;
      [|destruct (contains (py "QS100") tag) eqn:H2].
    all: rewrite ?contains_spec in *; rewrite ?contains_false in *.
    all: split_and!; try done.
    all: try (intros ?; exfalso; tauto).
    all: try by_compute.
    all: intros Heq; vm_compute in Heq; discriminate.
  - intros Ho%contains_false. rewrite Ho. split.
    + intros c Hc.
      by rewrite (find_first_such _ _ _ c (contains_iff_substring tag) Hc).
    + intros Hnone.
      by rewrite (find_no_such _ _ _ (contains_iff_substring tag) Hnone).
Qed.

Lemma classify_institution_priority_witness :
  classify_institution
    [(py "最高学历毕业院校类别", VStr (py "海外院校,QS100,C9联盟"))] = py "QS100".
Proof.
  destruct (classify_institution_priority
              [(py "最高学历毕业院校类别", VStr (py "海外院校,QS100,C9联盟"))]
              (py "海外院校,QS100,C9联盟") eq_refl) as [Hoverseas _].
  destruct Hoverseas as (_ & H100 & _).
  - apply contains_spec. vm_compute. reflexivity.
  - apply H100.
    + apply contains_false. vm_compute. reflexivity.
    + apply contains_spec. vm_compute. reflexivity.
Defined.

(** ** Birth cohort *)

Arguments py : simpl never.
Arguments chr : simpl never.
Arguments int : simpl never.
Arguments str_of_int : simpl never.

Lemma int_raises_value_error (s : str) (e : exn) :
  int s = Raise e → e = ValueError.
Proof.
  unfold int, long_from_string. intros H.
  repeat case_match; by simplify_eq.
Qed.

Lemma not_missing (v : value) :
  ¬ missing v ↔ isna v || eqb v (VStr []) = false.
Proof.
  unfold missing. destruct v as [s|n| |]; simpl.
  - unfold str_eqb. rewrite bool_decide_eq_false. naive_solver.
  - naive_solver.
  - naive_solver.
  - naive_solver.
Qed.

(** The year expression of [calculate_generation] reads the leading year
    text. *)
Lemma year_text_read (s seg : str) :
  leading_year_text s seg →
  (if contains (py "-") s then
     part ← getitem (split (chr "-") s) 0; int part
   else if contains (py "/") s then
     part ← getitem (split (chr "/") s) 0; int part
   else int (slice_to 4 s)) = int seg.
Proof.
  change (py "-") with [chr "-"]. change (py "/") with [chr "/"].
  intros [[Hh Hseg] | [(Hh & Hs & Hseg) | (Hh & Hs & ->)]].
  - apply contains_char in Hh. rewrite Hh. by rewrite (split_first _ _ _ Hseg).
  - apply contains_char in Hs. rewrite Hs.
    destruct (contains [chr "-"] s) eqn:Hc; [by apply contains_char in Hc|].
    by rewrite (split_first _ _ _ Hseg).
  - destruct (contains [chr "-"] s) eqn:Hc; [by apply contains_char in Hc|].
    destruct (contains [chr "/"] s) eqn:Hc'; [by apply contains_char in Hc'|].
    done.
Qed.

Lemma leading_year_text_exists (s : str) : ∃ seg, leading_year_text s seg.
Proof.
  unfold leading_year_text.
  destruct (decide (chr "-" ∈ s)) as [Hh|Hh].
  - destruct (split_segment (chr "-") s) as (seg & rest & _ & Hn & Ht).
    exists seg. left. split; [done|]. split; [done | by apply Ht].
  - destruct (decide (chr "/" ∈ s)) as [Hs|Hs].
    + destruct (split_segment (chr "/") s) as (seg & rest & _ & Hn & Ht).
      exists seg. right; left. split_and!; [done..|]. split; [done | by apply Ht].
    + exists (take 4 s). right; right. done.
Qed.

Lemma cohort_bands (year : Z) :
  (if 2005 <=? year then Ok (VStr (py "05后"))
   else if 2000 <=? year then Ok (VStr (py "00后"))
   else if 1995 <=? year then Ok (VStr (py "95后"))
   else if 1990 <=? year then Ok (VStr (py "90后"))
   else Ok VNone) = Ok (cohort year).
Proof.
  unfold cohort.
  destruct (Z.leb_spec 2005 year), (Z.leb_spec 2000 year),
    (Z.leb_spec 1995 year), (Z.leb_spec 1990 year);
    repeat case_decide; done || lia.
Qed.

Lemma calculate_generation_read (v : value) (seg : str) :
  ¬ missing v → leading_year_text (to_str v) seg →
  calculate_generation v =
    Ok (match int seg with Ok year => cohort year | Raise _ => VNone end).
Proof.
  intros Hv%not_missing Hseg. unfold calculate_generation.
  rewrite Hv. cbv zeta. rewrite (year_text_read _ _ Hseg).
  destruct (int seg) as [year|e] eqn:Hint.
  - cbn [mbind result_bind]. by rewrite cohort_bands.
  - apply int_raises_value_error in Hint as ->. done.
Qed.

Lemma cohort_range (year : Z) :
  cohort year ∈ [VNone; VStr (py "05后"); VStr (py "00后");
                 VStr (py "95后"); VStr (py "90后")].
Proof. unfold cohort. repeat case_decide; set_solver. Qed.

Lemma calculate_generation_returns (v : value) :
  ∃ r, calculate_generation v = Ok r
       ∧ r ∈ [VNone; VStr (py "05后"); VStr (py "00后");
              VStr (py "95后"); VStr (py "90后")].
Proof.
  destruct (decide (missing v)) as [Hm|Hm].
  - exists VNone. split; [|set_solver].
    by destruct Hm as [->|[->| ->]].
  - destruct (leading_year_text_exists (to_str v)) as [seg Hseg].
    rewrite (calculate_generation_read v seg Hm Hseg).
    eexists; split; [done|].
    destruct (int seg); [apply cohort_range | set_solver].
Qed.

(** C4. [calculate_generation] never raises; a missing or empty input gives
    [None]; otherwise the year is the integer read from the segment before
    the first hyphen when there is one, else from the segment before the
    first slash when there is one, else from the first four characters; a
    year from 2005 gives 05后, from 2000 gives 00后, from 1995 gives 95后, from
    1990 gives 90后, an earlier year gives [None], and a text that is not an
    integer gives [None]. 1988-03-01 gives [None], 2001/07/15 gives 00后. *)
Theorem calculate_generation_bands :
  (∀ v, ∃ r, calculate_generation v = Ok r
             ∧ r ∈ [VNone; VStr (py "05后"); VStr (py "00后");
                    VStr (py "95后"); VStr (py "90后")])
  ∧ (∀ v, missing v → calculate_generation v = Ok VNone)
  ∧ (∀ s seg, s ≠ [] → leading_year_text s seg →
       calculate_generation (VStr s) =
         Ok (match int seg with
             | Ok year => cohort year
             | Raise _ => VNone
             end))
  ∧ (∀ s, ∃ seg, leading_year_text s seg)
  ∧ (∀ year,
       (2005 ≤ year → cohort year = VStr (py "05后"))
       ∧ (2000 ≤ year < 2005 → cohort year = VStr (py "00后"))
       ∧ (1995 ≤ year < 2000 → cohort year = VStr (py "95后"))
       ∧ (1990 ≤ year < 1995 → cohort year = VStr (py "90后"))
       ∧ (year < 1990 → cohort year = VNone))
  ∧ calculate_generation (VStr (py "1988-03-01")) = Ok VNone
  ∧ calculate_generation (VStr (py "2001/07/15")) = Ok (VStr (py "00后")).
Proof.
  split_and!.
  - apply calculate_generation_returns.
  - by intros v [->|[->| ->]].
  - intros s seg Hs Hseg. apply calculate_generation_read; [|done].
    unfold missing. naive_solver.
  - apply leading_year_text_exists.
  - intros year. unfold cohort. split_and!; intros ?; repeat case_decide; done || lia.
  - vm_compute. reflexivity.
  - vm_compute. reflexivity.
Qed.

(** ** Province *)

Lemma dict_get_Some {V} (d : list (str * V)) (k : str) (v : V) :
  NoDup d.*1 → (k, v) ∈ d ↔ dict_get d k = Some v.
Proof.
  induction d as [|[k' v'] d IH]; intros Hnd; simpl.
  - split; [by intros ?%elem_of_nil | done].
  - apply NoDup_cons in Hnd as [Hk' Hnd]. unfold str_eqb. case_bool_decide.
    + subst k'. split.
      * intros [[= ->]|Hin]%elem_of_cons; [done|].
        destruct Hk'. apply list_elem_of_fmap. by exists (k, v).
      * intros [= ->]. left.
    + rewrite <- IH by done. split.
      * intros [[= -> ->]|Hin]%elem_of_cons; done.
      * by right.
Qed.

Lemma dict_get_None {V} (d : list (str * V)) (k : str) :
  k ∉ d.*1 ↔ dict_get d k = None.
Proof.
  induction d as [|[k' v'] d IH]; simpl.
  - split; [done | intros _ ?%elem_of_nil; done].
  - unfold str_eqb. case_bool_decide.
    + subst k'. split; [intros []; left | done].
    + rewrite <- IH. rewrite not_elem_of_cons. naive_solver.
Qed.

Lemma province_map_keys : NoDup province_map.*1.
Proof. apply (bool_decide_unpack _). vm_compute. reflexivity. Qed.

Lemma extract_province_unfold (v : value) :
  ¬ missing v →
  extract_province v =
    match dict_get province_map (to_str v) with
    | Some province => Ok province
    | None =>
      if contains [chr "-"] (to_str v) then
        province_part ← getitem (split (chr "-") (to_str v)) 0;
        Ok (default province_part (dict_get province_map province_part))
      else
        match List.find (λ kv, contains kv.1 (to_str v)) province_map with
        | Some (full_name, province) => Ok province
        | None => Ok (to_str v)
        end
    end.
Proof. intros Hv%not_missing. unfold extract_province. by rewrite Hv. Qed.

Lemma extract_province_returns (v : value) : ∃ p, extract_province v = Ok p.
Proof.
  destruct (decide (missing v)) as [Hm|Hm].
  - exists (py "未知"). by destruct Hm as [->|[->| ->]].
  - rewrite (extract_province_unfold v Hm).
    destruct (dict_get province_map (to_str v)); [by eexists|].
    destruct (contains [chr "-"] (to_str v)).
    + destruct (split_segment (chr "-") (to_str v)) as (seg & rest & -> & _).
      by eexists.
    + destruct (List.find _ province_map) as [[??]|]; by eexists.
Qed.

(** C5. [extract_province]: a missing or empty input gives 未知; a string
    that is a key of the alias table gives the province of that key; else a
    string with a hyphen gives the province the table holds for the prefix
    before the first hyphen, or that prefix itself when the table has no
    entry for it; else the province of the first key, in the order of the
    table, that occurs in the string; else the string itself. 湖南长沙 gives
    湖南. The function never raises. *)
Theorem extract_province_rules :
  (∀ v, ∃ p, extract_province v = Ok p)
  ∧ (∀ v, missing v → extract_province v = Ok (py "未知"))
  ∧ (∀ s p, s ≠ [] → (s, p) ∈ province_map →
       extract_province (VStr s) = Ok p)
  ∧ (∀ s prefix, s ≠ [] → s ∉ province_map.*1 →
       segment_before_first (chr "-") s prefix →
       (∀ p, (prefix, p) ∈ province_map → extract_province (VStr s) = Ok p)
       ∧ (prefix ∉ province_map.*1 → extract_province (VStr s) = Ok prefix))
  ∧ (∀ s, s ≠ [] → s ∉ province_map.*1 → chr "-" ∉ s →
       (∀ key p, first_such (λ kv, substring kv.1 s) province_map (key, p) →
                 extract_province (VStr s) = Ok p)
       ∧ ((∀ kv, kv ∈ province_map → ¬ substring kv.1 s) →
          extract_province (VStr s) = Ok s))
  ∧ extract_province (VStr (py "湖南长沙")) = Ok (py "湖南").
Proof.
  assert (Hstr : ∀ s : str, s ≠ [] → ¬ missing (VStr s))
    by (unfold missing; naive_solver).
  split_and!.
  - apply extract_province_returns.
  - by intros v [->|[->| ->]].
  - intros s p Hs Hin. rewrite (extract_province_unfold _ (Hstr s Hs)).
    cbn [to_str]. apply (dict_get_Some _ _ _ province_map_keys) in Hin.
    by rewrite Hin.
  - intros s prefix Hs Hkey Hseg.
    rewrite (extract_province_unfold _ (Hstr s Hs)). cbn [to_str].
    apply dict_get_None in Hkey. rewrite Hkey.
    assert (contains [chr "-"] s = true) as ->.
    { apply contains_char. destruct Hseg as [_ [rest ->]]. set_solver. }
    rewrite (split_first _ _ _ Hseg). cbn [mbind result_bind]. split.
    + intros p Hin. apply (dict_get_Some _ _ _ province_map_keys) in Hin.
      by rewrite Hin.
    + intros Hno. apply dict_get_None in Hno. by rewrite Hno.
  - intros s Hs Hkey Hh.
    rewrite (extract_province_unfold _ (Hstr s Hs)). cbn [to_str].
    apply dict_get_None in Hkey. rewrite Hkey.
    destruct (contains [chr "-"] s) eqn:Hc; [by apply contains_char in Hc|].
    split.
    + intros key p Hfirst.
      by rewrite (find_first_such _ (λ kv, substring kv.1 s) _ (key, p)
                    (λ kv, contains_spec kv.1 s) Hfirst).
    + intros Hnone.
      by rewrite (find_no_such _ (λ kv, substring kv.1 s) _
                    (λ kv, contains_spec kv.1 s) Hnone).
  - vm_compute. reflexivity.
Qed.

(** ** Counting *)

Lemma select_length {A} (mask : list bool) (l : list A) :
  length mask = length l →
  length (select mask l) = length (filter (λ b, b = true) mask).
Proof.
  revert l. induction mask as [|b mask IH]; intros [|x l] Hlen; try done.
  injection Hlen as Hlen. destruct b; cbn [select].
  - rewrite filter_cons_True by done. cbn [length]. by rewrite IH.
  - rewrite filter_cons_False by done. by rewrite IH.
Qed.

Lemma filter_fmap_length {A} (f : A → bool) (l : list A) :
  length (filter (λ b, b = true) (f <$> l))
  = length (filter (λ x, f x = true) l).
Proof.
  induction l as [|x l IH]; [done|]. rewrite fmap_cons.
  destruct (f x) eqn:Hx.
  - rewrite !filter_cons_True by done. simpl. by rewrite IH.
  - rewrite !filter_cons_False by (by rewrite ?Hx). done.
Qed.

(** [len(df[mask])] for a mask computed cell by cell from a column. *)
Lemma mask_count (df : DataFrame) (f : value → bool) (s : Series) :
  length s = index_len df →
  df_len (df_mask df (f <$> s)) = count_where f s.
Proof.
  intros Hlen. unfold df_len, df_mask, count_where. simpl. f_equal.
  rewrite select_length by (by rewrite length_fmap, length_seq).
  apply filter_fmap_length.
Qed.

Lemma count_where_split (s : Series) :
  count_where (λ v, negb (isna v)) s + count_where isna s = Z.of_nat (length s).
Proof.
  unfold count_where. induction s as [|v s IH]; [done|].
  destruct (isna v) eqn:Hv.
  - rewrite filter_cons_False by (rewrite Hv; simpl; done).
    rewrite filter_cons_True by done. simpl length. lia.
  - rewrite filter_cons_True by (by rewrite Hv).
    rewrite filter_cons_False by (by rewrite Hv). simpl length. lia.
Qed.

(** ** [value_counts] *)

Lemma counted_count_value (v : value) (acc : list (value * Z)) :
  counted (count_value v acc) = counted acc + 1.
Proof.
  induction acc as [|[k n] acc IH]; simpl; [done|].
  case_bool_decide; simpl; lia.
Qed.

Lemma keys_count_value (P : value → Prop) (v : value) (acc : list (value * Z)) :
  P v → Forall (λ kv, P kv.1) acc → Forall (λ kv, P kv.1) (count_value v acc).
Proof.
  intros Hv. induction 1 as [|[k n] acc Hk Hacc IH]; simpl.
  - by repeat constructor.
  - case_bool_decide; by constructor.
Qed.

Lemma tally_counted (s : Series) (acc : list (value * Z)) :
  counted (foldl (λ acc v, if isna v then acc else count_value v acc) acc s)
  = counted acc + count_where (λ v, negb (isna v)) s.
Proof.
  unfold count_where. revert acc. induction s as [|v s IH]; intros acc; simpl.
  - lia.
  - rewrite IH. destruct (isna v) eqn:Hv.
    + rewrite filter_cons_False by (rewrite Hv; simpl; done). done.
    + rewrite filter_cons_True by (by rewrite Hv).
      rewrite counted_count_value. simpl length. lia.
Qed.

Lemma tally_keys (s : Series) (acc : list (value * Z)) :
  Forall (λ kv, isna kv.1 = false) acc →
  Forall (λ kv, isna kv.1 = false)
    (foldl (λ acc v, if isna v then acc else count_value v acc) acc s).
Proof.
  revert acc. induction s as [|v s IH]; intros acc Hacc; simpl; [done|].
  apply IH. destruct (isna v) eqn:Hv; [done|].
  by apply (keys_count_value (λ k, isna k = false)).
Qed.

Lemma insert_desc_perm (x : value * Z) (l : list (value * Z)) :
  insert_desc x l ≡ₚ x :: l.
Proof.
  induction l as [|y l IH]; simpl; [done|].
  destruct (x.2 <? y.2); [|done]. rewrite IH. apply Permutation_swap.
Qed.

Lemma sort_desc_perm (l : list (value * Z)) : sort_desc l ≡ₚ l.
Proof.
  induction l as [|x l IH]; simpl; [done|].
  by rewrite insert_desc_perm, IH.
Qed.

Lemma counted_perm (l k : list (value * Z)) : l ≡ₚ k → counted l = counted k.
Proof. induction 1; simpl; lia. Qed.

(** The counts of a column add up to the number of its cells that are not
    missing, and no key is missing. *)
Lemma value_counts_counted (s : Series) :
  counted (value_counts s) = count_where (λ v, negb (isna v)) s.
Proof.
  unfold value_counts. rewrite (counted_perm _ _ (sort_desc_perm _)).
  unfold tally. by rewrite tally_counted.
Qed.

Lemma value_counts_keys (s : Series) :
  Forall (λ kv, isna kv.1 = false) (value_counts s).
Proof.
  unfold value_counts. rewrite sort_desc_perm. by apply tally_keys.
Qed.

Lemma count_sum_entries (counts : list (value * Z)) (total : Z) :
  count_sum (entries_of counts total) = counted counts.
Proof. induction counts as [|kv counts IH]; simpl; [done|]. by rewrite IH. Qed.

Lemma filter_all {A} (P : A → Prop) `{∀ x, Decision (P x)} (l : list A) :
  Forall P l → filter P l = l.
Proof.
  induction 1 as [|x l Hx Hl IH]; [done|].
  rewrite filter_cons_True by done. by rewrite IH.
Qed.

(** The comprehension over the counts never divides by zero: an index of
    length zero leaves no value to count. *)
Lemma distribution_ok (df : DataFrame) (s : Series) :
  length s = index_len df →
  distribution (value_counts s) (df_len df)
  = Ok (entries_of (value_counts s) (df_len df)).
Proof.
  intros Hlen. unfold distribution.
  rewrite filter_all; last first.
  { eapply Forall_impl; [apply value_counts_keys|].
    intros [k n] Hk Heq. simpl in *. by subst k. }
  destruct (index_len df) as [|n] eqn:Hn.
  - apply nil_length_inv in Hlen as ->. done.
  - unfold df_len, entries_of. rewrite Hn.
    generalize (value_counts s). intros counts.
    induction counts as [|kv counts IH]; [done|].
    cbn [mapM fmap list_fmap]. rewrite IH. done.
Qed.

(** ** [generate_statistics] on an enriched dataset *)

Lemma for_each_ok {A B} (l : list A) (acc : B) (body : B → A → result B)
    (g : B → A → B) :
  (∀ acc x, x ∈ l → body acc x = Ok (g acc x)) →
  for_each l acc body = Ok (foldl g acc l).
Proof.
  revert acc. induction l as [|x l IH]; intros acc Hbody; [done|].
  cbn [for_each foldl]. rewrite Hbody by left. cbn [mbind result_bind].
  apply IH. intros acc' y Hy. apply Hbody. by right.
Qed.

Section fold_insert.
Context {V : Type} (f : str * str → V).

Let step (m : gmap str V) (ds : str * str) : gmap str V := <[ds.1 := f ds]> m.

Lemma fold_insert_other (l : list (str * str)) (m : gmap str V) (k : str) :
  k ∉ l.*1 → foldl step m l !! k = m !! k.
Proof.
  revert m. induction l as [|[d n] l IH]; intros m Hk; [done|].
  apply not_elem_of_cons in Hk as [Hne Hk]. cbn [foldl].
  rewrite IH by done. unfold step. by rewrite lookup_insert_ne.
Qed.

Lemma fold_insert_lookup (l : list (str * str)) (m : gmap str V)
    (k x : str) :
  NoDup l.*1 → (k, x) ∈ l → foldl step m l !! k = Some (f (k, x)).
Proof.
  revert m. induction l as [|[d n] l IH]; intros m Hnd Hin.
  - by apply elem_of_nil in Hin.
  - apply NoDup_cons in Hnd as [Hd Hnd]. cbn [foldl].
    apply elem_of_cons in Hin as [[= -> ->]|Hin].
    + rewrite fold_insert_other by done. unfold step.
      by rewrite lookup_insert_eq.
    + by apply IH.
Qed.

Lemma fold_insert_inv (l : list (str * str)) (m : gmap str V) (k : str)
    (v : V) :
  foldl step m l !! k = Some v →
  (∃ x, (k, x) ∈ l ∧ v = f (k, x)) ∨ m !! k = Some v.
Proof.
  revert m. induction l as [|[d n] l IH]; intros m Hk; [by right|].
  cbn [foldl] in Hk. apply IH in Hk as [(x & Hx & ->)|Hk].
  - left. exists x. split; [by right | done].
  - unfold step in Hk. apply lookup_insert_Some in Hk as [[<- <-]|[_ Hk]].
    + left. exists n. split; [left | done].
    + by right.
Qed.
End fold_insert.

Lemma column_present (df : DataFrame) (c : str) :
  wf df → is_Some (lookup_column (columns df) c) →
  df_getitem df c = Ok (column_of df c)
  ∧ length (column_of df c) = index_len df.
Proof.
  intros [_ Hlen] [s Hs]. unfold df_getitem, column_of. rewrite Hs. split; [done|].
  simpl. induction (columns df) as [|[k ws] cols IH]; [done|].
  apply Forall_cons in Hlen as [Hws Hlen]. simpl in Hs.
  destruct (str_eqb k c); [by injection Hs as <- | by apply IH].
Qed.

Lemma dimension_columns (key col : str) :
  (key, col) ∈ dimensions → col ∈ statistics_columns.
Proof.
  unfold dimensions, statistics_columns. intros Hin.
  repeat (apply elem_of_cons in Hin as [[= -> ->]|Hin]; [by_compute|]).
  by apply elem_of_nil in Hin.
Qed.

Lemma dimension_keys : NoDup dimensions.*1.
Proof. apply (bool_decide_unpack _). vm_compute. reflexivity. Qed.

Lemma special_school_keys : NoDup special_schools.*1.
Proof. apply (bool_decide_unpack _). vm_compute. reflexivity. Qed.

Lemma special_institutions_ok (df : DataFrame) :
  wf df → has_columns df statistics_columns →
  _calculate_special_institutions df =
    Ok (<[py "C9联盟" :=
            count_eq (py "C9联盟") (column_of df (py "最高学历毕业院校类别-分类1"))
            - count_eq (py "清华大学") (column_of df (py "最高学历毕业院校"))
            - count_eq (py "北京大学") (column_of df (py "最高学历毕业院校"))]>
          (school_counts (column_of df (py "最高学历毕业院校")))).
Proof.
  intros Hwf Hcols.
  destruct (column_present df (py "最高学历毕业院校") Hwf) as [Hs Hslen].
  { apply (proj1 (Forall_forall _ _) Hcols).
    by_compute. }
  destruct (column_present df (py "最高学历毕业院校类别-分类1") Hwf) as [Ht Htlen].
  { apply (proj1 (Forall_forall _ _) Hcols).
    by_compute. }
  unfold _calculate_special_institutions.
  rewrite (for_each_ok _ _ _
    (λ m ds, <[ds.1 := count_eq ds.2 (column_of df (py "最高学历毕业院校"))]> m));
    last first.
  { intros acc [d n] _. rewrite Hs. cbn [mbind result_bind]. do 2 f_equal.
    exact (mask_count df (λ v, eqb v (VStr n)) _ Hslen). }
  cbn [mbind result_bind]. rewrite Ht. cbn [mbind result_bind].
  fold (school_counts (column_of df (py "最高学历毕业院校"))).
  unfold tally_getitem, school_counts.
  rewrite (fold_insert_lookup _ _ _ (py "清华大学") (py "清华大学")
             special_school_keys) by by_compute.
  rewrite (fold_insert_lookup _ _ _ (py "北京大学") (py "北京大学")
             special_school_keys) by by_compute.
  cbn [mbind result_bind snd]. unfold series_eq.
  by rewrite (mask_count df (λ v, eqb v (VStr (py "C9联盟")))).
Qed.

(** What [generate_statistics] returns on an enriched dataset, key by key. *)
Lemma generate_statistics_enriched (df : DataFrame) :
  enriched df →
  ∃ stats special,
    generate_statistics df = Ok stats
    ∧ stats !! py "total_count" = Some (SInt (df_len df))
    ∧ stats !! py "bilateral_count"
      = Some (SInt (count_where (has_marker (py "两方"))
                                (column_of df (py "应聘状态"))))
    ∧ stats !! py "trilateral_count"
      = Some (SInt (count_where (has_marker (py "三方"))
                                (column_of df (py "应聘状态"))))
    ∧ (∀ key col, (key, col) ∈ dimensions →
         stats !! key = Some (SDist (dist_of df col)))
    ∧ stats !! py "special_institutions" = Some (STally special)
    ∧ special =
        <[py "C9联盟" :=
            count_eq (py "C9联盟")
                     (column_of df (py "最高学历毕业院校类别-分类1"))
            - count_eq (py "清华大学") (column_of df (py "最高学历毕业院校"))
            - count_eq (py "北京大学") (column_of df (py "最高学历毕业院校"))]>
          (school_counts (column_of df (py "最高学历毕业院校"))).
Proof.
  intros (Hwf & Hcols & Hstr).
  destruct (column_present df (py "应聘状态") Hwf) as [Hst Hstlen].
  { apply (proj1 (Forall_forall _ _) Hcols).
    by_compute. }
  eexists _, _. split_and!; [| | | | | |reflexivity].
  - unfold generate_statistics. cbv zeta.
    rewrite Hst. cbn [mbind result_bind]. unfold str_contains.
    rewrite Hstr. cbn [mbind result_bind].
    rewrite (for_each_ok _ _ _
      (λ stats kc, <[kc.1 := SDist (dist_of df kc.2)]> stats)); last first.
    { intros acc [key col] Hin%dimension_columns.
      destruct (column_present df col Hwf
                  (proj1 (Forall_forall _ _) Hcols col Hin)) as [-> Hlen].
      cbn [mbind result_bind]. by rewrite (distribution_ok df _ Hlen). }
    cbn [mbind result_bind].
    rewrite (special_institutions_ok df Hwf Hcols). cbn [mbind result_bind].
    reflexivity.
  - rewrite lookup_insert_ne by key_neq.
    rewrite fold_insert_other by by_compute.
    do 2 (rewrite lookup_insert_ne by key_neq). by rewrite lookup_insert_eq.
  - rewrite lookup_insert_ne by key_neq.
    rewrite fold_insert_other by by_compute.
    rewrite lookup_insert_ne by key_neq. rewrite lookup_insert_eq.
    do 2 f_equal. apply (mask_count df (has_marker (py "两方")) _ Hstlen).
  - rewrite lookup_insert_ne by key_neq.
    rewrite fold_insert_other by by_compute.
    rewrite lookup_insert_eq.
    do 2 f_equal. apply (mask_count df (has_marker (py "三方")) _ Hstlen).
  - intros key col Hin.
    rewrite lookup_insert_ne; last first.
    { intros <-.
      assert (py "special_institutions" ∉ dimensions.*1) as Hno by by_compute.
      apply Hno, list_elem_of_fmap.
      exists (py "special_institutions", col). split; [reflexivity | exact Hin]. }
    by rewrite (fold_insert_lookup _ _ _ key col dimension_keys Hin).
  - by rewrite lookup_insert_eq.
Qed.

(** ** The aggregator *)

Import Examples.

Ltac check_enriched :=
  unfold enriched, wf, has_columns; split_and!; by_compute.

Lemma dist_of_counts (df : DataFrame) (col : str) :
  length (column_of df col) = index_len df →
  count_sum (dist_of df col) + count_where isna (column_of df col) = df_len df
  ∧ Forall (λ e, isna (name e) = false) (dist_of df col).
Proof.
  intros Hlen. unfold dist_of. split.
  - rewrite count_sum_entries, value_counts_counted, count_where_split.
    unfold df_len. by rewrite Hlen.
  - unfold entries_of. apply Forall_fmap.
    eapply Forall_impl; [apply value_counts_keys | done].
Qed.

Lemma enriched_column_length (df : DataFrame) (col : str) :
  enriched df → col ∈ statistics_columns →
  length (column_of df col) = index_len df.
Proof.
  intros (Hwf & Hcols & _) Hin.
  by destruct (column_present df col Hwf
                 (proj1 (Forall_forall _ _) Hcols col Hin)).
Qed.

(** C2. For every enriched dataset and each of the seven dimensions, the
    counts of the distribution that [generate_statistics] returns, plus the
    number of records whose value in the column of that dimension is
    missing, add up to [total_count]; no entry of the distribution stands
    for a missing value. *)
Theorem distribution_counts_total (df : DataFrame) :
  enriched df →
  ∃ stats,
    generate_statistics df = Ok stats
    ∧ stats !! py "total_count" = Some (SInt (df_len df))
    ∧ ∀ key col,
        (key, col) ∈ [(py "political_status", py "政治面貌");
                      (py "gender", py "性别");
                      (py "age_distribution", py "出生年代");
                      (py "education", py "最高学历");
                      (py "institution_category", py "最高学历毕业院校类别-分类1");
                      (py "major_type", py "专业类型");
                      (py "province_distribution", py "籍贯-省份")] →
        ∃ entries,
          stats !! key = Some (SDist entries)
          ∧ count_sum entries + count_where isna (column_of df col)
            = df_len df
          ∧ Forall (λ e, isna (name e) = false) entries.
Proof.
  intros Hdf.
  destruct (generate_statistics_enriched df Hdf)
    as (stats & special & Hrun & Htotal & _ & _ & Hdims & _).
  exists stats. split_and!; [done..|].
  intros key col Hin. exists (dist_of df col). split; [by apply Hdims|].
  apply dist_of_counts, enriched_column_length; [done|].
  by apply (dimension_columns key).
Qed.

Lemma distribution_counts_total_witness :
  enriched mixed_agreements
  ∧ ∃ stats,
      generate_statistics mixed_agreements = Ok stats
      ∧ ∃ entries,
          stats !! py "age_distribution" = Some (SDist entries)
          ∧ count_sum entries
            + count_where isna (column_of mixed_agreements (py "出生年代"))
            = 3.
Proof.
  assert (Hdf : enriched mixed_agreements) by check_enriched.
  split; [exact Hdf|].
  destruct (distribution_counts_total mixed_agreements Hdf)
    as (stats & Hrun & _ & Hdims).
  exists stats. split; [exact Hrun|].
  destruct (Hdims (py "age_distribution") (py "出生年代"))
    as (entries & Hkey & Hsum & _); [by_compute|].
  exists entries. split; [exact Hkey | exact Hsum].
Defined.

(** C3. On a dataset with no record and every column of an enriched dataset,
    [generate_statistics] returns, without raising: the three counts are 0,
    the distribution of each of the seven dimensions is empty, and every
    entry of the special-institution tally, the C9联盟 entry included, is 0. *)
Theorem zero_records_statistics (df : DataFrame) :
  wf df → has_columns df statistics_columns → index_len df = 0%nat →
  ∃ stats special,
    generate_statistics df = Ok stats
    ∧ stats !! py "total_count" = Some (SInt 0)
    ∧ stats !! py "bilateral_count" = Some (SInt 0)
    ∧ stats !! py "trilateral_count" = Some (SInt 0)
    ∧ (∀ key col, (key, col) ∈ dimensions → stats !! key = Some (SDist []))
    ∧ stats !! py "special_institutions" = Some (STally special)
    ∧ special !! py "C9联盟" = Some 0
    ∧ (∀ school, school ∈ special_schools.*1 → special !! school = Some 0)
    ∧ (∀ k n, special !! k = Some n → n = 0).
Proof.
  intros Hwf Hcols Hzero.
  assert (Hnil : ∀ col, col ∈ statistics_columns → column_of df col = []).
  { intros col Hin. apply nil_length_inv. rewrite <- Hzero.
    by destruct (column_present df col Hwf
                   (proj1 (Forall_forall _ _) Hcols col Hin)). }
  assert (Hdf : enriched df).
  { split_and!; [done..|]. rewrite Hnil; [done|].
    by_compute. }
  destruct (generate_statistics_enriched df Hdf)
    as (stats & special & Hrun & Htotal & Hbi & Htri & Hdims & Hsp & ->).
  rewrite !Hnil in * by by_compute.
  unfold df_len in Htotal. rewrite Hzero in Htotal.
  exists stats. eexists. split_and!; [done..| | done | | |].
  - intros key col Hin. rewrite (Hdims key col Hin). unfold dist_of.
    by rewrite (Hnil col (dimension_columns key col Hin)).
  - by rewrite lookup_insert_eq.
  - intros school (ds & -> & Hin)%list_elem_of_fmap.
    rewrite lookup_insert_ne; last first.
    { intros Heq. assert (py "C9联盟" ∉ special_schools.*1) as Hno by by_compute.
      apply Hno. rewrite Heq. apply list_elem_of_fmap. by exists ds. }
    destruct ds as [d n']. unfold school_counts.
    by rewrite (fold_insert_lookup _ _ _ d n' special_school_keys Hin).
  - intros k n [[_ <-]|[_ Hk]]%lookup_insert_Some; [done|].
    unfold school_counts in Hk.
    by apply fold_insert_inv in Hk as [(x & _ & ->)|Hk].
Qed.

Lemma zero_records_statistics_witness :
  ∃ stats special,
    generate_statistics empty_roster = Ok stats
    ∧ stats !! py "total_count" = Some (SInt 0)
    ∧ stats !! py "gender" = Some (SDist [])
    ∧ stats !! py "special_institutions" = Some (STally special)
    ∧ special !! py "C9联盟" = Some 0.
Proof.
  destruct (zero_records_statistics empty_roster)
    as (stats & special & Hrun & Htotal & _ & _ & Hdims & Hsp & Hc9 & _).
  - unfold wf. split; by_compute.
  - unfold has_columns. by_compute.
  - reflexivity.
  - exists stats, special. split_and!; try assumption.
    apply (Hdims _ (py "性别")). by_compute.
Defined.

Set Warnings "-inexact-float".

(** C8. For an enriched dataset of three records whose gender column is
    男, 女, 男 and whose hire-agreement column is 已签约(两方), 已签约(两方),
    已签约(三方) (the political statuses being 中共党员, 共青团员, 群众),
    [generate_statistics] returns [total_count] 3, [bilateral_count] 2,
    [trilateral_count] 1 and the gender distribution 男 2 66.7, 女 1 33.3, in
    that order. *)
Theorem three_record_scenario (df : DataFrame) :
  enriched df →
  index_len df = 3%nat →
  column_of df (py "性别") = [S "男"; S "女"; S "男"] →
  column_of df (py "政治面貌") = [S "中共党员"; S "共青团员"; S "群众"] →
  column_of df (py "应聘状态")
    = [S "已签约(两方)"; S "已签约(两方)"; S "已签约(三方)"] →
  ∃ stats,
    generate_statistics df = Ok stats
    ∧ stats !! py "total_count" = Some (SInt 3)
    ∧ stats !! py "bilateral_count" = Some (SInt 2)
    ∧ stats !! py "trilateral_count" = Some (SInt 1)
    ∧ stats !! py "gender"
      = Some (SDist [ {| name := S "男"; count := 2; percentage := 66.7 |};
                      {| name := S "女"; count := 1; percentage := 33.3 |} ]).
Proof.
  intros Hdf Hlen Hgender _ Hstatus.
  destruct (generate_statistics_enriched df Hdf)
    as (stats & special & Hrun & Htotal & Hbi & Htri & Hdims & _).
  exists stats. split_and!; [done| | | |].
  - rewrite Htotal. unfold df_len. by rewrite Hlen.
  - rewrite Hbi, Hstatus. vm_compute. reflexivity.
  - rewrite Htri, Hstatus. vm_compute. reflexivity.
  - rewrite (Hdims (py "gender") (py "性别")) by by_compute.
    unfold dist_of, df_len. rewrite Hgender, Hlen. vm_compute. reflexivity.
Qed.

Lemma three_record_scenario_witness :
  ∃ stats,
    generate_statistics roster3 = Ok stats
    ∧ stats !! py "total_count" = Some (SInt 3)
    ∧ stats !! py "bilateral_count" = Some (SInt 2)
    ∧ stats !! py "trilateral_count" = Some (SInt 1)
    ∧ stats !! py "gender"
      = Some (SDist [ {| name := S "男"; count := 2; percentage := 66.7 |};
                      {| name := S "女"; count := 1; percentage := 33.3 |} ]).
Proof.
  apply (three_record_scenario roster3).
  - check_enriched.
  - reflexivity.
  - vm_compute. reflexivity.
  - vm_compute. reflexivity.
  - vm_compute. reflexivity.
Defined.

(** C9. The C9联盟 entry of the special-institution tally is the number of
    records whose tier is C9联盟 minus the number whose school is 清华大学
    minus the number whose school is 北京大学, and it can be negative: one
    record from 清华大学 with an overseas category tag, once enriched, gives
    the entry -1. *)
Theorem c9_entry_can_be_negative :
  (∀ df, enriched df →
     ∃ stats special,
       generate_statistics df = Ok stats
       ∧ stats !! py "special_institutions" = Some (STally special)
       ∧ special !! py "C9联盟"
         = Some (count_eq (py "C9联盟")
                          (column_of df (py "最高学历毕业院校类别-分类1"))
                 - count_eq (py "清华大学") (column_of df (py "最高学历毕业院校"))
                 - count_eq (py "北京大学") (column_of df (py "最高学历毕业院校"))))
  ∧ enhance_data 0%nat [flagship_abroad]
    = (Ok 1%nat, [flagship_abroad; flagship_abroad_enhanced])
  ∧ enriched flagship_abroad_enhanced
  ∧ column_of flagship_abroad_enhanced (py "最高学历毕业院校") = [S "清华大学"]
  ∧ column_of flagship_abroad_enhanced (py "最高学历毕业院校类别-分类1")
    = [S "QS1-50"]
  ∧ read_tally (generate_statistics flagship_abroad_enhanced) (py "C9联盟")
    = Some (-1).
Proof.
  split_and!.
  - intros df Hdf.
    destruct (generate_statistics_enriched df Hdf)
      as (stats & special & Hrun & _ & _ & _ & _ & Hsp & ->).
    exists stats. eexists. split_and!; [done..|]. by rewrite lookup_insert_eq.
  - vm_compute. reflexivity.
  - check_enriched.
  - vm_compute. reflexivity.
  - vm_compute. reflexivity.
  - vm_compute. reflexivity.
Qed.

Lemma has_marker_spec (marker : str) (v : value) :
  has_marker marker v = true ↔ ∃ s, v = VStr s ∧ substring marker s.
Proof.
  destruct v as [s|n| |]; simpl.
  - rewrite contains_spec. naive_solver.
  - naive_solver.
  - naive_solver.
  - naive_solver.
Qed.

(** C10. [bilateral_count] and [trilateral_count] count, each on its own,
    the records whose hire-agreement string contains 两方, respectively 三方.
    They do not partition the dataset: a record whose string contains both
    is counted in both, so that the two counts can exceed [total_count]
    together, and a record whose string contains neither is counted in
    neither. *)
Theorem agreement_counts_are_independent :
  (∀ df, enriched df →
     ∃ stats,
       generate_statistics df = Ok stats
       ∧ stats !! py "bilateral_count"
         = Some (SInt (count_where (has_marker (py "两方"))
                                   (column_of df (py "应聘状态"))))
       ∧ stats !! py "trilateral_count"
         = Some (SInt (count_where (has_marker (py "三方"))
                                   (column_of df (py "应聘状态")))))
  ∧ (∀ marker v, has_marker marker v = true
                 ↔ ∃ s, v = VStr s ∧ substring marker s)
  ∧ enriched mixed_agreements
  ∧ column_of mixed_agreements (py "应聘状态")
    = [S "两方转三方"; S "三方(原两方)"; S "洽谈中"]
  ∧ read_int (generate_statistics mixed_agreements) (py "total_count")
    = Some 3
  ∧ read_int (generate_statistics mixed_agreements) (py "bilateral_count")
    = Some 2
  ∧ read_int (generate_statistics mixed_agreements) (py "trilateral_count")
    = Some 2
  ∧ 2 + 2 > 3
  ∧ has_marker (py "两方") (S "洽谈中") = false
  ∧ has_marker (py "三方") (S "洽谈中") = false.
Proof.
  split_and!.
  - intros df Hdf.
    destruct (generate_statistics_enriched df Hdf)
      as (stats & special & Hrun & _ & Hbi & Htri & _).
    by exists stats.
  - apply has_marker_spec.
  - check_enriched.
  - vm_compute. reflexivity.
  - vm_compute. reflexivity.
  - vm_compute. reflexivity.
  - vm_compute. reflexivity.
  - lia.
  - vm_compute. reflexivity.
  - vm_compute. reflexivity.
Qed.

(** ** The report *)

Import ReportGenerator.

Lemma bind_Ok {A B} (m : result A) (f : A → result B) (b : B) :
  m ≫= f = Ok b → ∃ a, m = Ok a ∧ f a = Ok b.
Proof. destruct m as [a|e]; [by exists a | done]. Qed.

Lemma getitem_Ok {A} (l : list A) (i : nat) (a : A) :
  getitem l i = Ok a → (i < length l)%nat.
Proof.
  unfold getitem. destruct (l !! i) eqn:Hi; [|done].
  intros _. by apply lookup_lt_Some in Hi.
Qed.

Lemma three_clauses_Ok (repr_float : float → str) (data : list entry)
    (l0 l1 l2 text : str) :
  three_clauses repr_float data l0 l1 l2 = Ok text → (3 ≤ length data)%nat.
Proof.
  unfold three_clauses. intros H.
  apply bind_Ok in H as (e0 & _ & H). apply bind_Ok in H as (e1 & _ & H).
  apply bind_Ok in H as (e2 & H%getitem_Ok & _). lia.
Qed.

(** A report is produced only when the political-status and the gender
    distributions are long enough for the positions the sentences read. *)
Lemma report_needs_entries (repr_float : float → str) (day time : str)
    (statistics : gmap str stat) (images : gmap str str) (report : str) :
  generate_markdown_report repr_float day time statistics images = Ok report →
  ∃ political_data gender_data,
    statistics !! py "political_status" = Some (SDist political_data)
    ∧ statistics !! py "gender" = Some (SDist gender_data)
    ∧ (3 ≤ length political_data)%nat ∧ (2 ≤ length gender_data)%nat.
Proof.
  unfold generate_markdown_report. cbv zeta. intros H.
  apply bind_Ok in H as (total & _ & H).
  apply bind_Ok in H as (bilateral & _ & H).
  apply bind_Ok in H as (trilateral & _ & H).
  apply bind_Ok in H as (political_data & Hp & H).
  apply bind_Ok in H as (political_text & Hpt%three_clauses_Ok & H).
  apply bind_Ok in H as (gender_data & Hg & H).
  apply bind_Ok in H as (g0 & _ & H).
  apply bind_Ok in H as (g1 & Hg1%getitem_Ok & _).
  exists political_data, gender_data. split_and!; [| |done..].
  - unfold stat_dist in Hp. by repeat case_match; simplify_eq.
  - unfold stat_dist in Hg. by repeat case_match; simplify_eq.
Qed.

(** C7. The report composer does not degrade gracefully in the gender
    section: that section reads the first two entries of the distribution
    without looking at its length, unlike the major-type and province
    sections. A roster of men only, enriched and aggregated, has a gender
    distribution of one entry, and [generate_markdown_report] raises
    [IndexError] on its statistics; no statistics with fewer than two gender
    entries yield a report. *)
Theorem report_faults_on_one_gender :
  enhance_data 0%nat [men_only] = (Ok 1%nat, [men_only; men_only_enhanced])
  ∧ read_dist (generate_statistics men_only_enhanced) (py "gender")
    = Some [ {| name := S "男"; count := 3; percentage := 100 |} ]
  ∧ (∀ (repr_float : float → str) (day time : str) (images : gmap str str),
       (statistics ← generate_statistics men_only_enhanced;
        generate_markdown_report repr_float day time statistics images)
       = Raise IndexError)
  ∧ (∀ (repr_float : float → str) (day time : str) statistics images
       gender_data report,
       statistics !! py "gender" = Some (SDist gender_data) →
       (length gender_data < 2)%nat →
       generate_markdown_report repr_float day time statistics images
       ≠ Ok report).
Proof.
  split_and!.
  - vm_compute. reflexivity.
  - vm_compute. reflexivity.
  - intros repr_float day time images. vm_compute. reflexivity.
  - intros repr_float day time statistics images gender_data report Hg Hlen Hrun.
    apply report_needs_entries in Hrun as (p & g & _ & Hg' & _ & Hlen').
    rewrite Hg in Hg'. injection Hg' as <-. lia.
Qed.

(** ** The enrichment stage *)

Lemma mapM_Ok {A B} (f : A → result B) (l : list A) :
  (∀ x, ∃ y, f x = Ok y) →
  ∃ k, mapM f l = Ok k ∧ Forall2 (λ x y, f x = Ok y) l k.
Proof.
  intros Hf. induction l as [|x l (k & Hk & Hall)].
  - exists []. by split.
  - destruct (Hf x) as [y Hy]. exists (y :: k). cbn [mapM].
    rewrite Hy. cbn [mbind result_bind]. rewrite Hk. split; [done|].
    by constructor.
Qed.

Lemma mapM_pure {A B} (f : A → result B) (g : A → B) (l : list A) :
  (∀ x, f x = Ok (g x)) → mapM f l = Ok (g <$> l).
Proof.
  intros Hf. induction l as [|x l IH]; [done|].
  cbn [mapM]. rewrite Hf, IH. done.
Qed.

Lemma lookup_column_app (cols ext : list (str * Series)) (c : str) (s : Series) :
  lookup_column cols c = Some s → lookup_column (cols ++ ext) c = Some s.
Proof.
  induction cols as [|[k ws] cols IH]; [done|]. simpl.
  by destruct (str_eqb k c).
Qed.

Lemma lookup_column_fresh (cols ext : list (str * Series)) (c : str) :
  c ∉ cols.*1 → lookup_column (cols ++ ext) c = lookup_column ext c.
Proof.
  induction cols as [|[k ws] cols IH]; [done|].
  intros [Hne Hc]%not_elem_of_cons. simpl. unfold str_eqb.
  rewrite bool_decide_eq_false_2 by done. by apply IH.
Qed.

Lemma lookup_column_label (cols : list (str * Series)) (c : str) (s : Series) :
  lookup_column cols c = Some s → c ∈ cols.*1.
Proof.
  induction cols as [|[k ws] cols IH]; [done|]. simpl. unfold str_eqb.
  case_bool_decide; [subst; intros _; left | intros Hs; right; by apply IH].
Qed.

Lemma set_column_fresh (cols : list (str * Series)) (c : str) (vs : Series) :
  c ∉ cols.*1 → set_column cols c vs = cols ++ [(c, vs)].
Proof.
  induction cols as [|[k ws] cols IH]; [done|].
  intros [Hne Hc]%not_elem_of_cons. simpl. unfold str_eqb.
  rewrite bool_decide_eq_false_2 by done. by rewrite IH.
Qed.

(** The cell that a row holds for a column is the cell of that column at the
    position of the row. *)
Lemma row_get_row_at (df : DataFrame) (c : str) (s : Series) (i : nat)
    (v d : value) :
  Forall (λ col, length col.2 = index_len df) (columns df) →
  lookup_column (columns df) c = Some s → s !! i = Some v →
  row_get (row_at df i) c d = v.
Proof.
  unfold row_at. intros Hlen Hs Hv.
  assert (Hi : (i < index_len df)%nat).
  { apply lookup_lt_Some in Hv.
    induction (columns df) as [|[k ws] cols IH]; [done|].
    apply Forall_cons in Hlen as [Hws Hlen]. simpl in *.
    destruct (str_eqb k c); [by injection Hs as <-; lia | by apply IH]. }
  induction (columns df) as [|[k ws] cols IH]; [done|].
  apply Forall_cons in Hlen as [Hws Hlen]. simpl in *.
  destruct (lookup_lt_is_Some_2 ws i) as [w Hw]; [lia|].
  rewrite Hw. simpl. destruct (str_eqb k c).
  - injection Hs as <-. congruence.
  - by apply IH.
Qed.

Lemma classify_rows (df : DataFrame) (s : Series) :
  Forall (λ col, length col.2 = index_len df) (columns df) →
  lookup_column (columns df) (py "最高学历毕业院校类别") = Some s →
  length s = index_len df →
  df_apply_rows (λ row, Ok (VStr (classify_institution row))) df
  = Ok (tier_of <$> s).
Proof.
  intros Hlen Hs Hn. unfold df_apply_rows, rows.
  rewrite (mapM_pure _ (λ row, VStr (classify_institution row))) by done.
  f_equal. apply list_eq. intros i. rewrite !list_lookup_fmap.
  destruct (decide (i < index_len df)%nat) as [Hi|Hi].
  - rewrite lookup_seq_lt by done.
    destruct (lookup_lt_is_Some_2 s i) as [v Hv]; [lia|].
    rewrite Hv. simpl. do 2 f_equal. unfold classify_institution.
    by rewrite (row_get_row_at df _ s i v _ Hlen Hs Hv).
  - rewrite lookup_seq_ge by lia. by rewrite lookup_ge_None_2 by lia.
Qed.

(** Steps of the store on its last frame. *)
Lemma copy_step (h : heap) (l : ref) (df : DataFrame) :
  h !! l = Some df → copy l h = (Ok (length h), h ++ [df]).
Proof. intros Hl. unfold copy. by rewrite Hl. Qed.

Lemma lookup_last (h : heap) (df : DataFrame) :
  (h ++ [df]) !! length h = Some df.
Proof. by rewrite lookup_app_r, Nat.sub_diag by lia. Qed.

Lemma deref_last (h : heap) (df : DataFrame) :
  deref (length h) (h ++ [df]) = (Ok df, h ++ [df]).
Proof. unfold deref. by rewrite lookup_last. Qed.

Lemma getitem_at_last (h : heap) (df : DataFrame) (c : str) (s : Series) :
  lookup_column (columns df) c = Some s →
  getitem_at (length h) c (h ++ [df]) = (Ok s, h ++ [df]).
Proof.
  intros Hs. unfold getitem_at, mbind, prog_bind.
  rewrite deref_last. unfold lift, df_getitem. by rewrite Hs.
Qed.

Lemma setitem_at_last (h : heap) (df : DataFrame) (c : str) (vs : Series) :
  c ∉ (columns df).*1 → length vs = index_len df →
  setitem_at (length h) c vs (h ++ [df])
  = (Ok (), h ++ [ {| index_len := index_len df;
                      columns := columns df ++ [(c, vs)] |} ]).
Proof.
  intros Hc Hlen. unfold setitem_at, df_setitem.
  rewrite lookup_last, Hlen, Nat.eqb_refl, (set_column_fresh _ _ _ Hc).
  f_equal. rewrite insert_app_r_alt by lia.
  by rewrite Nat.sub_diag.
Qed.

Lemma key_differs (a b : str) : a ≠ b → str_eqb a b = false.
Proof. intros Hne. unfold str_eqb. by apply bool_decide_eq_false. Qed.

Lemma lookup_set_column (cols : list (str * Series)) (c c' : str) (vs : Series) :
  lookup_column (set_column cols c vs) c'
  = if str_eqb c c' then Some vs else lookup_column cols c'.
Proof.
  induction cols as [|[k ws] cols IH]; simpl; [done|].
  destruct (decide (k = c)) as [->|Hk].
  - rewrite (proj2 (str_eqb_eq c c)) by done. simpl.
    by destruct (str_eqb c c').
  - rewrite key_differs by done. simpl. rewrite IH.
    destruct (str_eqb c c') eqn:Hc; [|done].
    apply str_eqb_eq in Hc as <-. by rewrite key_differs.
Qed.


Lemma set_column_labels (cols : list (str * Series)) (c : str) (vs : Series) :
  (set_column cols c vs).*1
  = if bool_decide (c ∈ cols.*1) then cols.*1 else cols.*1 ++ [c].
Proof.
  induction cols as [|[k ws] cols IH].
  - by rewrite bool_decide_eq_false_2 by (by intros ?%elem_of_nil).
  - cbn [set_column]. destruct (decide (k = c)) as [->|Hk].
    + rewrite (proj2 (str_eqb_eq c c)) by done.
      by rewrite bool_decide_eq_true_2 by (rewrite fmap_cons; left).
    + rewrite key_differs by done. rewrite !fmap_cons, IH. cbn [fst].
      destruct (decide (c ∈ cols.*1)) as [Hc|Hc].
      * rewrite !bool_decide_eq_true_2; [done | by right | done].
      * rewrite !bool_decide_eq_false_2; [done | | done].
        intros [?|?]%elem_of_cons; [congruence | done].
Qed.

Lemma set_column_aligned (df : DataFrame) (c : str) (vs : Series) :
  aligned df → length vs = index_len df → aligned (with_column df c vs).
Proof.
  unfold aligned, with_column. simpl. intros Hal Hlen.
  induction (columns df) as [|[k ws] cols IH]; simpl.
  - by repeat constructor.
  - apply Forall_cons in Hal as [Hws Hal].
    destruct (str_eqb k c); constructor; auto.
Qed.

Lemma aligned_column (df : DataFrame) (c : str) (s : Series) :
  aligned df → lookup_column (columns df) c = Some s →
  length s = index_len df.
Proof.
  unfold aligned. intros Hal Hs.
  induction (columns df) as [|[k ws] cols IH]; [done|].
  apply Forall_cons in Hal as [Hws Hal]. simpl in Hs.
  destruct (str_eqb k c); [by injection Hs as <- | by apply IH].
Qed.

Lemma setitem_at_step (h : heap) (df : DataFrame) (c : str) (vs : Series) :
  length vs = index_len df →
  setitem_at (length h) c vs (h ++ [df]) = (Ok (), h ++ [with_column df c vs]).
Proof.
  intros Hlen. unfold setitem_at, df_setitem.
  rewrite lookup_last, Hlen, Nat.eqb_refl.
  f_equal. rewrite insert_app_r_alt by lia. by rewrite Nat.sub_diag.
Qed.

Lemma province_cell_ok (v : value) :
  VStr <$> extract_province v = Ok (province_cell v).
Proof.
  unfold province_cell. by destruct (extract_province_returns v) as [p ->].
Qed.

Lemma cohort_cell_ok (v : value) :
  calculate_generation v = Ok (cohort_cell v).
Proof.
  unfold cohort_cell. by destruct (calculate_generation_returns v) as (r & -> & _).
Qed.

(** The run of [enhance_data] on a frame that has the three source columns:
    it allocates one frame, the enhanced one, and returns its reference. *)
Lemma enhance_data_run (h : heap) (df : ref) (input : DataFrame) :
  h !! df = Some input → aligned input → has_columns input source_columns →
  enhance_data df h = (Ok (length h), h ++ [enhanced_frame input]).
Proof.
  intros Hdf Hal Hsrc.
  assert (Hcol : ∀ c, c ∈ source_columns →
            lookup_column (columns input) c = Some (column_of input c)
            ∧ length (column_of input c) = index_len input).
  { intros c Hc. apply (proj1 (Forall_forall _ _) Hsrc) in Hc as [s Hs].
    unfold column_of. rewrite Hs. split; [done|].
    by apply (aligned_column input c). }
  destruct (Hcol (py "最高学历毕业院校类别")) as [Htag Htaglen]; [by_compute|].
  destruct (Hcol (py "籍贯")) as [Horigin Horiginlen]; [by_compute|].
  destruct (Hcol (py "出生日期")) as [Hbirth Hbirthlen]; [by_compute|].
  unfold enhanced_frame. cbv zeta.
  set (tags := column_of input (py "最高学历毕业院校类别")) in *.
  set (df1 := with_column input (py "是否为海外院校") (overseas_flag <$> tags)).
  set (df2 := with_column df1 (py "最高学历毕业院校类别-分类1") (tier_of <$> tags)).
  set (df3 := with_column df2 (py "籍贯-省份")
                (province_cell <$> column_of input (py "籍贯"))).
  assert (Hal1 : aligned df1).
  { apply set_column_aligned; [done|]. by rewrite length_fmap. }
  assert (Hal2 : aligned df2).
  { apply set_column_aligned; [done|]. by rewrite length_fmap. }
  assert (Htag1 : lookup_column (columns df1) (py "最高学历毕业院校类别") = Some tags).
  { unfold df1, with_column. cbn [columns].
    rewrite lookup_set_column, key_differs by key_neq. done. }
  assert (Horigin2 : lookup_column (columns df2) (py "籍贯")
                     = Some (column_of input (py "籍贯"))).
  { unfold df2, df1, with_column. cbn [columns].
    rewrite !lookup_set_column, !key_differs by key_neq. done. }
  assert (Hbirth3 : lookup_column (columns df3) (py "出生日期")
                    = Some (column_of input (py "出生日期"))).
  { unfold df3, df2, df1, with_column. cbn [columns].
    rewrite !lookup_set_column, !key_differs by key_neq. done. }
  unfold enhance_data, mbind, prog_bind, mret, prog_ret.
  rewrite (copy_step h df input Hdf).
  rewrite (getitem_at_last h input _ _ Htag).
  rewrite setitem_at_step by (by rewrite length_fmap).
  fold (overseas_flag). change (with_column input _ _) with df1.
  rewrite deref_last. unfold lift.
  rewrite (classify_rows df1 tags Hal1 Htag1 Htaglen).
  rewrite setitem_at_step by (by rewrite length_fmap).
  change (with_column df1 _ _) with df2.
  rewrite (getitem_at_last h df2 _ _ Horigin2).
  unfold series_apply.
  rewrite (mapM_pure _ province_cell _ province_cell_ok).
  rewrite setitem_at_step by (by rewrite length_fmap).
  change (with_column df2 _ _) with df3.
  rewrite (getitem_at_last h df3 _ _ Hbirth3).
  rewrite (mapM_pure _ cohort_cell _ cohort_cell_ok).
  rewrite setitem_at_step by (by rewrite length_fmap).
  done.
Qed.

Lemma key_same (a : str) : str_eqb a a = true.
Proof. by apply str_eqb_eq. Qed.

Lemma enhanced_frame_other (input : DataFrame) (c : str) :
  c ∉ derived_columns →
  lookup_column (columns (enhanced_frame input)) c
  = lookup_column (columns input) c.
Proof.
  intros Hc. unfold enhanced_frame, with_column. cbn [columns].
  rewrite !lookup_set_column.
  rewrite !key_differs; [done|..]; intros <-; apply Hc; by_compute.
Qed.

Lemma enhanced_frame_derived (input : DataFrame) :
  lookup_column (columns (enhanced_frame input)) (py "是否为海外院校")
  = Some (overseas_flag <$> column_of input (py "最高学历毕业院校类别"))
  ∧ lookup_column (columns (enhanced_frame input))
      (py "最高学历毕业院校类别-分类1")
    = Some (tier_of <$> column_of input (py "最高学历毕业院校类别"))
  ∧ lookup_column (columns (enhanced_frame input)) (py "籍贯-省份")
    = Some (province_cell <$> column_of input (py "籍贯"))
  ∧ lookup_column (columns (enhanced_frame input)) (py "出生年代")
    = Some (cohort_cell <$> column_of input (py "出生日期")).
Proof.
  unfold enhanced_frame, with_column. cbn [columns].
  rewrite !lookup_set_column. split_and!.
  - by rewrite !key_differs, key_same by key_neq.
  - by rewrite !key_differs, key_same by key_neq.
  - by rewrite !key_differs, key_same by key_neq.
  - by rewrite key_same.
Qed.

Lemma enhanced_frame_aligned (input : DataFrame) :
  aligned input → has_columns input source_columns →
  aligned (enhanced_frame input).
Proof.
  intros Hal Hsrc.
  assert (Hlen : ∀ c, c ∈ source_columns →
            length (column_of input c) = index_len input).
  { intros c Hc. apply (proj1 (Forall_forall _ _) Hsrc) in Hc as [s Hs].
    unfold column_of. rewrite Hs. by apply (aligned_column input c). }
  unfold enhanced_frame.
  repeat (apply set_column_aligned; [|rewrite length_fmap; apply Hlen; by_compute]).
  done.
Qed.

Lemma fmap_Forall2 {A B} (f : A → B) (P : A → B → Prop) (l : list A) :
  (∀ x, P x (f x)) → Forall2 P l (f <$> l).
Proof. intros Hf. induction l; constructor; auto. Qed.

(** X1. [enhance_data] on a frame that has the three source columns: it
    returns a reference that was not in use, to a new frame; no frame that
    was in the store, the input among them, is changed; the new frame has as
    many records as the input; every column whose label is not one of the
    four derived labels is kept as it is; and the four derived columns hold,
    record by record and in order, the overseas flag, the tier, the province
    and the cohort of the record, a cohort of [None] included. *)
Theorem enhance_data_frame (h : heap) (df : ref) (input : DataFrame) :
  h !! df = Some input → aligned input → has_columns input source_columns →
  ∃ out enhanced h',
    enhance_data df h = (Ok out, h')
    ∧ h !! out = None
    ∧ h' !! out = Some enhanced
    ∧ (∀ r, (r < length h)%nat → h' !! r = h !! r)
    ∧ h' !! df = Some input
    ∧ index_len enhanced = index_len input
    ∧ (∀ c, c ∉ derived_columns →
            lookup_column (columns enhanced) c
            = lookup_column (columns input) c)
    ∧ column_of enhanced (py "是否为海外院校")
      = overseas_flag <$> column_of input (py "最高学历毕业院校类别")
    ∧ column_of enhanced (py "最高学历毕业院校类别-分类1")
      = (λ x, VStr (classify_institution
                      [(py "最高学历毕业院校类别", x)]))
        <$> column_of input (py "最高学历毕业院校类别")
    ∧ Forall2 (λ v d, VStr <$> extract_province v = Ok d)
        (column_of input (py "籍贯")) (column_of enhanced (py "籍贯-省份"))
    ∧ Forall2 (λ v d, calculate_generation v = Ok d)
        (column_of input (py "出生日期")) (column_of enhanced (py "出生年代")).
Proof.
  intros Hdf Hal Hsrc.
  exists (length h), (enhanced_frame input), (h ++ [enhanced_frame input]).
  destruct (enhanced_frame_derived input) as (H1 & H2 & H3 & H4).
  split_and!.
  - by apply enhance_data_run.
  - by apply lookup_ge_None_2.
  - apply lookup_last.
  - intros r Hr. by rewrite lookup_app_l.
  - rewrite lookup_app_l; [done | by apply lookup_lt_Some in Hdf].
  - done.
  - apply enhanced_frame_other.
  - unfold column_of at 1. by rewrite H1.
  - unfold column_of at 1. by rewrite H2.
  - unfold column_of at 2. rewrite H3. apply fmap_Forall2, province_cell_ok.
  - unfold column_of at 2. rewrite H4. apply fmap_Forall2, cohort_cell_ok.
Qed.

Lemma enhance_data_frame_witness :
  ∃ out enhanced h',
    enhance_data 0%nat [flagship_abroad] = (Ok out, h')
    ∧ h' !! out = Some enhanced
    ∧ h' !! 0%nat = Some flagship_abroad
    ∧ index_len enhanced = 1%nat.
Proof.
  destruct (enhance_data_frame [flagship_abroad] 0%nat flagship_abroad)
    as (out & enhanced & h' & Hrun & _ & Hout & _ & Hin & Hlen & _).
  - reflexivity.
  - unfold aligned. by_compute.
  - unfold has_columns. by_compute.
  - exists out, enhanced, h'. split_and!; assumption.
Defined.

Lemma filter_fresh_ext (L : list str) (c : str) (ds : list str) :
  c ∉ ds →
  filter (λ d, d ∉ (if bool_decide (c ∈ L) then L else L ++ [c])) ds
  = filter (λ d, d ∉ L) ds.
Proof.
  case_bool_decide as HcL; [done|].
  induction ds as [|d ds IH]; [done|].
  intros [Hne Hc]%not_elem_of_cons.
  destruct (decide (d ∈ L)) as [Hd|Hd].
  - rewrite !filter_cons_False; [by apply IH | tauto |].
    rewrite elem_of_app. tauto.
  - rewrite !filter_cons_True; [by rewrite IH | done |].
    rewrite not_elem_of_app, list_elem_of_singleton. split; [done|congruence].
Qed.

(** The labels after one more assignment, when the labels so far are those
    of the input followed by the new ones among [ds]. *)
Lemma set_labels_step (cols : list (str * Series)) (L ds : list str) (c : str)
    (vs : Series) :
  cols.*1 = L ++ filter (λ d, d ∉ L) ds → c ∉ ds →
  (set_column cols c vs).*1
  = L ++ filter (λ d, d ∉ L) (ds ++ [c]).
Proof.
  intros Hcols Hc. rewrite set_column_labels, Hcols, filter_app.
  destruct (decide (c ∈ L)) as [HcL|HcL].
  - rewrite bool_decide_eq_true_2 by (apply elem_of_app; by left).
    rewrite (filter_cons_False _ c) by tauto. by rewrite app_nil_r.
  - rewrite bool_decide_eq_false_2.
    + rewrite (filter_cons_True _ c) by done. by rewrite app_assoc.
    + rewrite not_elem_of_app. split; [done|].
      intros [_ ?]%list_elem_of_filter. done.
Qed.

Lemma derived_labels_distinct : NoDup derived_columns.
Proof. by_compute. Qed.

(** X2. The labels of the frame that [enhance_data] returns are the labels
    of the input, in their order, followed by those of the four derived
    labels that the input did not have: a derived label that the input
    already has keeps its place. When the input has none of them, the four
    derived columns are appended in the order 是否为海外院校,
    最高学历毕业院校类别-分类1, 籍贯-省份, 出生年代 and every column of the
    input is kept. *)
Theorem enhance_data_labels (h : heap) (df : ref) (input : DataFrame) :
  h !! df = Some input → aligned input → has_columns input source_columns →
  ∃ out enhanced h',
    enhance_data df h = (Ok out, h')
    ∧ h' !! out = Some enhanced
    ∧ (columns enhanced).*1
      = (columns input).*1
        ++ filter (λ d, d ∉ (columns input).*1)
             [py "是否为海外院校"; py "最高学历毕业院校类别-分类1";
              py "籍贯-省份"; py "出生年代"]
    ∧ ((∀ d, d ∈ derived_columns → d ∉ (columns input).*1) →
       (columns enhanced).*1
       = (columns input).*1
         ++ [py "是否为海外院校"; py "最高学历毕业院校类别-分类1";
             py "籍贯-省份"; py "出生年代"]
       ∧ ∀ c s, lookup_column (columns input) c = Some s →
                lookup_column (columns enhanced) c = Some s).
Proof.
  intros Hdf Hal Hsrc.
  exists (length h), (enhanced_frame input), (h ++ [enhanced_frame input]).
  assert (Hlabels : (columns (enhanced_frame input)).*1
            = (columns input).*1
              ++ filter (λ d, d ∉ (columns input).*1) derived_columns).
  { unfold enhanced_frame, with_column, derived_columns. cbn [columns].
    apply (set_labels_step _ _ [py "是否为海外院校";
                                py "最高学历毕业院校类别-分类1"; py "籍贯-省份"]);
      [|by_compute].
    apply (set_labels_step _ _ [py "是否为海外院校";
                                py "最高学历毕业院校类别-分类1"]); [|by_compute].
    apply (set_labels_step _ _ [py "是否为海外院校"]); [|by_compute].
    apply (set_labels_step _ _ []); [|by_compute].
    by rewrite app_nil_r. }
  split_and!.
  - by apply enhance_data_run.
  - apply lookup_last.
  - exact Hlabels.
  - intros Hfresh. split.
    + rewrite Hlabels. f_equal. apply filter_all, Forall_forall. exact Hfresh.
    + intros c s Hs. rewrite enhanced_frame_other; [done|].
      intros Hc. by apply (Hfresh c Hc), (lookup_column_label _ _ s).
Qed.

Lemma enhance_data_labels_witness :
  ∃ out enhanced h',
    enhance_data 0%nat [cohort_present] = (Ok out, h')
    ∧ h' !! out = Some enhanced
    ∧ (columns enhanced).*1
      = [py "出生日期"; py "出生年代"; py "籍贯"; py "最高学历毕业院校类别";
         py "是否为海外院校"; py "最高学历毕业院校类别-分类1"; py "籍贯-省份"].
Proof.
  destruct (enhance_data_labels [cohort_present] 0%nat cohort_present)
    as (out & enhanced & h' & Hrun & Hout & Hlabels & _).
  - reflexivity.
  - unfold aligned. by_compute.
  - unfold has_columns. by_compute.
  - exists out, enhanced, h'. split_and!; [assumption..|].
    rewrite Hlabels. vm_compute. reflexivity.
Defined.








Lemma getitem_at_missing (h : heap) (df : DataFrame) (c : str) :
  lookup_column (columns df) c = None →
  getitem_at (length h) c (h ++ [df]) = (Raise KeyError, h ++ [df]).
Proof.
  intros Hs. unfold getitem_at, mbind, prog_bind.
  rewrite deref_last. unfold lift, df_getitem. by rewrite Hs.
Qed.

(** X4. When the frame lacks one of the three source columns
    最高学历毕业院校类别, 籍贯, 出生日期, [enhance_data] raises [KeyError];
    the frames that were in the store, the input among them, are as they
    were. *)
Theorem enhance_data_missing_source (h : heap) (df : ref) (input : DataFrame)
    (c : str) :
  h !! df = Some input → aligned input →
  c ∈ [py "最高学历毕业院校类别"; py "籍贯"; py "出生日期"] →
  lookup_column (columns input) c = None →
  ∃ h', enhance_data df h = (Raise KeyError, h')
        ∧ ∀ r, (r < length h)%nat → h' !! r = h !! r.
Proof.
  intros Hdf Hal Hc Hmiss.
  unfold enhance_data, mbind, prog_bind, mret, prog_ret.
  rewrite (copy_step h df input Hdf).
  destruct (lookup_column (columns input) (py "最高学历毕业院校类别"))
    as [tags|] eqn:Htag; last first.
  { rewrite (getitem_at_missing h input _ Htag). eexists. split; [done|].
    intros r Hr. by rewrite lookup_app_l. }
  pose proof (aligned_column input _ tags Hal Htag) as Htaglen.
  rewrite (getitem_at_last h input _ _ Htag).
  rewrite setitem_at_step by (by rewrite length_fmap).
  set (df1 := with_column input (py "是否为海外院校") _).
  assert (Hal1 : aligned df1).
  { apply set_column_aligned; [done|]. by rewrite length_fmap. }
  assert (Htag1 : lookup_column (columns df1) (py "最高学历毕业院校类别") = Some tags).
  { unfold df1, with_column. cbn [columns].
    rewrite lookup_set_column, key_differs by key_neq. done. }
  rewrite deref_last. unfold lift.
  rewrite (classify_rows df1 tags Hal1 Htag1 Htaglen).
  rewrite setitem_at_step by (by rewrite length_fmap).
  set (df2 := with_column df1 (py "最高学历毕业院校类别-分类1") _).
  destruct (lookup_column (columns input) (py "籍贯")) as [origins|] eqn:Horigin;
    last first.
  { rewrite (getitem_at_missing h df2); last first.
    { unfold df2, df1, with_column. cbn [columns].
      rewrite !lookup_set_column, !key_differs by key_neq. done. }
    eexists. split; [done|]. intros r Hr. by rewrite lookup_app_l. }
  pose proof (aligned_column input _ origins Hal Horigin) as Horiginlen.
  rewrite (getitem_at_last h df2 _ origins); last first.
  { unfold df2, df1, with_column. cbn [columns].
    rewrite !lookup_set_column, !key_differs by key_neq. done. }
  unfold series_apply.
  rewrite (mapM_pure _ province_cell _ province_cell_ok).
  rewrite setitem_at_step by (by rewrite length_fmap).
  set (df3 := with_column df2 (py "籍贯-省份") _).
  destruct (lookup_column (columns input) (py "出生日期")) as [births|] eqn:Hbirth.
  { exfalso. repeat (apply elem_of_cons in Hc as [->|Hc]; [congruence|]).
    by apply elem_of_nil in Hc. }
  rewrite (getitem_at_missing h df3); last first.
  { unfold df3, df2, df1, with_column. cbn [columns].
    rewrite !lookup_set_column, !key_differs by key_neq. done. }
  eexists. split; [done|]. intros r Hr. by rewrite lookup_app_l.
Qed.

Lemma enhance_data_missing_source_witness :
  ∃ h', enhance_data 0%nat [mixed_agreements] = (Raise KeyError, h')
        ∧ h' !! 0%nat = Some mixed_agreements.
Proof.
  destruct (enhance_data_missing_source
              [mixed_agreements] 0%nat mixed_agreements
              (py "最高学历毕业院校类别"))
    as (h' & Hrun & Hkeep).
  - reflexivity.
  - unfold aligned. by_compute.
  - by_compute.
  - vm_compute. reflexivity.
  - exists h'. split; [exact Hrun|]. apply (Hkeep 0%nat). simpl. lia.
Defined.

(** ** Validation *)

Lemma has_label_true (df : DataFrame) (c : str) :
  has_label df c = true ↔ c ∈ (columns df).*1.
Proof. unfold has_label. apply bool_decide_eq_true. Qed.

Lemma no_missing_columns (df : DataFrame) :
  missing_columns df = []
  ↔ ∀ c, c ∈ REQUIRED_COLUMNS → c ∈ (columns df).*1.
Proof.
  unfold missing_columns. split.
  - intros Hnil c Hc. apply has_label_true.
    destruct (has_label df c) eqn:Hl; [done|].
    by destruct (filter_nil_not_elem_of _ _ c Hnil Hl).
  - intros Hall. induction REQUIRED_COLUMNS as [|c cs IH]; [done|].
    rewrite filter_cons_False.
    + apply IH. intros c' Hc'. apply Hall. by right.
    + rewrite (proj2 (has_label_true df c)); [done|]. apply Hall. left.
Qed.

Lemma label_present (cols : list (str * Series)) (c : str) :
  c ∈ cols.*1 → is_Some (lookup_column cols c).
Proof.
  induction cols as [|[k ws] cols IH]; [by intros ?%elem_of_nil|].
  simpl. destruct (str_eqb k c) eqn:Hk; [by eexists|].
  intros [->|Hc]%elem_of_cons; [|by apply IH].
  by rewrite key_same in Hk.
Qed.

(** X5. [validate_excel_format] returns no error exactly when every one of
    the fourteen required columns is a label of the frame and the frame has
    at least one record; [validate_data] accepts exactly the same frames. *)
Theorem validation_accepts (df : DataFrame) :
  (validate_excel_format df = []
   ↔ (∀ c, c ∈ REQUIRED_COLUMNS → c ∈ (columns df).*1)
     ∧ index_len df ≠ 0%nat)
  ∧ (validate_data df = (true, py "数据验证通过")
     ↔ validate_excel_format df = [])
  ∧ ((validate_data df).1 = true ↔ validate_excel_format df = [])
  ∧ length REQUIRED_COLUMNS = 14%nat.
Proof.
  assert (Hempty : (∀ c, c ∈ REQUIRED_COLUMNS → c ∈ (columns df).*1) →
                   df_empty df = false ↔ index_len df ≠ 0%nat).
  { intros Hall. unfold df_empty.
    assert (py "序号" ∈ (columns df).*1) as Hone by (apply Hall; by_compute).
    destruct (columns df) as [|col cols]; [by apply elem_of_nil in Hone|].
    simpl. rewrite orb_false_r. by rewrite Nat.eqb_neq. }
  unfold validate_excel_format, validate_data. cbv zeta.
  destruct (missing_columns df) as [|m ms] eqn:Hmiss.
  - pose proof (proj1 (no_missing_columns df) Hmiss) as Hall.
    specialize (Hempty Hall).
    destruct (df_empty df); simpl.
    + assert (index_len df = 0%nat) as Hz.
      { destruct (decide (index_len df = 0%nat)) as [|Hnz]; [done|].
        by apply (proj2 Hempty) in Hnz. }
      split_and!; try done; split; try done; intros [_ ?]; done.
    + split_and!; try done. split; [|done]. intros _. split; [done|].
      by apply (proj1 Hempty).
  - assert (¬ ∀ c, c ∈ REQUIRED_COLUMNS → c ∈ (columns df).*1) as Hno.
    { intros Hall. pose proof (proj2 (no_missing_columns df) Hall).
      congruence. }
    destruct (df_empty df); simpl; split_and!; try done;
      split; try done; intros [? _]; done.
Qed.

Lemma str_accessor_cases (s : Series) :
  str_accessor s = Ok () ∨ str_accessor s = Raise AttributeError.
Proof. unfold str_accessor. repeat case_match; auto. Qed.

Lemma enhanced_frame_wf (input : DataFrame) :
  wf input → has_columns input source_columns → wf (enhanced_frame input).
Proof.
  intros [Hnd Hal] Hsrc. split; [|by apply enhanced_frame_aligned].
  assert (Hlabels : (columns (enhanced_frame input)).*1
            = (columns input).*1
              ++ filter (λ d, d ∉ (columns input).*1) derived_columns).
  { unfold enhanced_frame, with_column, derived_columns. cbn [columns].
    apply (set_labels_step _ _ [py "是否为海外院校";
                                py "最高学历毕业院校类别-分类1"; py "籍贯-省份"]);
      [|by_compute].
    apply (set_labels_step _ _ [py "是否为海外院校";
                                py "最高学历毕业院校类别-分类1"]); [|by_compute].
    apply (set_labels_step _ _ [py "是否为海外院校"]); [|by_compute].
    apply (set_labels_step _ _ []); [|by_compute].
    by rewrite app_nil_r. }
  rewrite Hlabels. apply NoDup_app. split_and!.
  - done.
  - intros c Hc [Hno _]%list_elem_of_filter. done.
  - apply NoDup_filter, derived_labels_distinct.
Qed.

Lemma required_sources (df : DataFrame) :
  (∀ c, c ∈ REQUIRED_COLUMNS → c ∈ (columns df).*1) →
  has_columns df source_columns.
Proof.
  intros Hreq. unfold has_columns. apply Forall_forall. intros c Hc.
  apply label_present, Hreq. revert Hc. unfold source_columns. intros Hc.
  repeat (apply elem_of_cons in Hc as [->|Hc]; [by_compute|]).
  by apply elem_of_nil in Hc.
Qed.

Lemma enhanced_statistics_columns (df : DataFrame) :
  (∀ c, c ∈ REQUIRED_COLUMNS → c ∈ (columns df).*1) →
  has_columns (enhanced_frame df) statistics_columns.
Proof.
  intros Hreq. destruct (enhanced_frame_derived df) as (H1 & H2 & H3 & H4).
  assert (Hkeep : ∀ c, c ∈ REQUIRED_COLUMNS → c ∉ derived_columns →
            is_Some (lookup_column (columns (enhanced_frame df)) c)).
  { intros c Hc Hd. rewrite enhanced_frame_other by done.
    by apply label_present, Hreq. }
  unfold has_columns, statistics_columns.
  repeat (apply Forall_cons; split); try (by apply Forall_nil);
    first [ rewrite H2; by eexists | rewrite H3; by eexists
          | rewrite H4; by eexists
          | apply Hkeep; [by_compute|]; apply (bool_decide_unpack _);
            vm_compute; reflexivity ].
Qed.

Lemma str_accessor_text (col : Series) (s : str) :
  VStr s ∈ col → str_accessor col = Ok ().
Proof.
  intros Hin. unfold str_accessor.
  assert (Hf : VStr s ∈ filter (λ v, isna v = false) col)
    by (by apply list_elem_of_filter).
  destruct (filter _ col) as [|[t|n| |] r]; try done.
  apply elem_of_cons in Hf as [|Hr]; [done|].
  destruct (forallb is_int r) eqn:Hall; [|done].
  rewrite forallb_forall in Hall. apply list_elem_of_In, Hall in Hr. done.
Qed.

Lemma str_accessor_numbers (col : Series) (n : Z) :
  VInt n ∈ col → (∀ s, VStr s ∉ col) → str_accessor col = Raise AttributeError.
Proof.
  intros Hin Hno. unfold str_accessor.
  assert (Hf : VInt n ∈ filter (λ v, isna v = false) col)
    by (by apply list_elem_of_filter).
  assert (Hall : Forall (λ v, is_int v = true)
                   (filter (λ v, isna v = false) col)).
  { apply Forall_forall. intros v [Hv Hc]%list_elem_of_filter.
    destruct v as [t| | |]; try done. by destruct (Hno t). }
  destruct (filter _ col) as [|v r]; [by apply elem_of_nil in Hf|].
  apply Forall_cons in Hall as [Hv Hr]. destruct v as [| m | |]; try done.
  assert (forallb is_int r = true) as ->; [|done].
  apply forallb_forall. intros x Hx%list_elem_of_In.
  by apply (proj1 (Forall_forall _ _) Hr).
Qed.

(** X6. A frame that [validate_excel_format] accepts is always enriched:
    [enhance_data] returns a frame with the same, non-zero, number of
    records. On that frame [generate_statistics] returns, with that number
    as [total_count], when a cell of the hire-agreement column is a string;
    it raises [AttributeError] when that column has numbers and no string,
    which the validation does not exclude. *)
Theorem validated_frame_is_processed (h : heap) (l : ref) (df : DataFrame) :
  h !! l = Some df → wf df → validate_excel_format df = [] →
  ∃ out enhanced h',
    enhance_data l h = (Ok out, h')
    ∧ h' !! out = Some enhanced
    ∧ index_len enhanced = index_len df
    ∧ index_len df ≠ 0%nat
    ∧ ((∃ s, VStr s ∈ column_of df (py "应聘状态")) →
       ∃ stats,
         generate_statistics enhanced = Ok stats
         ∧ stats !! py "total_count"
           = Some (SInt (Z.of_nat (index_len df))))
    ∧ ((∃ n, VInt n ∈ column_of df (py "应聘状态")) →
       (∀ s, VStr s ∉ column_of df (py "应聘状态")) →
       generate_statistics enhanced = Raise AttributeError).
Proof.
  intros Hl Hwf Hvalid.
  assert (Hreq : (∀ c, c ∈ REQUIRED_COLUMNS → c ∈ (columns df).*1)
                 ∧ index_len df ≠ 0%nat).
  { unfold validate_excel_format in Hvalid. cbv zeta in Hvalid.
    destruct (missing_columns df) as [|m ms] eqn:Hmiss;
      [|by destruct (df_empty df), (py "缺少必需字段: " ++ _)].
    pose proof (proj1 (no_missing_columns df) Hmiss) as Hall.
    split; [done|]. intros Hz. unfold df_empty in Hvalid.
    rewrite Hz in Hvalid. done. }
  destruct Hreq as [Hreq Hnz].
  pose proof (required_sources df Hreq) as Hsrc.
  exists (length h), (enhanced_frame df), (h ++ [enhanced_frame df]).
  assert (Hstatus : column_of (enhanced_frame df) (py "应聘状态")
                    = column_of df (py "应聘状态")).
  { unfold column_of. rewrite enhanced_frame_other; [done|by_compute]. }
  split_and!.
  - apply enhance_data_run; [done | by destruct Hwf | done].
  - apply lookup_last.
  - done.
  - done.
  - intros [s Hs].
    destruct (generate_statistics_enriched (enhanced_frame df))
      as (stats & special & Hrun & Htotal & _).
    { split_and!.
      - by apply enhanced_frame_wf.
      - by apply enhanced_statistics_columns.
      - rewrite Hstatus. by apply (str_accessor_text _ s). }
    exists stats. split; [done|]. by rewrite Htotal.
  - intros [n Hn] Hno.
    pose proof (str_accessor_numbers _ n Hn Hno) as Hraise.
    destruct (column_present (enhanced_frame df) (py "应聘状态"))
      as [Hget _].
    { by apply enhanced_frame_wf. }
    { apply (proj1 (Forall_forall _ _) (enhanced_statistics_columns df Hreq)).
      by_compute. }
    unfold generate_statistics. cbv zeta. rewrite Hget.
    cbn [mbind result_bind]. unfold str_contains.
    rewrite Hstatus, Hraise. done.
Qed.

Lemma validated_frame_is_processed_witness :
  ∃ out enhanced h',
    enhance_data 0%nat [full_upload] = (Ok out, h')
    ∧ h' !! out = Some enhanced
    ∧ ∃ stats,
        generate_statistics enhanced = Ok stats
        ∧ stats !! py "total_count" = Some (SInt 1).
Proof.
  destruct (validated_frame_is_processed [full_upload] 0%nat full_upload)
    as (out & enhanced & h' & Hrun & Hout & _ & _ & Hstats & _).
  - reflexivity.
  - unfold wf. split; by_compute.
  - vm_compute. reflexivity.
  - exists out, enhanced, h'. split_and!; [assumption..|].
    apply Hstats. exists (py "已签约(三方)"). by_compute.
Defined.

(** ** The cells of the derived columns *)

Lemma classify_tag_cases (tag : str) :
  contains (py "海外院校") tag = true ∧ classify_tag tag ∈ overseas_tiers
  ∨ contains (py "海外院校") tag = false ∧ classify_tag tag ∈ domestic_tiers.
Proof.
  unfold classify_tag. destruct (contains (py "海外院校") tag); [left|right].
  - split; [done|]. repeat case_match; by_compute.
  - split; [done|]. unfold domestic_tiers.
    destruct (List.find _ categories) as [c|] eqn:Hfind.
    + apply find_some in Hfind as [Hin _]. apply elem_of_app. left.
      by apply list_elem_of_In.
    + apply elem_of_app. right. left.
Qed.

Lemma tiers_apart (tier : str) :
  tier ∈ overseas_tiers → tier ∈ domestic_tiers → False.
Proof.
  intros Ho Hd. unfold overseas_tiers in Ho.
  repeat (apply elem_of_cons in Ho as [->|Ho];
          [revert Hd; apply (bool_decide_unpack _); vm_compute; reflexivity|]).
  by apply elem_of_nil in Ho.
Qed.

(** X7. In the frame that [enhance_data] returns, every record has a string
    in the flag, tier and province columns; the tier is one of three overseas
    tiers or one of nine domestic ones, and the two sets are disjoint; the
    flag is 是 exactly when the tier is an overseas tier and 否 otherwise; the
    cohort is [None] or one of the four cohorts. *)
Theorem enhanced_cells_consistent (h : heap) (df : ref) (input : DataFrame) :
  h !! df = Some input → aligned input → has_columns input source_columns →
  ∃ out enhanced h',
    enhance_data df h = (Ok out, h')
    ∧ h' !! out = Some enhanced
    ∧ (∀ i, (i < index_len input)%nat →
         ∃ flag tier province generation,
           column_of enhanced (py "是否为海外院校") !! i = Some (VStr flag)
           ∧ column_of enhanced (py "最高学历毕业院校类别-分类1") !! i
             = Some (VStr tier)
           ∧ column_of enhanced (py "籍贯-省份") !! i = Some (VStr province)
           ∧ column_of enhanced (py "出生年代") !! i = Some generation
           ∧ (flag = py "是" ∧ tier ∈ overseas_tiers
              ∨ flag = py "否" ∧ tier ∈ domestic_tiers)
           ∧ generation ∈ cohorts)
    ∧ (∀ tier, tier ∈ overseas_tiers → tier ∉ domestic_tiers)
    ∧ length overseas_tiers = 3%nat ∧ length domestic_tiers = 9%nat.
Proof.
  intros Hdf Hal Hsrc.
  exists (length h), (enhanced_frame input), (h ++ [enhanced_frame input]).
  destruct (enhanced_frame_derived input) as (H1 & H2 & H3 & H4).
  split_and!.
  - by apply enhance_data_run.
  - apply lookup_last.
  - intros i Hi.
    assert (Hcell : ∀ c, c ∈ source_columns →
              ∃ x, column_of input c !! i = Some x).
    { intros c Hc. apply (proj1 (Forall_forall _ _) Hsrc) in Hc as [s Hs].
      apply lookup_lt_is_Some_2. unfold column_of. rewrite Hs. simpl.
      by rewrite (aligned_column input c s Hal Hs). }
    destruct (Hcell (py "最高学历毕业院校类别")) as [tag Htag]; [by_compute|].
    destruct (Hcell (py "籍贯")) as [origin Horigin]; [by_compute|].
    destruct (Hcell (py "出生日期")) as [birth Hbirth]; [by_compute|].
    destruct (extract_province_returns origin) as [province Hprovince].
    destruct (calculate_generation_returns birth) as (generation & Hgen & Hrange).
    exists (if contains (py "海外院校") (to_str tag) then py "是" else py "否"),
      (classify_tag (to_str tag)), province, generation.
    unfold column_of at 1 2 3 4. rewrite H1, H2, H3, H4.
    cbn [from_option id].
    rewrite !list_lookup_fmap, Htag, Horigin, Hbirth.
    cbn [fmap option_fmap option_map].
    split_and!.
    + done.
    + done.
    + unfold province_cell. by rewrite Hprovince.
    + unfold cohort_cell. by rewrite Hgen.
    + destruct (classify_tag_cases (to_str tag)) as [[-> Ht]|[-> Ht]]; auto.
    + done.
  - intros tier Ho Hd. by apply (tiers_apart tier).
  - reflexivity.
  - reflexivity.
Qed.

Lemma enhanced_cells_consistent_witness :
  ∃ out enhanced h',
    enhance_data 0%nat [flagship_abroad] = (Ok out, h')
    ∧ h' !! out = Some enhanced
    ∧ ∃ flag tier,
        column_of enhanced (py "是否为海外院校") !! 0%nat = Some (VStr flag)
        ∧ column_of enhanced (py "最高学历毕业院校类别-分类1") !! 0%nat
          = Some (VStr tier)
        ∧ (flag = py "是" ∧ tier ∈ overseas_tiers
           ∨ flag = py "否" ∧ tier ∈ domestic_tiers).
Proof.
  destruct (enhanced_cells_consistent [flagship_abroad] 0%nat flagship_abroad)
    as (out & enhanced & h' & Hrun & Hout & Hcells & _).
  - reflexivity.
  - unfold aligned. by_compute.
  - unfold has_columns. by_compute.
  - exists out, enhanced, h'. split_and!; [assumption..|].
    destruct (Hcells 0%nat) as (flag & tier & _ & _ & Hflag & Htier & _ & _ & Hcase & _).
    + simpl. lia.
    + exists flag, tier. split_and!; assumption.
Defined.

(** ** The legacy classifiers *)

Lemma decade_bands (year : Z) :
  (if 2000 <=? year then Ok (py "00后")
   else if 1995 <=? year then Ok (py "95后")
   else if 1990 <=? year then Ok (py "90后")
   else Ok (py "其他")) = Ok (decade_of (cohort year)).
Proof.
  unfold cohort.
  destruct (Z.leb_spec 2000 year), (Z.leb_spec 1995 year),
    (Z.leb_spec 1990 year);
    repeat case_decide; try lia; vm_compute; reflexivity.
Qed.

Lemma decade_range (g : value) :
  g ∈ cohorts → decade_of g ∈ [py "00后"; py "95后"; py "90后"; py "其他"].
Proof.
  unfold cohorts. intros Hg.
  repeat (apply elem_of_cons in Hg as [->|Hg]; [by_compute|]).
  by apply elem_of_nil in Hg.
Qed.

(** X8. [calculate_birth_decade] never raises and follows
    [calculate_generation] on every input: where the latter gives 95后 or 90后
    it gives the same label, where the latter gives 05后 or 00后 it gives 00后,
    and where the latter gives [None] it gives 其他. *)
Theorem birth_decade_follows_generation (v : value) :
  ∃ g, calculate_generation v = Ok g
       ∧ g ∈ cohorts
       ∧ calculate_birth_decade v = Ok (decade_of g)
       ∧ decade_of g ∈ [py "00后"; py "95后"; py "90后"; py "其他"]
       ∧ (g = VStr (py "05后") ∨ g = VStr (py "00后") →
          decade_of g = py "00后")
       ∧ (g = VStr (py "95后") ∨ g = VStr (py "90后") → VStr (decade_of g) = g)
       ∧ (g = VNone → decade_of g = py "其他").
Proof.
  destruct (calculate_generation_returns v) as (g & Hg & Hrange).
  exists g. split_and!.
  - done.
  - done.
  - destruct (decide (missing v)) as [Hm|Hm].
    + destruct Hm as [->|[->| ->]]; vm_compute in Hg; by simplify_eq.
    + destruct (leading_year_text_exists (to_str v)) as [seg Hseg].
      rewrite (calculate_generation_read v seg Hm Hseg) in Hg.
      apply not_missing in Hm. unfold calculate_birth_decade.
      rewrite Hm. cbv zeta. rewrite (year_text_read _ _ Hseg).
      destruct (int seg) as [year|e] eqn:Hint.
      * cbn [mbind result_bind]. rewrite decade_bands. by simplify_eq.
      * apply int_raises_value_error in Hint as ->. by simplify_eq.
  - by apply decade_range.
  - intros [->| ->]; vm_compute; reflexivity.
  - intros [->| ->]; vm_compute; reflexivity.
  - by intros ->.
Qed.

Lemma age_bands (age : Z) :
  (if age <=? 24 then Ok (py "00后")
   else if age <=? 27 then Ok (py "95后")
   else if age <=? 32 then Ok (py "90后")
   else Ok (py "其他")) = Ok (age_band age).
Proof.
  unfold age_band.
  destruct (Z.leb_spec age 24), (Z.leb_spec age 27), (Z.leb_spec age 32);
    repeat case_decide; done || lia.
Qed.

(** X9. [calculate_age_group] never raises: an integer age, or a text that
    [int] reads as one, gives 00后 up to 24, 95后 up to 27, 90后 up to 32 and
    其他 above; a text that is not an integer, a blank cell and [None] give
    其他. *)
Theorem calculate_age_group_bands :
  (∀ n, calculate_age_group (VInt n) = Ok (age_band n))
  ∧ (∀ s n, int s = Ok n → calculate_age_group (VStr s) = Ok (age_band n))
  ∧ (∀ s e, int s = Raise e → calculate_age_group (VStr s) = Ok (py "其他"))
  ∧ calculate_age_group VNaN = Ok (py "其他")
  ∧ calculate_age_group VNone = Ok (py "其他")
  ∧ (∀ age, ∃ g, calculate_age_group age = Ok g
                 ∧ g ∈ [py "00后"; py "95后"; py "90后"; py "其他"])
  ∧ (∀ n, (n ≤ 24 → age_band n = py "00后")
          ∧ (24 < n ≤ 27 → age_band n = py "95后")
          ∧ (27 < n ≤ 32 → age_band n = py "90后")
          ∧ (32 < n → age_band n = py "其他")).
Proof.
  assert (Hint : ∀ n, calculate_age_group (VInt n) = Ok (age_band n)).
  { intros n. unfold calculate_age_group. cbn [int_of mbind result_bind].
    by rewrite age_bands. }
  assert (Hok : ∀ s n, int s = Ok n →
            calculate_age_group (VStr s) = Ok (age_band n)).
  { intros s n Hs. unfold calculate_age_group. cbn [int_of]. rewrite Hs.
    cbn [mbind result_bind]. by rewrite age_bands. }
  assert (Hno : ∀ s e, int s = Raise e →
            calculate_age_group (VStr s) = Ok (py "其他")).
  { intros s e Hs. unfold calculate_age_group. cbn [int_of]. rewrite Hs.
    apply int_raises_value_error in Hs as ->. done. }
  assert (Hband : ∀ n, age_band n ∈ [py "00后"; py "95后"; py "90后"; py "其他"]).
  { intros n. unfold age_band. repeat case_decide; by_compute. }
  split_and!; try done.
  - intros [s|n| |].
    + destruct (int s) as [n|e] eqn:Hs.
      * exists (age_band n). split; [by apply Hok | apply Hband].
      * exists (py "其他"). split; [by apply (Hno s e) | by_compute].
    + exists (age_band n). split; [apply Hint | apply Hband].
    + exists (py "其他"). split; [done | by_compute].
    + exists (py "其他"). split; [done | by_compute].
  - intros n. unfold age_band. split_and!; intros ?; repeat case_decide; done || lia.
Qed.

(** ** The content of a distribution *)

Lemma held_count_value (w v : value) (acc : list (value * Z)) :
  held w (count_value v acc)
  = held w acc + (if bool_decide (v = w) then 1 else 0).
Proof.
  induction acc as [|[k n] acc IH]; simpl.
  - repeat case_bool_decide; lia.
  - destruct (decide (k = v)) as [->|Hkv].
    + rewrite (bool_decide_eq_true_2 (v = v)) by done. simpl.
      case_bool_decide; lia.
    + rewrite (bool_decide_eq_false_2 (k = v)) by done. simpl.
      destruct (decide (k = w)) as [->|Hkw].
      * rewrite (bool_decide_eq_true_2 (w = w)) by done.
        rewrite (bool_decide_eq_false_2 (v = w)) by done. lia.
      * rewrite (bool_decide_eq_false_2 (k = w)) by done. apply IH.
Qed.

Lemma count_value_keys (v : value) (acc : list (value * Z)) :
  (count_value v acc).*1
  = if bool_decide (v ∈ acc.*1) then acc.*1 else acc.*1 ++ [v].
Proof.
  induction acc as [|[k n] acc IH]; [done|]. cbn [count_value].
  destruct (decide (k = v)) as [->|Hkv].
  - rewrite (bool_decide_eq_true_2 (v = v)) by done.
    rewrite !fmap_cons. cbn [fst]. rewrite bool_decide_eq_true_2 by left. done.
  - rewrite (bool_decide_eq_false_2 (k = v)) by done.
    rewrite !fmap_cons, IH. cbn [fst].
    destruct (decide (v ∈ acc.*1)) as [Hin|Hin].
    + rewrite !bool_decide_eq_true_2; [done | by right | done].
    + rewrite !bool_decide_eq_false_2; [done | | done].
      intros [?|?]%elem_of_cons; [by subst | done].
Qed.

Lemma count_value_distinct (v : value) (acc : list (value * Z)) :
  NoDup acc.*1 → NoDup (count_value v acc).*1.
Proof.
  intros Hnd. rewrite count_value_keys. case_bool_decide; [done|].
  apply NoDup_app. split_and!; [done| |apply NoDup_singleton].
  intros w Hw ->%list_elem_of_singleton. done.
Qed.

Lemma held_entry (w : value) (m : Z) (acc : list (value * Z)) :
  NoDup acc.*1 → (w, m) ∈ acc → held w acc = m.
Proof.
  induction acc as [|[k n] acc IH]; intros Hnd Hin.
  - by apply elem_of_nil in Hin.
  - apply NoDup_cons in Hnd as [Hk Hnd]. simpl.
    apply elem_of_cons in Hin as [[= -> ->]|Hin].
    + by rewrite bool_decide_eq_true_2.
    + rewrite bool_decide_eq_false_2; [by apply IH|].
      intros ->. apply Hk. apply list_elem_of_fmap. by exists (w, m).
Qed.

Lemma occurrences_snoc (w v : value) (s : Series) :
  occurrences w (s ++ [v])
  = occurrences w s + (if bool_decide (v = w) then 1 else 0).
Proof.
  unfold occurrences. rewrite filter_app, length_app.
  case_bool_decide.
  - rewrite (filter_cons_True _ v) by done. simpl. lia.
  - rewrite (filter_cons_False _ v) by done. simpl. lia.
Qed.

(** What the tally holds after the cells [s] have been counted. *)
Lemma tally_content (s : Series) :
  NoDup (tally s).*1
  ∧ (∀ w, w ∈ (tally s).*1 ↔ w ∈ s ∧ isna w = false)
  ∧ (∀ w, isna w = false → held w (tally s) = occurrences w s).
Proof.
  unfold tally. induction s as [|v s IH] using rev_ind.
  - split_and!; [apply NoDup_nil_2 | | done].
    intros w. split; [by intros ?%elem_of_nil | by intros [?%elem_of_nil _]].
  - destruct IH as (Hnd & Hkeys & Hheld). rewrite foldl_app. cbn [foldl].
    destruct (isna v) eqn:Hv.
    + split_and!; [done| |].
      * intros w. rewrite Hkeys, elem_of_app, list_elem_of_singleton.
        split; [naive_solver|]. intros [[?| ->] Hw]; [done | congruence].
      * intros w Hw. rewrite Hheld, occurrences_snoc by done.
        rewrite bool_decide_eq_false_2; [lia | congruence].
    + split_and!.
      * by apply count_value_distinct.
      * intros w. rewrite count_value_keys.
        rewrite elem_of_app, list_elem_of_singleton.
        case_bool_decide as Hin.
        -- rewrite Hkeys. split; [naive_solver|].
           intros [[?| ->] Hw]; [done|]. by apply Hkeys in Hin.
        -- rewrite elem_of_app, list_elem_of_singleton, Hkeys.
           split; [|naive_solver]. intros [?| ->]; naive_solver.
      * intros w Hw. rewrite held_count_value, occurrences_snoc, Hheld by done.
        done.
Qed.

Lemma insert_desc_sorted (x : value * Z) (l : list (value * Z)) :
  StronglySorted (λ a b, b.2 ≤ a.2) l →
  StronglySorted (λ a b, b.2 ≤ a.2) (insert_desc x l).
Proof.
  induction 1 as [|y l Hl IH Hy]; simpl.
  - repeat constructor.
  - destruct (Z.ltb_spec x.2 y.2).
    + constructor; [done|]. rewrite insert_desc_perm. constructor; [lia|done].
    + constructor; [by constructor|]. constructor; [done|].
      eapply Forall_impl; [exact Hy|]. simpl. intros; lia.
Qed.

Lemma sort_desc_sorted (l : list (value * Z)) :
  StronglySorted (λ a b, b.2 ≤ a.2) (sort_desc l).
Proof.
  induction l as [|x l IH]; simpl; [constructor|].
  by apply insert_desc_sorted.
Qed.

Lemma sorted_lookup {A} (R : A → A → Prop) (l : list A) (i j : nat) (a b : A) :
  StronglySorted R l → (i < j)%nat → l !! i = Some a → l !! j = Some b → R a b.
Proof.
  intros Hl. revert i j. induction Hl as [|x l Hl IH Hx]; intros i j Hij Hi Hj.
  - done.
  - destruct j as [|j]; [lia|]. destruct i as [|i]; simpl in *.
    + injection Hi as ->. apply (proj1 (Forall_forall _ _) Hx).
      by apply list_elem_of_lookup_2 in Hj.
    + apply (IH i j); [lia|done..].
Qed.

(** What [value_counts] holds for a column. *)
Lemma value_counts_content (s : Series) :
  NoDup (value_counts s).*1
  ∧ (∀ w, w ∈ (value_counts s).*1 ↔ w ∈ s ∧ isna w = false)
  ∧ (∀ w m, (w, m) ∈ value_counts s → m = occurrences w s)
  ∧ StronglySorted (λ a b, b.2 ≤ a.2) (value_counts s).
Proof.
  destruct (tally_content s) as (Hnd & Hkeys & Hheld).
  assert (Hperm : value_counts s ≡ₚ tally s) by apply sort_desc_perm.
  split_and!.
  - by rewrite Hperm.
  - intros w. by rewrite Hperm.
  - intros w m Hin. rewrite Hperm in Hin.
    rewrite <- (held_entry w m (tally s) Hnd Hin). apply Hheld.
    apply Hkeys. apply list_elem_of_fmap. by exists (w, m).
  - apply sort_desc_sorted.
Qed.

(** X10. Each of the seven distributions that [generate_statistics] returns
    for an enriched dataset lists the distinct values of its column that are
    not missing, each once, with the number of records that hold the value
    and the rounded percentage of that number in the total; the entries are
    in order of non-increasing count. *)
Theorem distribution_entries (df : DataFrame) :
  enriched df →
  ∃ stats,
    generate_statistics df = Ok stats
    ∧ ∀ key col, (key, col) ∈ dimensions →
        ∃ entries,
          stats !! key = Some (SDist entries)
          ∧ NoDup (name <$> entries)
          ∧ (∀ v, v ∈ name <$> entries
                  ↔ v ∈ column_of df col ∧ isna v = false)
          ∧ (∀ e, e ∈ entries →
                  count e = occurrences (name e) (column_of df col)
                  ∧ 1 ≤ count e
                  ∧ percentage e = percentage_of (count e) (df_len df))
          ∧ (∀ i j a b, (i < j)%nat →
                        entries !! i = Some a → entries !! j = Some b →
                        count b ≤ count a).
Proof.
  intros Hdf.
  destruct (generate_statistics_enriched df Hdf)
    as (stats & special & Hrun & _ & _ & _ & Hdims & _).
  exists stats. split; [done|]. intros key col Hin.
  exists (dist_of df col). split; [by apply Hdims|].
  destruct (value_counts_content (column_of df col))
    as (Hnd & Hkeys & Hcount & Hsorted).
  assert (Hnames : name <$> dist_of df col
                   = (value_counts (column_of df col)).*1).
  { unfold dist_of, entries_of. rewrite <- list_fmap_compose.
    by apply list_fmap_ext. }
  assert (Hentry : ∀ e, e ∈ dist_of df col →
            ∃ kv, kv ∈ value_counts (column_of df col)
                  ∧ name e = kv.1 ∧ count e = kv.2
                  ∧ percentage e = percentage_of kv.2 (df_len df)).
  { intros e (kv & -> & Hkv)%list_elem_of_fmap. by exists kv. }
  split_and!.
  - by rewrite Hnames.
  - intros v. by rewrite Hnames.
  - intros e (kv & Hkv & Hn & Hc & Hp)%Hentry. destruct kv as [w m].
    simpl in *. rewrite Hn, Hc, Hp.
    assert (w ∈ column_of df col) as Hw.
    { apply Hkeys. apply list_elem_of_fmap. by exists (w, m). }
    pose proof (Hcount w m Hkv) as ->. split_and!; [done| |done].
    unfold occurrences.
    assert (w ∈ filter (λ x, x = w) (column_of df col)) as Hf
      by (by apply list_elem_of_filter).
    destruct (filter _ (column_of df col)); [by apply elem_of_nil in Hf|].
    simpl. lia.
  - intros i j a b Hij Ha Hb. unfold dist_of, entries_of in Ha, Hb.
    rewrite list_lookup_fmap in Ha, Hb.
    destruct (value_counts (column_of df col) !! i) as [x|] eqn:Hx; [|done].
    destruct (value_counts (column_of df col) !! j) as [y|] eqn:Hy; [|done].
    simpl in Ha, Hb. injection Ha as <-. injection Hb as <-. simpl.
    exact (sorted_lookup _ _ i j x y Hsorted Hij Hx Hy).
Qed.

Lemma distribution_entries_witness :
  ∃ stats,
    generate_statistics roster3 = Ok stats
    ∧ ∃ entries,
        stats !! py "gender" = Some (SDist entries)
        ∧ NoDup (name <$> entries)
        ∧ ∀ e, e ∈ entries →
               count e = occurrences (name e) (column_of roster3 (py "性别")).
Proof.
  destruct (distribution_entries roster3) as (stats & Hrun & Hdims).
  - check_enriched.
  - exists stats. split; [exact Hrun|].
    destruct (Hdims (py "gender") (py "性别"))
      as (entries & Hkey & Hnd & _ & Hcount & _); [by_compute|].
    exists entries. split_and!; [exact Hkey | exact Hnd |].
    intros e He. by destruct (Hcount e He).
Defined.

(** ** How [generate_statistics] fails *)

Lemma for_each_outcome {A B} (l : list A) (acc : B) (body : B → A → result B)
    (P : A → Prop) `{∀ x, Decision (P x)} :
  (∀ acc x, x ∈ l → P x → ∃ acc', body acc x = Ok acc') →
  (∀ acc x, x ∈ l → ¬ P x → body acc x = Raise KeyError) →
  (Forall P l ∧ ∃ r, for_each l acc body = Ok r)
  ∨ (¬ Forall P l ∧ for_each l acc body = Raise KeyError).
Proof.
  revert acc. induction l as [|x l IH]; intros acc Hok Hno.
  - left. split; [constructor | by eexists].
  - cbn [for_each]. destruct (decide (P x)) as [Hx|Hx].
    + destruct (Hok acc x) as [acc' ->]; [left | done |].
      cbn [mbind result_bind].
      destruct (IH acc') as [[Hall Hr]|[Hnot Hr]].
      * intros a y Hy. apply Hok. by right.
      * intros a y Hy. apply Hno. by right.
      * left. split; [by constructor | done].
      * right. split; [|done]. by intros [_ ?]%Forall_cons.
    + right. rewrite (Hno acc x) by (left || done).
      split; [|done]. by intros [? _]%Forall_cons.
Qed.

Lemma generate_statistics_cases (df : DataFrame) :
  wf df →
  match lookup_column (columns df) (py "应聘状态") with
  | None => generate_statistics df = Raise KeyError
  | Some status =>
    match str_accessor status with
    | Raise e => generate_statistics df = Raise e
    | Ok _ =>
      (has_columns df statistics_columns
       ∧ ∃ stats, generate_statistics df = Ok stats)
      ∨ (¬ has_columns df statistics_columns
         ∧ generate_statistics df = Raise KeyError)
    end
  end.
Proof.
  intros Hwf.
  destruct (lookup_column (columns df) (py "应聘状态")) as [status|] eqn:Hst;
    last first.
  { unfold generate_statistics, df_getitem. cbv zeta. by rewrite Hst. }
  destruct (str_accessor status) as [[]|e] eqn:Hacc; last first.
  { unfold generate_statistics, df_getitem. cbv zeta. rewrite Hst.
    cbn [mbind result_bind]. unfold str_contains. by rewrite Hacc. }
  destruct (decide (has_columns df statistics_columns)) as [Hcols|Hcols].
  { left. split; [done|].
    destruct (generate_statistics_enriched df) as (stats & _ & Hrun & _).
    - split_and!; [done..|]. unfold column_of. by rewrite Hst.
    - by exists stats. }
  right. split; [done|].
  unfold generate_statistics, df_getitem. cbv zeta. rewrite Hst.
  cbn [mbind result_bind]. unfold str_contains. rewrite Hacc.
  cbn [mbind result_bind].
  match goal with
  | |- context [for_each dimensions ?acc ?body] =>
    destruct (for_each_outcome dimensions acc body
                (λ kc, is_Some (lookup_column (columns df) kc.2)))
      as [[Hall [r Hr]]|[Hnot Hr]]
  end.
  - intros acc [key col] _ Hcol. cbn [snd] in Hcol.
    destruct (column_present df col Hwf Hcol) as [Hget Hlen].
    unfold df_getitem in Hget. destruct (lookup_column (columns df) col);
      [|done]. injection Hget as ->. cbn [mbind result_bind].
    rewrite (distribution_ok df _ Hlen). by eexists.
  - intros acc [key col] _ Hcol. cbn [snd] in Hcol.
    destruct (lookup_column (columns df) col); [|done].
    destruct Hcol. by eexists.
  - rewrite Hr. cbn [mbind result_bind].
    assert (Hschool : lookup_column (columns df) (py "最高学历毕业院校") = None).
    { destruct (lookup_column (columns df) (py "最高学历毕业院校")) as [s|] eqn:Hs;
        [|done].
      destruct Hcols. unfold has_columns, statistics_columns.
      assert (Hdim : ∀ key col, (key, col) ∈ dimensions →
                is_Some (lookup_column (columns df) col)).
      { intros key col Hin.
        exact (proj1 (Forall_forall _ _) Hall (key, col) Hin). }
      repeat (apply Forall_cons; split); try (by apply Forall_nil);
        first [ rewrite Hst; by eexists | rewrite Hs; by eexists
              | apply (Hdim (py "political_status")); by_compute
              | apply (Hdim (py "gender")); by_compute
              | apply (Hdim (py "age_distribution")); by_compute
              | apply (Hdim (py "education")); by_compute
              | apply (Hdim (py "institution_category")); by_compute
              | apply (Hdim (py "major_type")); by_compute
              | apply (Hdim (py "province_distribution")); by_compute ]. }
    unfold _calculate_special_institutions, special_schools, df_getitem.
    cbn [for_each]. rewrite Hschool. done.
  - by rewrite Hr.
Qed.

(** X11. On a well-formed frame [generate_statistics] raises nothing but
    [KeyError] and [AttributeError], so never [ZeroDivisionError], and it
    returns only when the frame has the nine columns it reads. A frame
    without the hire-agreement column gives [KeyError]; one whose
    hire-agreement column has numbers and no string gives [AttributeError];
    one whose hire-agreement column has a string and that lacks another of
    the nine columns gives [KeyError]. *)
Theorem generate_statistics_failures (df : DataFrame) :
  wf df →
  (∀ e, generate_statistics df = Raise e → e = KeyError ∨ e = AttributeError)
  ∧ (∀ stats, generate_statistics df = Ok stats →
              has_columns df statistics_columns)
  ∧ (lookup_column (columns df) (py "应聘状态") = None →
     generate_statistics df = Raise KeyError)
  ∧ ((∃ n, VInt n ∈ column_of df (py "应聘状态")) →
     (∀ s, VStr s ∉ column_of df (py "应聘状态")) →
     generate_statistics df = Raise AttributeError)
  ∧ (∀ c, c ∈ statistics_columns → lookup_column (columns df) c = None →
          (∃ s, VStr s ∈ column_of df (py "应聘状态")) →
          generate_statistics df = Raise KeyError).
Proof.
  intros Hwf. pose proof (generate_statistics_cases df Hwf) as Hcases.
  unfold column_of.
  destruct (lookup_column (columns df) (py "应聘状态")) as [status|] eqn:Hst.
  - cbn [from_option id].
    destruct (str_accessor_cases status) as [Hacc|Hacc]; rewrite Hacc in Hcases.
    + destruct Hcases as [[Hcols [stats Hrun]]|[Hcols Hrun]].
      * split_and!.
        -- intros e He. congruence.
        -- done.
        -- done.
        -- intros [n Hn] Hno.
           rewrite (str_accessor_numbers status n Hn Hno) in Hacc. done.
        -- intros c Hc Hnone _.
           apply (proj1 (Forall_forall _ _) Hcols) in Hc as [s Hs]. congruence.
      * split_and!.
        -- intros e He. left. congruence.
        -- intros stats. congruence.
        -- done.
        -- intros [n Hn] Hno.
           rewrite (str_accessor_numbers status n Hn Hno) in Hacc. done.
        -- done.
    + split_and!.
      * intros e He. right. congruence.
      * intros stats. congruence.
      * done.
      * done.
      * intros c _ _ [s Hs]. rewrite (str_accessor_text status s Hs) in Hacc.
        done.
  - cbn [from_option id]. split_and!.
    + intros e He. left. congruence.
    + intros stats. congruence.
    + done.
    + by intros [n Hn%elem_of_nil].
    + by intros c _ _ [s Hs%elem_of_nil].
Qed.

Lemma generate_statistics_failures_witness :
  generate_statistics cohort_present = Raise KeyError.
Proof.
  destruct (generate_statistics_failures cohort_present)
    as (_ & _ & Hmissing & _).
  - unfold wf. split; by_compute.
  - apply Hmissing. vm_compute. reflexivity.
Defined.

(** ** When a report is produced *)

Lemma getitem_lookup {A} (l : list A) (i : nat) :
  getitem l i = match l !! i with Some a => Ok a | None => Raise IndexError end.
Proof. done. Qed.

Lemma three_clauses_outcome (repr_float : float → str) (data : list entry)
    (l0 l1 l2 : str) :
  match three_clauses repr_float data l0 l1 l2 with
  | Ok _ => (3 ≤ length data)%nat
  | Raise e => e = IndexError ∧ (length data < 3)%nat
  end.
Proof.
  unfold three_clauses. rewrite !getitem_lookup.
  destruct data as [|e0 [|e1 [|e2 r]]]; cbn [lookup list_lookup mbind result_bind length];
    first [ split; [done|lia] | lia ].
Qed.

Lemma guarded_clauses_returns (repr_float : float → str) (data : list entry)
    (placeholder : str) :
  ∃ text, guarded_clauses repr_float data placeholder = Ok text.
Proof.
  unfold guarded_clauses. rewrite !getitem_lookup.
  destruct data as [|e0 [|e1 [|e2 r]]];
    cbn [lookup list_lookup mbind result_bind length Nat.leb]; by eexists.
Qed.

Lemma special_section_returns (statistics : gmap str stat) (report : str) :
  statistics !! py "special_institutions" = None
  ∨ (∃ special, statistics !! py "special_institutions" = Some (STally special)) →
  ∃ text, special_section statistics report = Ok text.
Proof.
  unfold special_section. intros [->|[special ->]]; [by eexists|].
  cbv zeta. case_match; by eexists.
Qed.

Ltac three_clauses_step data :=
  match goal with
  | |- context [three_clauses ?f data ?a ?b ?c] =>
    let H := fresh "Hlen" in
    pose proof (three_clauses_outcome f data a b c) as H;
    destruct (three_clauses f data a b c);
    cbn [mbind result_bind];
    [| destruct H as [-> H]; split; [done | intros ?; lia] ]
  end.

Ltac guarded_clauses_step data :=
  match goal with
  | |- context [guarded_clauses ?f data ?a] =>
    let text := fresh "text" in
    destruct (guarded_clauses_returns f data a) as [text ->];
    cbn [mbind result_bind]
  end.

(** The outcome of the report function on statistics of the shape that
    [generate_statistics] returns. *)
Lemma report_outcome (repr_float : float → str) (day time : str)
    (statistics : gmap str stat) (images : gmap str str)
    (total bilateral trilateral : Z)
    (political gender age education institution major province : list entry) :
  statistics !! py "total_count" = Some (SInt total) →
  statistics !! py "bilateral_count" = Some (SInt bilateral) →
  statistics !! py "trilateral_count" = Some (SInt trilateral) →
  statistics !! py "political_status" = Some (SDist political) →
  statistics !! py "gender" = Some (SDist gender) →
  statistics !! py "age_distribution" = Some (SDist age) →
  statistics !! py "education" = Some (SDist education) →
  statistics !! py "institution_category" = Some (SDist institution) →
  statistics !! py "major_type" = Some (SDist major) →
  statistics !! py "province_distribution" = Some (SDist province) →
  statistics !! py "special_institutions" = None
  ∨ (∃ special, statistics !! py "special_institutions" = Some (STally special)) →
  match generate_markdown_report repr_float day time statistics images with
  | Ok _ =>
    (3 ≤ length political ∧ 2 ≤ length gender ∧ 3 ≤ length age
     ∧ 3 ≤ length education ∧ 3 ≤ length institution)%nat
  | Raise e =>
    e = IndexError
    ∧ ¬ (3 ≤ length political ∧ 2 ≤ length gender ∧ 3 ≤ length age
         ∧ 3 ≤ length education ∧ 3 ≤ length institution)%nat
  end.
Proof.
  intros Ht Hb Htr Hp Hg Ha He Hi Hm Hpr Hsp.
  unfold generate_markdown_report, stat_int, stat_dist. cbv zeta.
  rewrite Ht, Hb, Htr, Hp, Hg, Ha, He, Hi, Hm, Hpr.
  cbn [mbind result_bind].
  three_clauses_step political.
  rewrite !getitem_lookup.
  destruct gender as [|g0 [|g1 gs]];
    cbn [lookup list_lookup mbind result_bind length];
    [split; [done | intros ?; lia].. |].
  three_clauses_step age.
  three_clauses_step education.
  three_clauses_step institution.
  match goal with
  | |- context [special_section statistics ?r] =>
    destruct (special_section_returns statistics r Hsp) as [text ->]
  end.
  cbn [mbind result_bind].
  guarded_clauses_step major.
  guarded_clauses_step province.
  lia.
Qed.

Lemma value_counts_length (s : Series) :
  length (value_counts s) = distinct_values s.
Proof.
  destruct (value_counts_content s) as (Hnd & Hkeys & _).
  unfold distinct_values. rewrite <- (length_fmap fst).
  apply Permutation_length, NoDup_Permutation; [done | apply NoDup_remove_dups |].
  intros w. rewrite Hkeys, elem_of_remove_dups, list_elem_of_filter. tauto.
Qed.

Lemma dist_of_length (df : DataFrame) (col : str) :
  length (dist_of df col) = distinct_values (column_of df col).
Proof.
  unfold dist_of, entries_of. by rewrite length_fmap, value_counts_length.
Qed.

(** X12. The statistics of an enriched dataset yield a report exactly when
    the dataset has at least three distinct political statuses, two genders,
    three cohorts, three education levels and three tiers, missing cells
    apart; otherwise [generate_markdown_report] raises [IndexError]. The
    major-type and province columns, whose sections look at the length first,
    play no part, nor do the chart images. *)
Theorem report_needs_variety (df : DataFrame) :
  enriched df →
  ∃ statistics,
    generate_statistics df = Ok statistics
    ∧ ∀ (repr_float : float → str) (day time : str) (images : gmap str str),
        (varied df →
         ∃ report,
           generate_markdown_report repr_float day time statistics images
           = Ok report)
        ∧ (¬ varied df →
           generate_markdown_report repr_float day time statistics images
           = Raise IndexError).
Proof.
  intros Hdf.
  destruct (generate_statistics_enriched df Hdf)
    as (statistics & special & Hrun & Ht & Hb & Htr & Hdims & Hsp & _).
  exists statistics. split; [done|]. intros repr_float day time images.
  pose proof (report_outcome repr_float day time statistics images _ _ _
                (dist_of df (py "政治面貌")) (dist_of df (py "性别"))
                (dist_of df (py "出生年代")) (dist_of df (py "最高学历"))
                (dist_of df (py "最高学历毕业院校类别-分类1"))
                (dist_of df (py "专业类型")) (dist_of df (py "籍贯-省份"))
                Ht Hb Htr) as Hout.
  rewrite !dist_of_length in Hout. fold (varied df) in Hout.
  destruct (generate_markdown_report repr_float day time statistics images)
    as [report|e].
  - split; [by exists report|]. intros Hno. destruct Hno. apply Hout.
    + apply (Hdims (py "political_status")). by_compute.
    + apply (Hdims (py "gender")). by_compute.
    + apply (Hdims (py "age_distribution")). by_compute.
    + apply (Hdims (py "education")). by_compute.
    + apply (Hdims (py "institution_category")). by_compute.
    + apply (Hdims (py "major_type")). by_compute.
    + apply (Hdims (py "province_distribution")). by_compute.
    + right. by exists special.
  - destruct Hout as [-> Hno].
    + apply (Hdims (py "political_status")). by_compute.
    + apply (Hdims (py "gender")). by_compute.
    + apply (Hdims (py "age_distribution")). by_compute.
    + apply (Hdims (py "education")). by_compute.
    + apply (Hdims (py "institution_category")). by_compute.
    + apply (Hdims (py "major_type")). by_compute.
    + apply (Hdims (py "province_distribution")). by_compute.
    + right. by exists special.
    + split; [done|]. by intros _.
Qed.

Lemma report_needs_variety_witness :
  ∃ statistics,
    generate_statistics roster3 = Ok statistics
    ∧ ∀ (repr_float : float → str) (day time : str) (images : gmap str str),
        generate_markdown_report repr_float day time statistics images
        = Raise IndexError.
Proof.
  destruct (report_needs_variety roster3) as (statistics & Hrun & Hreport).
  - check_enriched.
  - exists statistics. split; [exact Hrun|].
    intros repr_float day time images.
    apply (Hreport repr_float day time images).
    intros (_ & _ & Hcohorts & _). vm_compute in Hcohorts. lia.
Defined.

(** ** What the report reads of a distribution *)

Lemma three_clauses_renamed (repr_float : float → str) (f : value → value)
    (data : list entry) (l0 l1 l2 : str) :
  three_clauses repr_float (renamed f <$> data) l0 l1 l2
  = three_clauses repr_float data l0 l1 l2.
Proof.
  unfold three_clauses. rewrite !getitem_lookup, !list_lookup_fmap.
  destruct (data !! 0%nat), (data !! 1%nat), (data !! 2%nat); done.
Qed.

Section report_reads.
Context (repr_float : float → str) (day time : str).
Context (st st' : gmap str stat) (images : gmap str str).
Context (key : str) (data : list entry) (f : value → value).
Hypothesis Hst : st !! key = Some (SDist data).
Hypothesis Hst' : st' !! key = Some (SDist (renamed f <$> data)).
Hypothesis Hother : ∀ k, key ≠ k → st' !! k = st !! k.

Ltac same_entry k :=
  let H := fresh in
  assert (st' !! k = st !! k) as H by (apply Hother; key_neq);
  rewrite H; clear H.

Ltac open_report :=
  unfold generate_markdown_report, stat_int, stat_dist, special_section;
  cbv zeta.

Ltac close_report :=
  rewrite Hst', Hst; cbn [mbind result_bind];
  rewrite three_clauses_renamed; reflexivity.

Lemma report_reads_political :
  key = py "political_status" →
  generate_markdown_report repr_float day time st' images
  = generate_markdown_report repr_float day time st images.
Proof using Hst Hst' Hother.
  intros Hkey. subst key. open_report.
  same_entry (py "total_count"). same_entry (py "bilateral_count").
  same_entry (py "trilateral_count"). same_entry (py "gender").
  same_entry (py "age_distribution"). same_entry (py "education").
  same_entry (py "institution_category"). same_entry (py "major_type").
  same_entry (py "province_distribution"). same_entry (py "special_institutions").
  close_report.
Qed.

Lemma report_reads_gender :
  key = py "gender" →
  generate_markdown_report repr_float day time st' images
  = generate_markdown_report repr_float day time st images.
Proof using Hst Hst' Hother.
  intros Hkey. subst key. open_report.
  same_entry (py "total_count"). same_entry (py "bilateral_count").
  same_entry (py "trilateral_count"). same_entry (py "political_status").
  same_entry (py "age_distribution"). same_entry (py "education").
  same_entry (py "institution_category"). same_entry (py "major_type").
  same_entry (py "province_distribution"). same_entry (py "special_institutions").
  rewrite Hst', Hst. cbn [mbind result_bind].
  rewrite !getitem_lookup, !list_lookup_fmap.
  destruct (data !! 0%nat), (data !! 1%nat); reflexivity.
Qed.

Lemma report_reads_age :
  key = py "age_distribution" →
  generate_markdown_report repr_float day time st' images
  = generate_markdown_report repr_float day time st images.
Proof using Hst Hst' Hother.
  intros Hkey. subst key. open_report.
  same_entry (py "total_count"). same_entry (py "bilateral_count").
  same_entry (py "trilateral_count"). same_entry (py "political_status").
  same_entry (py "gender"). same_entry (py "education").
  same_entry (py "institution_category"). same_entry (py "major_type").
  same_entry (py "province_distribution"). same_entry (py "special_institutions").
  close_report.
Qed.

Lemma report_reads_education :
  key = py "education" →
  generate_markdown_report repr_float day time st' images
  = generate_markdown_report repr_float day time st images.
Proof using Hst Hst' Hother.
  intros Hkey. subst key. open_report.
  same_entry (py "total_count"). same_entry (py "bilateral_count").
  same_entry (py "trilateral_count"). same_entry (py "political_status").
  same_entry (py "gender"). same_entry (py "age_distribution").
  same_entry (py "institution_category"). same_entry (py "major_type").
  same_entry (py "province_distribution"). same_entry (py "special_institutions").
  close_report.
Qed.

Lemma report_reads_institution :
  key = py "institution_category" →
  generate_markdown_report repr_float day time st' images
  = generate_markdown_report repr_float day time st images.
Proof using Hst Hst' Hother.
  intros Hkey. subst key. open_report.
  same_entry (py "total_count"). same_entry (py "bilateral_count").
  same_entry (py "trilateral_count"). same_entry (py "political_status").
  same_entry (py "gender"). same_entry (py "age_distribution").
  same_entry (py "education"). same_entry (py "major_type").
  same_entry (py "province_distribution"). same_entry (py "special_institutions").
  close_report.
Qed.

End report_reads.

(** X13. The five sentences of the report with fixed labels (political
    status, gender, age, education, tier) take their figures from the
    entries by position and never read the names of the entries: the report
    is the same whatever the names are. *)
Theorem report_labels_by_position (repr_float : float → str) (day time : str)
    (statistics : gmap str stat) (images : gmap str str) (key : str)
    (data : list entry) (f : value → value) :
  key ∈ fixed_sections →
  statistics !! key = Some (SDist data) →
  generate_markdown_report repr_float day time
    (<[key := SDist (renamed f <$> data)]> statistics) images
  = generate_markdown_report repr_float day time statistics images.
Proof.
  intros Hkey Hdata.
  pose proof (lookup_insert_eq statistics key (SDist (renamed f <$> data)))
    as Hnew.
  pose proof (λ k, lookup_insert_ne statistics key k
                     (SDist (renamed f <$> data))) as Hother.
  unfold fixed_sections in Hkey.
  repeat (apply elem_of_cons in Hkey as [Hkey|Hkey]);
    [..|by apply elem_of_nil in Hkey].
  - by apply (report_reads_political _ _ _ _ _ _ key data f).
  - by apply (report_reads_gender _ _ _ _ _ _ key data f).
  - by apply (report_reads_age _ _ _ _ _ _ key data f).
  - by apply (report_reads_education _ _ _ _ _ _ key data f).
  - by apply (report_reads_institution _ _ _ _ _ _ key data f).
Qed.

Lemma report_labels_by_position_witness :
  generate_markdown_report (λ _, []) [] []
    (<[py "gender" :=
         SDist (renamed (λ _, S "男")
                  <$> [ {| name := S "女"; count := 5; percentage := 62.5 |};
                        {| name := S "男"; count := 3; percentage := 37.5 |} ])]>
       sample_statistics) ∅
  = generate_markdown_report (λ _, []) [] [] sample_statistics ∅.
Proof.
  apply (report_labels_by_position (λ _, []) [] [] sample_statistics ∅
           (py "gender")).
  - by_compute.
  - vm_compute. reflexivity.
Defined.

(** ** Chart images *)

Lemma process_chart_image_cases (image_data : str) :
  startswith (py "data:image/png;base64,") (process_chart_image image_data)
  = true
  ∧ process_chart_image (process_chart_image image_data)
    = process_chart_image image_data.
Proof.
  unfold process_chart_image.
  generalize (py "data:image/png;base64,"). intros prefix.
  assert (Hpre : startswith prefix (prefix ++ image_data) = true).
  { apply startswith_spec. by exists image_data. }
  destruct (startswith prefix image_data) eqn:Hs; cbn [negb].
  - by rewrite Hs.
  - by rewrite Hpre.
Qed.

(** X14. [process_chart_image] returns a data URL: its result always starts
    with the PNG data-URL prefix; data that has the prefix is returned as it
    is, other data gets the prefix in front; and processing twice is
    processing once, so that the report is the same whether its caller hands
    it raw or processed images. *)
Theorem process_chart_image_prefixed (image_data : str) :
  startswith (py "data:image/png;base64,") (process_chart_image image_data)
  = true
  ∧ ((∃ post, image_data = py "data:image/png;base64," ++ post) →
     process_chart_image image_data = image_data)
  ∧ ((∀ post, image_data ≠ py "data:image/png;base64," ++ post) →
     process_chart_image image_data
     = py "data:image/png;base64," ++ image_data)
  ∧ process_chart_image (process_chart_image image_data)
    = process_chart_image image_data
  ∧ (∀ (repr_float : float → str) (day time : str)
       (statistics : gmap str stat) (images : gmap str str),
       generate_markdown_report repr_float day time statistics
         (process_chart_image <$> images)
       = generate_markdown_report repr_float day time statistics images).
Proof.
  split_and!.
  - apply process_chart_image_cases.
  - unfold process_chart_image. intros [post ->].
    assert (startswith (py "data:image/png;base64,")
              (py "data:image/png;base64," ++ post) = true) as ->; [|done].
    apply startswith_spec. by exists post.
  - unfold process_chart_image. intros Hno.
    destruct (startswith _ image_data) eqn:Hs; [|done].
    apply startswith_spec in Hs as [post Hpost]. by destruct (Hno post).
  - apply process_chart_image_cases.
  - intros repr_float day time statistics images.
    unfold generate_markdown_report. cbv zeta.
    rewrite <- map_fmap_compose.
    rewrite (map_fmap_ext (process_chart_image ∘ process_chart_image)
               process_chart_image images); [done|].
    intros _ s _. apply process_chart_image_cases.
Qed.

(** ** The legacy summary *)

Lemma labelled_column (df : DataFrame) (c : str) :
  wf df → has_label df c = true →
  df_getitem df c = Ok (column_of df c)
  ∧ length (column_of df c) = index_len df.
Proof.
  intros Hwf Hc%has_label_true%label_present. by apply column_present.
Qed.

Lemma summary_dimension_keys : NoDup summary_dimensions.*1.
Proof. by_compute. Qed.

Lemma calculate_statistics_run (df : DataFrame) (status : Series) :
  wf df →
  lookup_column (columns df) (py "应聘状态") = Some status →
  str_accessor status = Ok () →
  calculate_statistics df =
    Ok (<[py "special_institutions" :=
            MList (if has_label df (py "最高学历毕业院校")
                   then name_values
                          (head 10 (value_counts
                                      (column_of df (py "最高学历毕业院校"))))
                   else [])]>
          (foldl (λ stats kc,
                    <[kc.1 := MList (if has_label df kc.2
                                     then name_values
                                            (value_counts (column_of df kc.2))
                                     else [])]> stats)
                 (<[py "trilateral_count" := MInt 0]>
                    (<[py "bilateral_count" :=
                         MInt (count_where (has_marker (py "已签约")) status)]>
                       (<[py "total_count" := MInt (df_len df)]> ∅)))
                 summary_dimensions)).
Proof.
  intros Hwf Hst Hacc.
  assert (Hlen : length status = index_len df).
  { destruct (column_present df (py "应聘状态") Hwf) as [_ Hlen];
      [by eexists|]. unfold column_of in Hlen. by rewrite Hst in Hlen. }
  assert (Hget : df_getitem df (py "应聘状态") = Ok status)
    by (unfold df_getitem; by rewrite Hst).
  unfold calculate_statistics. cbv zeta.
  rewrite Hget. cbn [mbind result_bind]. unfold str_contains. rewrite Hacc.
  cbn [mbind result_bind].
  rewrite (for_each_ok _ _ _
    (λ stats kc,
       <[kc.1 := MList (if has_label df kc.2
                        then name_values (value_counts (column_of df kc.2))
                        else [])]> stats)); last first.
  { intros acc [key col] _. cbn [fst snd].
    destruct (has_label df col) eqn:Hl; [|done].
    destruct (labelled_column df col Hwf Hl) as [-> _]. done. }
  cbn [mbind result_bind].
  rewrite <- (mask_count df (has_marker (py "已签约")) status Hlen).
  destruct (has_label df (py "最高学历毕业院校")) eqn:Hl; [|reflexivity].
  destruct (labelled_column df _ Hwf Hl) as [-> _]. reflexivity.
Qed.

(** What [calculate_statistics] returns, key by key. *)
Lemma calculate_statistics_content (df : DataFrame) :
  wf df →
  (lookup_column (columns df) (py "应聘状态") = None →
   calculate_statistics df = Raise KeyError)
  ∧ ((∃ s, VStr s ∈ column_of df (py "应聘状态")) →
     ∃ stats schools,
       calculate_statistics df = Ok stats
       ∧ stats !! py "total_count" = Some (MInt (df_len df))
       ∧ stats !! py "bilateral_count"
         = Some (MInt (count_where (has_marker (py "已签约"))
                                   (column_of df (py "应聘状态"))))
       ∧ stats !! py "trilateral_count" = Some (MInt 0)
       ∧ (∀ key col, (key, col) ∈ summary_dimensions →
            (col ∉ (columns df).*1 → stats !! key = Some (MList []))
            ∧ (col ∈ (columns df).*1 →
               stats !! key
               = Some (MList (name_values
                                (value_counts (column_of df col))))))
       ∧ stats !! py "special_institutions" = Some (MList schools)
       ∧ (length schools ≤ 10)%nat
       ∧ (py "最高学历毕业院校" ∉ (columns df).*1 → schools = [])
       ∧ (py "最高学历毕业院校" ∈ (columns df).*1 →
          schools
          = name_values
              (take 10 (value_counts
                          (column_of df (py "最高学历毕业院校")))))).
Proof.
  intros Hwf. split.
  { intros Hnone. unfold calculate_statistics, df_getitem. cbv zeta.
    by rewrite Hnone. }
  intros [s Hs]. unfold column_of in *.
  destruct (lookup_column (columns df) (py "应聘状态")) as [status|] eqn:Hst;
    [|by apply elem_of_nil in Hs].
  cbn [from_option id] in *.
  pose proof (calculate_statistics_run df status Hwf Hst
                (str_accessor_text status s Hs)) as Hrun.
  eexists _, _. split; [exact Hrun|]. split_and!.
  - rewrite lookup_insert_ne by key_neq.
    rewrite fold_insert_other by by_compute.
    do 2 (rewrite lookup_insert_ne by key_neq). by rewrite lookup_insert_eq.
  - rewrite lookup_insert_ne by key_neq.
    rewrite fold_insert_other by by_compute.
    rewrite lookup_insert_ne by key_neq. by rewrite lookup_insert_eq.
  - rewrite lookup_insert_ne by key_neq.
    rewrite fold_insert_other by by_compute.
    by rewrite lookup_insert_eq.
  - intros key col Hin.
    assert (Hkey : py "special_institutions" ≠ key).
    { intros <-.
      assert (py "special_institutions" ∉ summary_dimensions.*1) as Hno
        by by_compute.
      apply Hno, list_elem_of_fmap.
      exists (py "special_institutions", col). split; [reflexivity | exact Hin]. }
    rewrite lookup_insert_ne by done.
    rewrite (fold_insert_lookup _ _ _ key col summary_dimension_keys Hin).
    cbn [fst snd]. split.
    + intros Hno. destruct (has_label df col) eqn:Hl; [|done].
      by apply has_label_true in Hl.
    + intros Hyes%has_label_true. by rewrite Hyes.
  - by rewrite lookup_insert_eq.
  - destruct (has_label df _); [|simpl; lia].
    unfold name_values, head. rewrite length_fmap, length_take. lia.
  - intros Hno. destruct (has_label df _) eqn:Hl; [|done].
    by apply has_label_true in Hl.
  - intros Hyes%has_label_true. by rewrite Hyes.
Qed.

(** X15. [calculate_statistics] reads the hire-agreement column without a
    check, so a frame without it gives [KeyError]. On a frame whose
    hire-agreement column has a string it returns: the number of records; as
    [bilateral_count] the number of records whose agreement contains 已签约; a
    [trilateral_count] of 0 whatever the data; for each of the seven
    dimensions the values of its column with their counts, and an empty list
    when the frame has no such column; and at most ten schools. *)
Theorem calculate_statistics_summary (df : DataFrame) :
  wf df →
  (lookup_column (columns df) (py "应聘状态") = None →
   calculate_statistics df = Raise KeyError)
  ∧ ((∃ s, VStr s ∈ column_of df (py "应聘状态")) →
     ∃ stats schools,
       calculate_statistics df = Ok stats
       ∧ stats !! py "total_count" = Some (MInt (df_len df))
       ∧ stats !! py "bilateral_count"
         = Some (MInt (count_where (has_marker (py "已签约"))
                                   (column_of df (py "应聘状态"))))
       ∧ stats !! py "trilateral_count" = Some (MInt 0)
       ∧ (∀ key col, (key, col) ∈ summary_dimensions →
            (col ∉ (columns df).*1 → stats !! key = Some (MList []))
            ∧ (col ∈ (columns df).*1 →
               stats !! key
               = Some (MList (name_values
                                (value_counts (column_of df col))))))
       ∧ stats !! py "special_institutions" = Some (MList schools)
       ∧ (length schools ≤ 10)%nat
       ∧ (py "最高学历毕业院校" ∉ (columns df).*1 → schools = [])
       ∧ (py "最高学历毕业院校" ∈ (columns df).*1 →
          schools
          = name_values
              (take 10 (value_counts
                          (column_of df (py "最高学历毕业院校")))))).
Proof.
  apply calculate_statistics_content.
Qed.

Lemma calculate_statistics_summary_witness :
  ∃ stats,
    calculate_statistics roster3 = Ok stats
    ∧ stats !! py "trilateral_count" = Some (MInt 0)
    ∧ stats !! py "age_distribution" = Some (MList []).
Proof.
  destruct (calculate_statistics_summary roster3) as [_ Hsummary].
  - unfold wf. split; by_compute.
  - destruct Hsummary as (stats & schools & Hrun & _ & _ & Htri & Hdims & _).
    + exists (py "已签约(三方)"). by_compute.
    + exists stats. split_and!; [exact Hrun | exact Htri |].
      destruct (Hdims (py "age_distribution") (py "年龄段")) as [Hnone _];
        [by_compute|].
      apply Hnone. by_compute.
Defined.

Lemma enhanced_frame_labels (input : DataFrame) :
  (columns (enhanced_frame input)).*1
  = (columns input).*1
    ++ filter (λ d, d ∉ (columns input).*1) derived_columns.
Proof.
  unfold enhanced_frame, with_column, derived_columns. cbn [columns].
  apply (set_labels_step _ _ [py "是否为海外院校";
                              py "最高学历毕业院校类别-分类1"; py "籍贯-省份"]);
    [|by_compute].
  apply (set_labels_step _ _ [py "是否为海外院校";
                              py "最高学历毕业院校类别-分类1"]); [|by_compute].
  apply (set_labels_step _ _ [py "是否为海外院校"]); [|by_compute].
  apply (set_labels_step _ _ []); [|by_compute].
  by rewrite app_nil_r.
Qed.

(** X16. [calculate_statistics] does not read what [enhance_data] derives:
    its age, tier and province distributions come from columns labelled
    年龄段, 院校分类 and 籍贯省份, none of which [enhance_data] creates. On the
    frame that [enhance_data] returns for an input without these three
    labels, the three distributions are empty, whatever the records are. *)
Theorem legacy_summary_misses_derived (h : heap) (l : ref) (df : DataFrame) :
  h !! l = Some df → wf df → has_columns df source_columns →
  (∃ s, VStr s ∈ column_of df (py "应聘状态")) →
  (∀ c, c ∈ [py "年龄段"; py "院校分类"; py "籍贯省份"] →
        c ∉ (columns df).*1) →
  ∃ out enhanced h' stats,
    enhance_data l h = (Ok out, h')
    ∧ h' !! out = Some enhanced
    ∧ calculate_statistics enhanced = Ok stats
    ∧ stats !! py "age_distribution" = Some (MList [])
    ∧ stats !! py "institution_category" = Some (MList [])
    ∧ stats !! py "province_distribution" = Some (MList [])
    ∧ stats !! py "total_count" = Some (MInt (df_len df)).
Proof.
  intros Hl Hwf Hsrc [s Hs] Hnone.
  assert (Hstatus : column_of (enhanced_frame df) (py "应聘状态")
                    = column_of df (py "应聘状态")).
  { unfold column_of. rewrite enhanced_frame_other; [done|by_compute]. }
  destruct (calculate_statistics_content (enhanced_frame df)) as [_ Hsum].
  { by apply enhanced_frame_wf. }
  destruct Hsum as (stats & schools & Hrun & Htotal & _ & _ & Hdims & _).
  { exists s. by rewrite Hstatus. }
  assert (Habsent : ∀ c, c ∈ [py "年龄段"; py "院校分类"; py "籍贯省份"] →
            c ∉ (columns (enhanced_frame df)).*1).
  { intros c Hc. rewrite enhanced_frame_labels, not_elem_of_app. split.
    - by apply Hnone.
    - intros [_ Hd]%list_elem_of_filter. revert Hd.
      repeat (apply elem_of_cons in Hc as [->|Hc];
              [apply (bool_decide_unpack _); vm_compute; reflexivity|]).
      by apply elem_of_nil in Hc. }
  exists (length h), (enhanced_frame df), (h ++ [enhanced_frame df]), stats.
  split_and!.
  - apply enhance_data_run; [done | by destruct Hwf | done].
  - apply lookup_last.
  - done.
  - destruct (Hdims (py "age_distribution") (py "年龄段")) as [Hempty _];
      [by_compute|]. apply Hempty, Habsent. by_compute.
  - destruct (Hdims (py "institution_category") (py "院校分类")) as [Hempty _];
      [by_compute|]. apply Hempty, Habsent. by_compute.
  - destruct (Hdims (py "province_distribution") (py "籍贯省份")) as [Hempty _];
      [by_compute|]. apply Hempty, Habsent. by_compute.
  - done.
Qed.

Lemma legacy_summary_misses_derived_witness :
  ∃ out enhanced h' stats,
    enhance_data 0%nat [flagship_abroad] = (Ok out, h')
    ∧ h' !! out = Some enhanced
    ∧ calculate_statistics enhanced = Ok stats
    ∧ stats !! py "age_distribution" = Some (MList [])
    ∧ stats !! py "institution_category" = Some (MList [])
    ∧ stats !! py "province_distribution" = Some (MList []).
Proof.
  destruct (legacy_summary_misses_derived [flagship_abroad] 0%nat
              flagship_abroad)
    as (out & enhanced & h' & stats & Hrun & Hout & Hstats & Ha & Hi & Hp & _).
  - reflexivity.
  - unfold wf. split; by_compute.
  - unfold has_columns. by_compute.
  - exists (py "已签约(三方)"). by_compute.
  - intros c Hc.
    repeat (apply elem_of_cons in Hc as [->|Hc]; [by_compute|]).
    by apply elem_of_nil in Hc.
  - exists out, enhanced, h', stats. split_and!; assumption.
Defined.

(** ** The listing of the schools *)

Lemma endswith_snoc (c d : char) (s : str) :
  endswith [c] (s ++ [d]) = (c =? d)%N.
Proof.
  unfold endswith. rewrite rev_unit. cbn [rev app startswith].
  by rewrite andb_true_r.
Qed.

Lemma drop_last_snoc (s : str) (d : char) : drop_last (s ++ [d]) = s.
Proof.
  unfold drop_last. rewrite length_app. cbn [length].
  replace (length s + 1 - 1)%nat with (length s) by lia.
  apply take_app_length.
Qed.

Lemma join_separated (sep : str) (l : list str) :
  l ≠ [] → concat ((λ c, c ++ sep) <$> l) = join sep l ++ sep.
Proof.
  induction l as [|a [|b r] IH]; intros Hl; [done| |].
  - cbn. by rewrite app_nil_r.
  - change (concat ((λ c, c ++ sep) <$> a :: b :: r))
      with ((a ++ sep) ++ concat ((λ c, c ++ sep) <$> b :: r)).
    rewrite IH by done.
    change (join sep (a :: b :: r)) with (a ++ sep ++ join sep (b :: r)).
    by rewrite <- !app_assoc.
Qed.

Lemma add_school_clause (special : gmap str Z) (key label report : str) :
  add_school special key label report
  = report ++ match school_clause special (key, label) with
              | Some c => c ++ py "、"
              | None => []
              end.
Proof.
  unfold add_school, school_clause. cbn [fst snd].
  destruct (Z.ltb_spec 0 (default 0 (special !! key))) as [Hn|Hn].
  - rewrite decide_True by done.
    assert (py "人、" = py "人" ++ py "、") as -> by (vm_compute; reflexivity).
    by rewrite <- !app_assoc.
  - rewrite decide_False by lia. by rewrite app_nil_r.
Qed.

Lemma add_schools (special : gmap str Z) (pairs : list (str * str))
    (report : str) :
  foldl (λ report kl, add_school special kl.1 kl.2 report) report pairs
  = report ++ concat ((λ c, c ++ py "、")
                        <$> omap (school_clause special) pairs).
Proof.
  revert report. induction pairs as [|[key label] pairs IH]; intros report.
  - cbn [foldl omap list_omap fmap list_fmap concat]. by rewrite app_nil_r.
  - cbn [foldl fst snd]. rewrite IH, add_school_clause. cbn [omap list_omap].
    destruct (school_clause special (key, label)) as [c|].
    + rewrite fmap_cons. cbn [concat]. by rewrite <- !app_assoc.
    + by rewrite app_nil_r.
Qed.

Lemma add_same_schools (special : gmap str Z) (schools : list str)
    (report : str) :
  foldl (λ report school, add_school special school school report)
        report schools
  = foldl (λ report kl, add_school special kl.1 kl.2 report) report
          ((λ school, (school, school)) <$> schools).
Proof.
  revert report. induction schools as [|a schools IH]; intros report; [done|].
  cbn [foldl fmap list_fmap fst snd]. apply IH.
Qed.

Lemma add_three_schools (special : gmap str Z) (a a' b b' c c' : str)
    (report : str) :
  add_school special c c'
    (add_school special b b' (add_school special a a' report))
  = foldl (λ report kl, add_school special kl.1 kl.2 report) report
          [(a, a'); (b, b'); (c, c')].
Proof. reflexivity. Qed.

Lemma endswith_separator (sep : str) (c d : char) (s : str) :
  sep = [c] → endswith sep (s ++ [d]) = (c =? d)%N.
Proof. intros ->. apply endswith_snoc. Qed.

Lemma endswith_separated (sep : str) (c : char) (s : str) :
  sep = [c] → endswith sep (s ++ sep) = true.
Proof. intros ->. by rewrite endswith_snoc, N.eqb_refl. Qed.

Lemma drop_last_separated (sep : str) (c : char) (s : str) :
  sep = [c] → drop_last (s ++ sep) = s.
Proof. intros ->. apply drop_last_snoc. Qed.

(** X17. The school section of the report. Without a tally in the
    statistics the section is left out. With one, the section is the heading
    and the opening words followed by the schools whose count is positive, in
    the fixed order 清华大学, 北京大学, C9联盟, 同济大学, 中南大学, 北京交通大学,
    西南交通大学, 兰州交通大学, 大连交通大学, 华东交通大学, each with its count,
    separated by 、 and closed by 。; a school whose count is zero, negative
    or absent is not listed, and when none is listed the opening words stand
    alone. *)
Theorem special_section_listing (statistics : gmap str stat)
    (special : gmap str Z) (report : str) :
  statistics !! py "special_institutions" = Some (STally special) →
  special_section statistics report
  = Ok (report ++ py "#### 重点院校统计" ++ nl ++ nl
        ++ py "引进重点院校人员情况如下："
        ++ match school_clauses special with
           | [] => nl ++ nl
           | clauses => join (py "、") clauses ++ py "。" ++ nl ++ nl
           end).
Proof.
  intros Hsp. unfold special_section. rewrite Hsp. cbv zeta.
  rewrite add_same_schools.
  rewrite (add_three_schools special (py "清华大学") (py "清华大学")
             (py "北京大学") (py "北京大学")
             (py "C9联盟") (py "C9联盟（除清华北大外）")).
  rewrite <- foldl_app. fold listed_schools. rewrite add_schools.
  fold (school_clauses special).
  assert (Hsep : py "、" = [12289%N]) by (vm_compute; reflexivity).
  destruct (school_clauses special) as [|c cs] eqn:Hcs.
  - cbn [fmap list_fmap concat]. rewrite app_nil_r.
    assert (py "引进重点院校人员情况如下："
            = py "引进重点院校人员情况如下" ++ [65306%N]) as Hintro
      by (vm_compute; reflexivity).
    rewrite Hintro at 1. rewrite !app_assoc.
    rewrite (endswith_separator (py "、") 12289%N 65306%N _ Hsep).
    change (12289 =? 65306)%N with false. cbv iota.
    by rewrite <- !app_assoc.
  - rewrite join_separated by done. rewrite !app_assoc.
    rewrite (endswith_separated (py "、") 12289%N _ Hsep).
    by rewrite (drop_last_separated (py "、") 12289%N _ Hsep).
Qed.

Lemma special_section_listing_witness :
  special_section (<[py "special_institutions" := STally sample_tally]> ∅) []
  = Ok (py "#### 重点院校统计" ++ nl ++ nl ++ py "引进重点院校人员情况如下："
        ++ py "清华大学2人、中南大学5人。" ++ nl ++ nl).
Proof.
  rewrite (special_section_listing _ sample_tally []).
  - vm_compute. reflexivity.
  - vm_compute. reflexivity.
Defined.
